(** * KopeCode Java extension: runtime discovery and process supervision

    A shallow embedding of [extensions/kope-java/src/extension.ts].

    The extension talks to its host through the file system, child
    processes, the environment, the editor configuration and one language
    client.  Every such call is written here as a step of a state and
    exception monad over a record [Host]; the record holds what the outside
    world answers and a chronological trace of the calls that were made.

    Conventions of the model:
    - a JavaScript string is a [string] holding its UTF-8 bytes;
    - [console.log], [console.warn] and [console.error] write to the
      developer console only and are left out: no function of the extension
      reads them back;
    - the file system is the set of the paths that exist: [fs.existsSync]
      asks for membership, and [fs.mkdirSync] adds a path or throws the
      error that the operating system answers (a missing parent, a
      read-only installation), which is a field of [Host];
    - a number is [NaN], [Infinity] or a double that holds a natural
      number: [parseInt] rounds to the nearest double and a template
      literal prints the shortest decimal that reads back as that double;
    - a [catch] can receive [null] and [undefined] besides values that
      have properties;
    - Node's [path] module and the language client library are not part of
      the extension; the first is an interface ([NodePath]), the outcomes of
      the second are fields of [Host];
    - the editor window that [activate] shows its dialog in is a second
      record, [Window], around the host. *)

From Stdlib Require Import NArith DecimalString Ascii String.
From stdpp Require Import gmap strings list.

(** ** JavaScript string primitives *)

Module Js.

(** The double quote, written by its code so that no literal has to
    escape it. *)
Definition dquote : ascii := "034"%char.

Definition bytes (l : list nat) : string :=
  foldr (fun n s => String (ascii_of_nat n) s) "" l.

Definition CRLF : string := bytes [13; 10].
Definition LF : string := bytes [10].

(** [\d] of a regular expression without the unicode flag: [0-9]. *)
Definition is_digit (c : ascii) : bool :=
  match c with
  | "0" | "1" | "2" | "3" | "4" | "5" | "6" | "7" | "8" | "9" => true
  | _ => false
  end%char.

Definition digit_value (c : ascii) : N := N_of_ascii c - 48.

Fixpoint all_digits (s : string) : bool :=
  match s with
  | "" => true
  | String c s' => is_digit c && all_digits s'
  end.

(** The longest run of digits at the head of [s], and what follows it. *)
Fixpoint span_digits (s : string) : string * string :=
  match s with
  | "" => ("", "")
  | String c s' =>
      if is_digit c
      then let '(ds, rest) := span_digits s' in (String c ds, rest)
      else ("", s)
  end.

Fixpoint decimal_value (acc : N) (s : string) : N :=
  match s with
  | "" => acc
  | String c s' => decimal_value (10 * acc + digit_value c)%N s'
  end.

(** The numbers that [parseInt] returns on a string without sign: [NaN],
    [Infinity], and the doubles that hold a natural number.  [Finite n] is
    a number of JavaScript when [n] is below 2^53 or has at most 53
    significant bits; [to_double] only builds such values. *)
Inductive number : Type :=
| NaN
| Finite (n : N)
| Infinity.

(** The first power of two that is no double any more. *)
Definition overflow : N := N.shiftl 1 1024.

(** The double nearest to the natural number [v]: [v] itself below 2^53,
    and otherwise [v] rounded to 53 significant bits, to the even
    neighbour when [v] lies halfway, and [Infinity] when that reaches
    2^1024. *)
Definition to_double (v : N) : number :=
  if (v <? 2 ^ 53)%N then Finite v
  else
    let e := (N.log2 v - 52)%N in
    let q := N.shiftr v e in
    let r := (v - N.shiftl q e)%N in
    let half := N.shiftl 1 (e - 1) in
    let q' := if (half <? r)%N || ((r =? half)%N && N.odd q) then (q + 1)%N else q in
    let d := N.shiftl q' e in
    if (overflow <=? d)%N then Infinity else Finite d.

(** [parseInt(s, 10)] on a string without leading white space or sign,
    which is all the extension passes (the digits captured by [\d+]): the
    double nearest to the value of the leading digits, and [NaN] when
    there is none. *)
Definition parseInt (s : string) : number :=
  match fst (span_digits s) with
  | "" => NaN
  | ds => to_double (decimal_value 0 ds)
  end.

(** The decimal digits of a natural number. *)
Definition decimal (n : N) : string :=
  NilEmpty.string_of_uint (N.to_uint n).

Definition rounds_to (n candidate : N) : bool :=
  match to_double candidate with
  | Finite d => (d =? n)%N
  | _ => false
  end.

(** The decimal with the fewest significant digits that reads back as the
    double [n], which has [digits] digits; among several of that length
    the one nearest to [n], and the even one when two are as near.  With
    [k] significant digits the candidates are [n] cut after [k] digits
    and the next number of [k] digits above it; 17 digits always do. *)
Fixpoint shortest (fuel : nat) (k digits n : N) : N :=
  match fuel with
  | O => n
  | S fuel' =>
      let p := (10 ^ (digits - k))%N in
      let lo := (n / p * p)%N in
      let hi := (lo + p)%N in
      match rounds_to n lo, rounds_to n hi with
      | true, true =>
          if (n - lo <? hi - n)%N then lo
          else if (hi - n <? n - lo)%N then hi
          else if N.even (n / p) then lo else hi
      | true, false => lo
      | false, true => hi
      | false, false => shortest fuel' (k + 1)%N digits n
      end
  end.

Fixpoint strip_zeros (reversed : string) : string :=
  match reversed with
  | String "0" rest => strip_zeros rest
  | _ => reversed
  end.

(** The exponent form of a number of more than 21 digits: the first
    significant digit, a dot and the other significant digits if there
    are any, and the exponent. *)
Definition exponential (m : N) : string :=
  let all := decimal m in
  let exponent := decimal (N.of_nat (String.length all) - 1) in
  match String.rev (strip_zeros (String.rev all)) with
  | String d "" => String d ("e+" +:+ exponent)
  | String d rest => String d ("." +:+ rest +:+ "e+" +:+ exponent)
  | "" => all
  end.

(** A number inside a template literal ([Number::toString]): below 2^53
    the digits of the number; above, the shortest decimal that reads back
    as the double, filled up with zeros when it has at most 21 digits and
    in exponent form when it has more. *)
Definition number_to_string (x : number) : string :=
  match x with
  | NaN => "NaN"
  | Infinity => "Infinity"
  | Finite n =>
      if (n <? 2 ^ 53)%N then decimal n
      else
        let m := shortest 17 1 (N.of_nat (String.length (decimal n))) n in
        if Nat.leb (String.length (decimal m)) 21 then decimal m else exponential m
  end.

Arguments to_double : simpl never.
Arguments parseInt : simpl never.
Arguments number_to_string : simpl never.

Fixpoint drop (n : nat) (s : string) : string :=
  match n, s with
  | O, _ => s
  | S _, "" => ""
  | S n', String _ s' => drop n' s'
  end.

(** [String.prototype.includes]. *)
Fixpoint includes (needle s : string) : bool :=
  String.prefix needle s ||
  match s with
  | "" => false
  | String _ s' => includes needle s'
  end.

(** [String.prototype.split] for a separator that is not empty.  [skip]
    counts the bytes of a separator still to be passed over and [cur] is
    the piece being collected. *)
Fixpoint split_from (sep : string) (skip : nat) (cur s : string) : list string :=
  match s with
  | "" => [cur]
  | String c s' =>
      match skip with
      | S k => split_from sep k cur s'
      | O =>
          if String.prefix sep s
          then cur :: split_from sep (String.length sep - 1) "" s'
          else split_from sep 0 (cur +:+ String c "") s'
      end
  end.

Definition split (sep s : string) : list string := split_from sep 0 "" s.

(** White space and line terminators of ECMAScript, as UTF-8: TAB, LF, VT,
    FF, CR, SP, U+00A0, U+1680, U+2000..U+200A, U+2028, U+2029, U+202F,
    U+205F, U+3000 and U+FEFF. *)
Definition white_space : list string :=
  map bytes
    ([[9]; [10]; [11]; [12]; [13]; [32]; [194; 160]; [225; 154; 128]]
     ++ map (fun k => [226; 128; k]) (seq 128 11)
     ++ [[226; 128; 168]; [226; 128; 169]; [226; 128; 175];
         [226; 129; 159]; [227; 128; 128]; [239; 187; 191]]).

Fixpoint strip (tokens : list string) (fuel : nat) (s : string) : string :=
  match fuel with
  | O => s
  | S fuel' =>
      match List.find (fun t => String.prefix t s) tokens with
      | Some t => strip tokens fuel' (drop (String.length t) s)
      | None => s
      end
  end.

Definition trimStart (s : string) : string :=
  strip white_space (String.length s) s.

Definition trimEnd (s : string) : string :=
  String.rev (strip (map String.rev white_space) (String.length s) (String.rev s)).

(** [String.prototype.trim]. *)
Definition trim (s : string) : string := trimEnd (trimStart s).

(** [s.match(re)] for the pattern of the extension, which reads: a double
    quote, then [(\d+)], then a literal dot.  The result is the first
    capture group of the leftmost match, [None] when nothing matches.  At
    a quote, [\d+] takes the whole run of digits; giving digits back
    cannot help, because the next byte would then be a digit and not the
    dot. *)
Fixpoint match_version (s : string) : option string :=
  match s with
  | "" => None
  | String c s' =>
      if Ascii.eqb c dquote then
        match span_digits s' with
        | (String d ds, String "." _) => Some (String d ds)
        | _ => match_version s'
        end
      else match_version s'
  end.

End Js.

(** ** The host of the extension *)

(** A value whose properties can be read, as far as the extension reads
    them: its [message], which is absent when the value is not an
    [Error]. *)
Record JsError := { message : option string }.

(** [new Error(msg)]. *)
Definition new_Error (msg : string) : JsError := {| message := Some msg |}.

(** What a [throw] raises, a promise is rejected with and a
    [catch (error: any)] receives: any value, of which [null] and
    [undefined] have no properties. *)
Inductive Thrown : Type :=
| Null
| Undefined
| Raised (e : JsError).

Coercion Raised : JsError >-> Thrown.

(** The [TypeError] of reading a property of [null] or [undefined], in
    the words of V8, the engine that runs the extension. *)
Definition TypeError_no_properties (value property : string) : JsError :=
  new_Error ("Cannot read properties of " +:+ value
             +:+ " (reading '" +:+ property +:+ "')").

(** A settled promise: fulfilled, or rejected with a value. *)
Inductive Outcome (A : Type) : Type :=
| Return (a : A)
| Throw (e : Thrown).
Arguments Return {A} a.
Arguments Throw {A} e.

(** What the callback of [cp.exec] receives. *)
Inductive ExecResult : Type :=
| ExecFailed (error : JsError)
| ExecDone (stdout stderr : string).

(** The server options a [LanguageClient] is constructed with, and its
    identifier and display name. *)
Record Client := {
  client_id : string;
  client_name : string;
  command : string;
  args : list string
}.

(** The calls the extension makes on its host, in the order it makes them. *)
Inductive Event : Type :=
| ExistsSync (p : string)
| MkdirSync (p : string)
| Exec (cmd : string)
| GetConfiguration (section key : string)
| ProcessEnv (name : string)
| NewLanguageClient (c : Client)
| ClientStart (c : Client)
| ClientStop (c : Client)
| SetTimeout (ms : N)
| ShowErrorMessage (msg : string)
| ShowInformationMessage (msg : string).

Record Host := {
  fs : gset string;                       (* the paths that exist *)
  env : gmap string string;               (* process.env *)
  settings : gmap string string;          (* the workspace configuration *)
  exec_answer : string -> ExecResult;     (* how a command line ends *)
  mkdir_answer : string -> option JsError; (* the error of creating a directory *)
  start_answer : Client -> Outcome unit;  (* how client.start() settles *)
  stop_answer : Client -> Outcome unit;   (* how client.stop() settles *)
  client : option Client;                 (* the module variable [client] *)
  trace : list Event
}.

Definition with_fs (f : gset string) (h : Host) : Host :=
  {| fs := f; env := env h; settings := settings h;
     exec_answer := exec_answer h; mkdir_answer := mkdir_answer h;
     start_answer := start_answer h;
     stop_answer := stop_answer h; client := client h; trace := trace h |}.

Definition with_settings (s : gmap string string) (h : Host) : Host :=
  {| fs := fs h; env := env h; settings := s;
     exec_answer := exec_answer h; mkdir_answer := mkdir_answer h;
     start_answer := start_answer h;
     stop_answer := stop_answer h; client := client h; trace := trace h |}.

Definition with_client (c : option Client) (h : Host) : Host :=
  {| fs := fs h; env := env h; settings := settings h;
     exec_answer := exec_answer h; mkdir_answer := mkdir_answer h;
     start_answer := start_answer h;
     stop_answer := stop_answer h; client := c; trace := trace h |}.

Definition with_trace (t : list Event) (h : Host) : Host :=
  {| fs := fs h; env := env h; settings := settings h;
     exec_answer := exec_answer h; mkdir_answer := mkdir_answer h;
     start_answer := start_answer h;
     stop_answer := stop_answer h; client := client h; trace := t |}.

(** Record the events [evs] after those already in the trace. *)
Definition log_all (evs : list Event) (h : Host) : Host :=
  with_trace (trace h ++ evs) h.

Definition log (e : Event) : Host -> Host := log_all [e].

(** ** The monad of host calls: state, and exceptions that keep the state *)

Definition M (A : Type) : Type := Host -> Outcome A * Host.

#[global] Instance M_ret : MRet M := fun A a h => (Return a, h).

#[global] Instance M_bind : MBind M := fun A B f m h =>
  match m h with
  | (Return a, h') => f a h'
  | (Throw e, h') => (Throw e, h')
  end.

Definition throw {A : Type} (e : Thrown) : M A := fun h => (Throw e, h).

(** [try { body } catch (error) { handler }]. *)
Definition try_catch {A : Type} (body : M A) (handler : Thrown -> M A) : M A :=
  fun h =>
    match body h with
    | (Return a, h') => (Return a, h')
    | (Throw e, h') => handler e h'
    end.

(** [await p] for a promise that has already settled. *)
Definition await {A : Type} (p : Outcome A) : M A :=
  match p with
  | Return a => mret a
  | Throw e => throw e
  end.

Definition emit (e : Event) : M unit := fun h => (Return tt, log e h).

(** The first read of [error.message] in a [catch (error: any)]: it hands
    over the value with its properties, and throws when the value has
    none. *)
Definition read_properties (error : Thrown) : M JsError :=
  match error with
  | Raised e => mret e
  | Null => throw (TypeError_no_properties "null" "message")
  | Undefined => throw (TypeError_no_properties "undefined" "message")
  end.

(** *** Host calls *)

Definition existsSync (p : string) : M bool :=
  fun h => (Return (bool_decide (p ∈ fs h)), log (ExistsSync p) h).

(** [fs.mkdirSync(p)], without the [recursive] option: the directory is
    there afterwards, or the error of the operating system is thrown. *)
Definition mkdirSync (p : string) : M unit :=
  fun h =>
    match mkdir_answer h p with
    | None => (Return tt, log (MkdirSync p) (with_fs ({[p]} ∪ fs h) h))
    | Some error => (Throw error, log (MkdirSync p) h)
    end.

Definition cp_exec (cmd : string) : M ExecResult :=
  fun h => (Return (exec_answer h cmd), log (Exec cmd) h).

(** [vscode.workspace.getConfiguration(section).get(key)]. *)
Definition getConfiguration (section key : string) : M (option string) :=
  fun h => (Return (settings h !! (section +:+ "." +:+ key)),
            log (GetConfiguration section key) h).

(** [process.env[name]]. *)
Definition process_env (name : string) : M (option string) :=
  fun h => (Return (env h !! name), log (ProcessEnv name) h).

(** Truthiness of a value of type [string | undefined]. *)
Definition truthy (v : option string) : bool :=
  match v with
  | Some (String _ _) => true
  | _ => false
  end.

Definition get_client : M (option Client) := fun h => (Return (client h), h).

Definition set_client (c : option Client) : M unit :=
  fun h => (Return tt, with_client c h).

(** [client = new LanguageClient(...)]. *)
Definition new_LanguageClient (c : Client) : M unit :=
  emit (NewLanguageClient c) ;; set_client (Some c).

(** [client.start()] and [client.stop()]: the call is made and the promise
    it returns is handed back. *)
Definition client_start (c : Client) : M (Outcome unit) :=
  fun h => (Return (start_answer h c), log (ClientStart c) h).

Definition client_stop (c : Client) : M (Outcome unit) :=
  fun h => (Return (stop_answer h c), log (ClientStop c) h).

(** [setTimeout(callback, ms)]: the callback runs after the caller has
    returned and is not part of the call. *)
Definition setTimeout (ms : N) : M unit := emit (SetTimeout ms).

Definition showErrorMessage (msg : string) : M unit := emit (ShowErrorMessage msg).

Definition showInformationMessage (msg : string) : M unit :=
  emit (ShowInformationMessage msg).

(** Node's [path] module. *)
Class NodePath := {
  join : list string -> string;
  dirname : string -> string
}.

(** ** The extension *)

Definition MIN_JAVA_VERSION : N := 17.
Definition MAX_JAVA_VERSION : N := 99.

(** The part of [vscode.ExtensionContext] that the extension reads. *)
Record ExtensionContext := { extensionPath : string }.

(** The result of [validateJavaPath]: [{ isValid: true, path }] or
    [{ isValid: false, reason }]. *)
Inductive ValidationResult : Type :=
| Valid (path : string)
| Invalid (reason : string).

(** [v >= n] and [v <= n] for a number [v] and a constant [n]. *)
Definition number_ge (v : Js.number) (n : N) : bool :=
  match v with
  | Js.NaN => false
  | Js.Finite x => (n <=? x)%N
  | Js.Infinity => true
  end.

Definition number_le (v : Js.number) (n : N) : bool :=
  match v with
  | Js.NaN => false
  | Js.Finite x => (x <=? n)%N
  | Js.Infinity => false
  end.

Section Extension.

Context `{NodePath}.

Definition execPromise (command : string) : M (string * string) :=
  r ← cp_exec command;
  match r with
  | ExecFailed error => throw error
  | ExecDone stdout stderr => mret (stdout, stderr)
  end.

(** The command line of the version query: the quoted executable,
    followed by [-version]. *)
Definition version_command (javaExe : string) : string :=
  String Js.dquote (javaExe +:+ String Js.dquote " -version").

Definition supported_range : string :=
  Js.number_to_string (Js.Finite MIN_JAVA_VERSION) +:+ "-" +:+
  Js.number_to_string (Js.Finite MAX_JAVA_VERSION).

Definition validateJavaPath (javaHomePath : string) : M ValidationResult :=
  found ← existsSync javaHomePath;
  if negb found
  then mret (Invalid "The specified directory does not exist.")
  else
    let javaExe := join [javaHomePath; "bin"; "java.exe"] in
    found ← existsSync javaExe;
    if negb found
    then mret (Invalid ("The file '" +:+ javaExe +:+ "' does not exist."))
    else
      let javacExe := join [javaHomePath; "bin"; "javac.exe"] in
      found ← existsSync javacExe;
      if negb found
      then mret (Invalid "It is not a JDK (missing 'javac.exe').")
      else
        try_catch
          ('(_, stderr) ← execPromise (version_command javaExe);
           match Js.match_version stderr with
           | Some (String _ _ as digits) =>
               let majorVersion := Js.parseInt digits in
               if number_ge majorVersion MIN_JAVA_VERSION
                  && number_le majorVersion MAX_JAVA_VERSION
               then mret (Valid javaExe)
               else mret (Invalid ("Version " +:+ Js.number_to_string majorVersion
                                   +:+ " is outside supported range ("
                                   +:+ supported_range +:+ ")."))
           | _ => mret (Invalid "Could not determine Java version.")
           end)
          (fun _ =>
             mret (Invalid "Could not execute 'java -version' successfully.")).

(** The [for] loop over the lines that [where java] printed: it leaves
    the function with the first path that validates ([Some]) and falls
    out of the loop otherwise ([None]). *)
Fixpoint probe_search_path (javaPaths : list string) : M (option string) :=
  match javaPaths with
  | [] => mret None
  | javaPath :: others =>
      let jdkHome := dirname (dirname javaPath) in
      result ← validateJavaPath jdkHome;
      match result with
      | Valid path => mret (Some path)
      | Invalid _ => probe_search_path others
      end
  end.

Definition no_runtime_message : string :=
  "KopeCode could not find a compatible Java Development Kit (JDK version "
  +:+ supported_range +:+ ") on your system." +:+ Js.LF +:+ Js.LF
  +:+ "Please:" +:+ Js.LF
  +:+ "1. Install a compatible JDK (Oracle JDK, OpenJDK, or Eclipse Temurin)"
  +:+ Js.LF
  +:+ "2. Set the JAVA_HOME environment variable, or" +:+ Js.LF
  +:+ "3. Configure the 'kope-java.javaHome' setting in VS Code".

Definition invalid_setting_message (userPath reason : string) : string :=
  "Invalid Java installation at '" +:+ userPath +:+ "'. " +:+ reason.

(** Steps 3 and 4 of [findValidJavaRuntime]: the search path, and the
    failure when nothing was found.  The [catch] swallows a failure of
    [where java] and control falls through to step 4. *)
Definition search_path : M string :=
  fromPath ←
    try_catch
      ('(stdout, _) ← execPromise "where java";
       probe_search_path (Js.split Js.CRLF (Js.trim stdout)))
      (fun _ => mret None);
  match fromPath with
  | Some path => mret path
  | None => throw (new_Error no_runtime_message)
  end.

(** Step 2 of [findValidJavaRuntime], followed by steps 3 and 4.  The
    source reads [process.env.JAVA_HOME] once for the test and once more
    for the call; nothing writes the environment in between, and one read
    is made here. *)
Definition search_environment : M string :=
  javaHome ← process_env "JAVA_HOME";
  match javaHome with
  | Some (String _ _ as home) =>
      result ← validateJavaPath home;
      match result with
      | Valid path => mret path
      | Invalid _ => search_path
      end
  | _ => search_path
  end.

Definition findValidJavaRuntime (context : ExtensionContext) : M string :=
  userPath ← getConfiguration "kope-java" "javaHome";
  match userPath with
  | Some (String _ _ as userPath) =>
      result ← validateJavaPath userPath;
      match result with
      | Valid path => mret path
      | Invalid reason => throw (new_Error (invalid_setting_message userPath reason))
      end
  | _ => search_environment
  end.

Definition jar_missing_message (serverJarPath : string) : string :=
  "Java Language Server jar not found at: " +:+ serverJarPath +:+ "." +:+ Js.LF
  +:+ "Please reinstall the KopeCode Java extension.".

(** The message built by the [catch] of [client.start()]. *)
Definition start_failure_message (error : JsError) : string :=
  "Failed to start Java Language Server. " +:+
  match message error with
  | Some m =>
      if Js.includes "ENOENT" m
      then "Java executable not found. Please verify the configured path."
      else if Js.includes "spawn" m
      then "Could not spawn Java process. Ensure it’s a valid executable."
      else match m with String _ _ => m | "" => "Unknown error." end
  | None => "Unknown error."
  end.

Definition server_data_path (context : ExtensionContext) : string :=
  join [extensionPath context; "server-data"].

Definition server_jar_path (context : ExtensionContext) : string :=
  join [extensionPath context; "server"; "jdt-language-server.jar"].

(** The client that [launchLanguageServer] constructs: its server options
    are the executable and the fixed launch arguments. *)
Definition language_client (context : ExtensionContext) (javaCmdPath : string)
  : Client :=
  {| client_id := "kopeJavaLanguageServer";
     client_name := "KopeCode Java Language Server";
     command := javaCmdPath;
     args := ["-jar"; server_jar_path context;
              "-configuration";
              join [extensionPath context; "server"; "config_win"];
              "-data"; server_data_path context] |}.

(** The [catch] of [client.start()]: the failure is shown and thrown on
    as a new error. *)
Definition report_start_failure (error : Thrown) : M unit :=
  error ← read_properties error;
  let errorMessage := start_failure_message error in
  showErrorMessage errorMessage ;;
  throw (new_Error errorMessage).

(** The data directory is there or can be created. *)
Definition data_directory_ready (context : ExtensionContext) (h : Host) : Prop :=
  server_data_path context ∈ fs h \/ mkdir_answer h (server_data_path context) = None.

Definition launchLanguageServer (context : ExtensionContext) (javaCmdPath : string)
  : M unit :=
  let serverDataPath := server_data_path context in
  found ← existsSync serverDataPath;
  (if negb found then mkdirSync serverDataPath else mret tt) ;;
  let serverJarPath := server_jar_path context in
  found ← existsSync serverJarPath;
  if negb found
  then throw (new_Error (jar_missing_message serverJarPath))
  else
    let c := language_client context javaCmdPath in
    new_LanguageClient c ;;
    try_catch
      (started ← client_start c;
       await started ;;
       setTimeout 1500)
      report_start_failure.

(** [error.message] inside a template literal. *)
Definition message_text (error : JsError) : string :=
  default "undefined" (message error).

(** The [catch] of [restartLanguageServer]: the failure is shown and not
    thrown on. *)
Definition report_restart_failure (error : Thrown) : M unit :=
  error ← read_properties error;
  showErrorMessage ("❌ Failed to restart Java Language Server: "
                    +:+ message_text error).

Definition restartLanguageServer (context : ExtensionContext) : M unit :=
  try_catch
    (current ← get_client;
     match current with
     | Some c =>
         stopped ← client_stop c;
         await stopped ;;
         set_client None
     | None => mret tt
     end ;;
     javaCmdPath ← findValidJavaRuntime context;
     launchLanguageServer context javaCmdPath ;;
     showInformationMessage "✅ Java Language Server restarted successfully!")
    report_restart_failure.

(** [deactivate]: [undefined] ([None]) without a client, and otherwise the
    promise of [client.stop()], which is returned and not awaited. *)
Definition deactivate : M (option (Outcome unit)) :=
  current ← get_client;
  match current with
  | None => mret None
  | Some c => stopped ← client_stop c; mret (Some stopped)
  end.

End Extension.

(** ** Observing a run *)

(** The outcome of running [m] on [h], and the events the run added to the
    trace. *)
Definition result_of {A : Type} (m : M A) (h : Host) : Outcome A := fst (m h).

Definition events_of {A : Type} (m : M A) (h : Host) : list Event :=
  drop (length (trace h)) (trace (snd (m h))).

(** Events that ask the host a question and change nothing. *)
Definition is_query (e : Event) : bool :=
  match e with
  | ExistsSync _ | Exec _ | GetConfiguration _ _ | ProcessEnv _ => true
  | _ => false
  end.

(** Events that construct a language client or start its process. *)
Definition constructs_or_spawns (e : Event) : bool :=
  match e with
  | NewLanguageClient _ | ClientStart _ => true
  | _ => false
  end.

Definition consults_environment (e : Event) : bool :=
  match e with
  | ProcessEnv _ => true
  | _ => false
  end.

Definition consults_search_path (e : Event) : bool :=
  match e with
  | Exec cmd => String.eqb cmd "where java"
  | _ => false
  end.

(** Two hosts that answer every file, environment and process question
    alike; [same_inputs] adds the configuration. *)
Definition same_files (h h' : Host) : Prop :=
  fs h = fs h' /\ env h = env h' /\ exec_answer h = exec_answer h'.

Definition same_inputs (h h' : Host) : Prop :=
  same_files h h' /\ settings h = settings h'.

(** [m] only asks questions: on every host its outcome and its events are
    fixed by what the relation [R] keeps, and it leaves the rest of the
    host as it found it. *)
Definition Queries (R : Host -> Host -> Prop) {A : Type} (m : M A) : Prop :=
  forall h, exists r evs,
    forallb is_query evs = true /\
    forall h', R h h' -> m h' = (r, log_all evs h').

(** ** Validation as the specification words it: five checks in order *)

Inductive Check : Type :=
| RootExists
| InterpreterExists
| CompilerExists
| VersionQuery
| VersionRange.

Definition check_order : list Check :=
  [RootExists; InterpreterExists; CompilerExists; VersionQuery; VersionRange].

Section Checks.

Context `{NodePath}.

Definition java_exe (root : string) : string := join [root; "bin"; "java.exe"].
Definition javac_exe (root : string) : string := join [root; "bin"; "javac.exe"].

(** The major version that the version query of [root] yields, if the
    query runs to its end and its standard error holds a version token. *)
Definition reported_major (h : Host) (root : string) : option Js.number :=
  match exec_answer h (version_command (java_exe root)) with
  | ExecDone _ stderr =>
      match Js.match_version stderr with
      | Some digits => Some (Js.parseInt digits)
      | None => None
      end
  | ExecFailed _ => None
  end.

Definition passes (h : Host) (root : string) (c : Check) : bool :=
  match c with
  | RootExists => bool_decide (root ∈ fs h)
  | InterpreterExists => bool_decide (java_exe root ∈ fs h)
  | CompilerExists => bool_decide (javac_exe root ∈ fs h)
  | VersionQuery =>
      match reported_major h root with Some _ => true | None => false end
  | VersionRange =>
      match reported_major h root with
      | Some v => number_ge v MIN_JAVA_VERSION && number_le v MAX_JAVA_VERSION
      | None => false
      end
  end.

Definition failure_reason (h : Host) (root : string) (c : Check) : string :=
  match c with
  | RootExists => "The specified directory does not exist."
  | InterpreterExists => "The file '" +:+ java_exe root +:+ "' does not exist."
  | CompilerExists => "It is not a JDK (missing 'javac.exe')."
  | VersionQuery =>
      match exec_answer h (version_command (java_exe root)) with
      | ExecFailed _ => "Could not execute 'java -version' successfully."
      | ExecDone _ _ => "Could not determine Java version."
      end
  | VersionRange =>
      "Version " +:+ Js.number_to_string (default Js.NaN (reported_major h root))
      +:+ " is outside supported range (17-99)."
  end.

(** The host call that a check makes; the range check makes none. *)
Definition host_calls (root : string) (c : Check) : list Event :=
  match c with
  | RootExists => [ExistsSync root]
  | InterpreterExists => [ExistsSync (java_exe root)]
  | CompilerExists => [ExistsSync (javac_exe root)]
  | VersionQuery => [Exec (version_command (java_exe root))]
  | VersionRange => []
  end.

(** Run the checks of [cs] from the left and stop at the first one that
    fails: the verdict, and the host calls made on the way. *)
Fixpoint run_checks (h : Host) (root : string) (cs : list Check)
  : ValidationResult * list Event :=
  match cs with
  | [] => (Valid (java_exe root), [])
  | c :: cs' =>
      if passes h root c
      then let '(verdict, calls) := run_checks h root cs' in
           (verdict, host_calls root c ++ calls)
      else (Invalid (failure_reason h root c), host_calls root c)
  end.

End Checks.

(** ** A Windows installation to run the extension on *)

Module Win32.

(** The part of [s] before its last backslash, if it has one. *)
Fixpoint parent (s : string) : option string :=
  match s with
  | "" => None
  | String c s' =>
      match parent s' with
      | Some d => Some (String c d)
      | None => if Ascii.eqb c "\"%char then Some "" else None
      end
  end.

(** [path.win32] on the paths of the examples below: drive-rooted, at
    least two levels deep, with plain segments.  On those [join] puts
    backslashes between the segments and [dirname] cuts at the last
    backslash. *)
#[export] Instance paths : NodePath :=
  {| join := String.concat "\";
     dirname := fun p => default "." (parent p) |}.

(** A banner as [java -version] prints it. *)
Definition banner (version : string) : string :=
  "openjdk version " +:+ String Js.dquote (version +:+ String Js.dquote " 2024-01-16").

Definition installation : ExtensionContext := {| extensionPath := "E:\ext" |}.

(** Three kits, Java 11, 17 and 21, the first two on the search path with
    Java 11 first; a runtime without compiler; a directory without
    [bin]; a kit whose [java.exe] cannot be run; the packaged server.
    Nothing is configured and the client starts and stops without
    error. *)
Definition machine : Host :=
  {| fs := {[ "C:\jdk17"; "C:\jdk17\bin\java.exe"; "C:\jdk17\bin\javac.exe";
              "C:\jdk11"; "C:\jdk11\bin\java.exe"; "C:\jdk11\bin\javac.exe";
              "C:\jdk21"; "C:\jdk21\bin\java.exe"; "C:\jdk21\bin\javac.exe";
              "C:\locked"; "C:\locked\bin\java.exe"; "C:\locked\bin\javac.exe";
              "C:\jre21"; "C:\jre21\bin\java.exe"; "C:\broken";
              "E:\ext\server\jdt-language-server.jar" ]};
     env := ∅;
     settings := ∅;
     exec_answer := fun cmd =>
       if String.eqb cmd (version_command "C:\jdk17\bin\java.exe")
       then ExecDone "" (banner "17.0.10")
       else if String.eqb cmd (version_command "C:\jdk11\bin\java.exe")
       then ExecDone "" (banner "11.0.2")
       else if String.eqb cmd (version_command "C:\jdk21\bin\java.exe")
       then ExecDone "" (banner "21.0.2")
       else if String.eqb cmd "where java"
       then ExecDone ("C:\jdk11\bin\java.exe" +:+ Js.CRLF
                      +:+ "C:\jdk17\bin\java.exe" +:+ Js.CRLF) ""
       else ExecFailed (new_Error "Command failed");
     mkdir_answer := fun _ => None;
     start_answer := fun _ => Return tt;
     stop_answer := fun _ => Return tt;
     client := None;
     trace := [] |}.

Definition with_override (root : string) (h : Host) : Host :=
  with_settings (<["kope-java.javaHome" := root]> (settings h)) h.

(** Two restarts with a change of the override in between: the host after
    a restart under the override [C:\jdk17], and that host once the
    override has been set to [C:\jdk21]. *)
Definition after_first_restart : Host :=
  snd (restartLanguageServer installation (with_override "C:\jdk17" machine)).

Definition before_second_restart : Host :=
  with_override "C:\jdk21" after_first_restart.

(** The machine after the packaged server has been deleted. *)
Definition machine_without_jar : Host :=
  with_fs (fs machine ∖ {[ "E:\ext\server\jdt-language-server.jar" ]}) machine.

(** The same machine with a Java 17 whose banner goes to standard output. *)
Definition machine_banner_on_stdout : Host :=
  {| fs := fs machine; env := ∅; settings := ∅;
     exec_answer := fun cmd =>
       if String.eqb cmd (version_command "C:\jdk17\bin\java.exe")
       then ExecDone (banner "17.0.10") ""
       else ExecFailed (new_Error "Command failed");
     mkdir_answer := fun _ => None;
     start_answer := fun _ => Return tt;
     stop_answer := fun _ => Return tt;
     client := None;
     trace := [] |}.

End Win32.

(** ** The rest of the extension: handlers, listener and activation *)

(** [error.message || fallback]. *)
Definition message_or (fallback : string) (error : JsError) : string :=
  match message error with
  | Some (String _ _ as m) => m
  | _ => fallback
  end.

(** [ErrorAction] and [CloseAction] of the language client library. *)
Inductive ErrorAction : Type := Continue | Shutdown.
Inductive CloseAction : Type := DoNotRestart | Restart.

(** [clientOptions.errorHandler.error(error, message, count)].  The second
    argument is not read; [count] is [undefined] or a number, and the
    library counts in natural numbers. *)
Definition errorHandler_error (error : JsError) (count : option N) : M ErrorAction :=
  match count with
  | Some n =>
      if (n <=? 3)%N
      then showErrorMessage ("KopeCode Java Language Server error: "
                             +:+ message_or "Unknown error" error)
      else mret tt
  | None => mret tt
  end ;;
  mret Shutdown.

(** [clientOptions.errorHandler.closed()]. *)
Definition errorHandler_closed : M CloseAction :=
  showErrorMessage
    "Java Language Server connection closed unexpectedly. Please check your Java setup." ;;
  mret DoNotRestart.

(** The event that [onDidChangeConfiguration] hands to its listener. *)
Record ConfigurationChangeEvent := { affectsConfiguration : string -> bool }.

(** *** The editor window *)

(** The calls of [activate] on the editor: the dialog with its buttons,
    the two things the buttons do, and the registration of the
    configuration listener. *)
Inductive WindowCall : Type :=
| ShowErrorDialog (text : string) (items : list string)
| OpenExternal (uri : string)
| ExecuteCommand (name argument : string)
| OnDidChangeConfiguration
| SubscriptionsPush.

(** The host together with the editor window.  [dialog_answer] is what the
    user picks in a dialog, [None] when the dialog is dismissed; every
    window call is kept with the number of host calls made before it. *)
Record Window := {
  host : Host;
  dialog_answer : option string;
  window_calls : list (nat * WindowCall)
}.

Definition W (A : Type) : Type := Window -> Outcome A * Window.

#[global] Instance W_ret : MRet W := fun A a w => (Return a, w).

#[global] Instance W_bind : MBind W := fun A B f m w =>
  match m w with
  | (Return a, w') => f a w'
  | (Throw e, w') => (Throw e, w')
  end.

Definition try_catch_W {A : Type} (body : W A) (handler : Thrown -> W A) : W A :=
  fun w =>
    match body w with
    | (Return a, w') => (Return a, w')
    | (Throw e, w') => handler e w'
    end.

(** Run a step of the host monad on the host of the window. *)
Definition on_host {A : Type} (m : M A) : W A :=
  fun w =>
    let '(r, h') := m (host w) in
    (r, {| host := h'; dialog_answer := dialog_answer w;
           window_calls := window_calls w |}).

Definition window_call (c : WindowCall) : W unit :=
  fun w =>
    (Return tt,
     {| host := host w; dialog_answer := dialog_answer w;
        window_calls := window_calls w ++ [(length (trace (host w)), c)] |}).

(** [await vscode.window.showErrorMessage(text, ...items)]. *)
Definition showErrorDialog (text : string) (items : list string) : W (option string) :=
  fun w =>
    match window_call (ShowErrorDialog text items) w with
    | (_, w') => (Return (dialog_answer w), w')
    end.

Definition activation_failure_text : string :=
  "❗️ Java not found or invalid." +:+ Js.LF +:+ Js.LF
  +:+ "KopeCode requires a JDK (version "
  +:+ Js.number_to_string (Js.Finite MIN_JAVA_VERSION) +:+ "–"
  +:+ Js.number_to_string (Js.Finite MAX_JAVA_VERSION) +:+ ") to run." +:+ Js.LF +:+ Js.LF
  +:+ "Fix this by installing a JDK and setting 'kope-java.javaHome' in your settings.".

Section Activation.

Context `{NodePath}.

(** The listener that [activate] registers. *)
Definition configuration_listener (context : ExtensionContext)
    (event : ConfigurationChangeEvent) : M unit :=
  if affectsConfiguration event "kope-java.javaHome"
  then restartLanguageServer context
  else mret tt.

Definition activate (context : ExtensionContext) : W unit :=
  try_catch_W
    (javaCmdPath ← on_host (findValidJavaRuntime context);
     on_host (launchLanguageServer context javaCmdPath))
    (fun error =>
       on_host (read_properties error) ;;
       selection ← showErrorDialog activation_failure_text
                     ["Download JDK"; "Open Settings"; "Dismiss"];
       match selection with
       | Some choice =>
           if String.eqb choice "Download JDK"
           then window_call (OpenExternal "https://adoptium.net/en-GB/temurin/releases/")
           else if String.eqb choice "Open Settings"
           then window_call (ExecuteCommand "workbench.action.openSettings"
                               "kope-java.javaHome")
           else mret tt
       | None => mret tt
       end) ;;
  window_call OnDidChangeConfiguration ;;
  window_call SubscriptionsPush.

End Activation.

(** ** Vocabulary of the further properties *)

Definition runs_subprocess (e : Event) : bool :=
  match e with
  | Exec _ => true
  | _ => false
  end.

Definition stops_client (e : Event) : bool :=
  match e with
  | ClientStop _ => true
  | _ => false
  end.

Definition constructs_client (e : Event) : bool :=
  match e with
  | NewLanguageClient _ => true
  | _ => false
  end.

Definition shows_message (e : Event) : bool :=
  match e with
  | ShowErrorMessage _ | ShowInformationMessage _ => true
  | _ => false
  end.

(** [s] holds a version token: a double quote, one or more digits, a dot. *)
Definition has_token (s : string) : Prop :=
  exists before digits after,
    s = before +:+ String Js.dquote (digits +:+ String "." after)
    /\ digits <> "" /\ Js.all_digits digits = true.

(** ** Further machines *)

Module Scenarios.

Import Win32.

(** The machine with [JAVA_HOME] pointing at the Java 21 kit. *)
Definition machine_with_java_home : Host :=
  {| fs := fs machine; env := {[ "JAVA_HOME" := "C:\jdk21" ]};
     settings := settings machine; exec_answer := exec_answer machine;
     mkdir_answer := mkdir_answer machine;
     start_answer := start_answer machine; stop_answer := stop_answer machine;
     client := client machine; trace := trace machine |}.

(** A machine without any usable Java: no setting, no [JAVA_HOME], and
    [where java] fails. *)
Definition machine_without_java : Host :=
  {| fs := {[ "E:\ext\server\jdt-language-server.jar" ]}; env := ∅; settings := ∅;
     exec_answer := fun _ => ExecFailed (new_Error "Command failed: where java");
     mkdir_answer := fun _ => None;
     start_answer := fun _ => Return tt; stop_answer := fun _ => Return tt;
     client := None; trace := [] |}.

(** The first release of Java 17 prints its version without a dot. *)
Definition machine_dotless_banner : Host :=
  {| fs := fs machine; env := ∅; settings := ∅;
     exec_answer := fun cmd =>
       if String.eqb cmd (version_command "C:\jdk17\bin\java.exe")
       then ExecDone "" ("openjdk version "
                         +:+ String Js.dquote ("17" +:+ String Js.dquote " 2021-09-14"))
       else ExecFailed (new_Error "Command failed");
     mkdir_answer := fun _ => None;
     start_answer := fun _ => Return tt; stop_answer := fun _ => Return tt;
     client := None; trace := [] |}.

(** The machine with a client whose process cannot be started. *)
Definition machine_start_fails : Host :=
  {| fs := fs machine; env := env machine; settings := settings machine;
     exec_answer := exec_answer machine;
     mkdir_answer := mkdir_answer machine;
     start_answer := fun _ => Throw (new_Error "spawn C:\jdk17\bin\java.exe ENOENT");
     stop_answer := stop_answer machine;
     client := None; trace := [] |}.

(** The machine with a live client that refuses to stop. *)
Definition stuck_client : Client :=
  language_client installation "C:\jdk17\bin\java.exe".

Definition machine_stop_fails : Host :=
  {| fs := fs machine; env := env machine;
     settings := {[ "kope-java.javaHome" := "C:\jdk21" ]};
     exec_answer := exec_answer machine;
     mkdir_answer := mkdir_answer machine;
     start_answer := start_answer machine;
     stop_answer := fun _ => Throw (new_Error "Client is not running and can't be stopped.");
     client := Some stuck_client; trace := [] |}.

(** The machine with a live client. *)
Definition machine_running : Host := with_client (Some stuck_client) machine.

(** The machine once a launch has failed to start its client. *)
Definition after_failed_start : Host :=
  snd (launchLanguageServer installation "C:\jdk17\bin\java.exe" machine_start_fails).

(** The machine with a live client whose [stop] is rejected without a
    reason. *)
Definition machine_stop_rejects_undefined : Host :=
  {| fs := fs machine; env := env machine;
     settings := settings machine;
     exec_answer := exec_answer machine;
     mkdir_answer := mkdir_answer machine;
     start_answer := start_answer machine;
     stop_answer := fun _ => Throw Undefined;
     client := Some stuck_client; trace := [] |}.

(** The machine with an installation directory that cannot be written to
    and from which the packaged server has been deleted. *)
Definition machine_read_only : Host :=
  {| fs := fs machine_without_jar; env := env machine;
     settings := settings machine;
     exec_answer := exec_answer machine;
     mkdir_answer := fun p =>
       Some (new_Error ("EPERM: operation not permitted, mkdir '" +:+ p +:+ "'"));
     start_answer := start_answer machine;
     stop_answer := stop_answer machine;
     client := None; trace := [] |}.

Definition window_on (h : Host) (answer : option string) : Window :=
  {| host := h; dialog_answer := answer; window_calls := [] |}.

End Scenarios.

(** ** Facts about the string primitives *)

Module JsFacts.
Import Js.

(** The primitives on the strings the extension meets. *)

Example split_two_lines :
  split CRLF ("C:\a\bin\java.exe" +:+ CRLF +:+ "D:\b\bin\java.exe")
  = ["C:\a\bin\java.exe"; "D:\b\bin\java.exe"].
Proof. reflexivity. Qed.

Example split_empty : split CRLF "" = [""].
Proof. reflexivity. Qed.

Example split_keeps_empty_pieces :
  split CRLF (CRLF +:+ "a" +:+ CRLF) = [""; "a"; ""].
Proof. reflexivity. Qed.

Example trim_both_ends :
  trim (" " +:+ bytes [9] +:+ "a b" +:+ CRLF +:+ bytes [194; 160]) = "a b".
Proof. reflexivity. Qed.

Example match_version_banner :
  match_version ("openjdk version " +:+ String dquote ("17.0.2" +:+ String dquote ""))
  = Some "17".
Proof. reflexivity. Qed.

Example match_version_needs_the_dot :
  match_version (String dquote ("17" +:+ String dquote (" " +:+ String dquote "1.8.0_392")))
  = Some "1".
Proof. reflexivity. Qed.

Example match_version_nothing : match_version "java 17.0.2" = None.
Proof. reflexivity. Qed.

Example parseInt_leading_zero : parseInt "017" = Finite 17.
Proof. reflexivity. Qed.

Example number_to_string_zero : number_to_string (parseInt "0") = "0".
Proof. reflexivity. Qed.

(** Numbers are doubles: above 2^53 not every integer is one, a long run
    of digits is [Infinity], and a template literal prints the double. *)

Example parseInt_rounds :
  number_to_string (parseInt "9007199254740993") = "9007199254740992".
Proof. vm_compute. reflexivity. Qed.

Example parseInt_ties_to_even : parseInt "9007199254740995" = Finite 9007199254740996.
Proof. vm_compute. reflexivity. Qed.

Example number_to_string_fills_with_zeros :
  number_to_string (parseInt "18446744073709551616") = "18446744073709552000".
Proof. vm_compute. reflexivity. Qed.

Example number_to_string_exponent :
  number_to_string (parseInt "1000000000000000000000") = "1e+21".
Proof. vm_compute. reflexivity. Qed.

Example number_to_string_long_exponent :
  number_to_string (parseInt "123456789012345678901234567890")
  = "1.2345678901234568e+29".
Proof. vm_compute. reflexivity. Qed.

Example parseInt_overflows :
  parseInt (String "1" (string_of_list_ascii (repeat "0"%char 309))) = Infinity.
Proof. vm_compute. reflexivity. Qed.

Example parseInt_largest :
  number_to_string (parseInt (String "1" (string_of_list_ascii (repeat "0"%char 308))))
  = "1e+308".
Proof. vm_compute. reflexivity. Qed.

Example includes_enoent : includes "ENOENT" "spawn java ENOENT" = true.
Proof. reflexivity. Qed.

Lemma span_digits_all (ds rest : string) :
  all_digits ds = true ->
  (match rest with String c _ => is_digit c | "" => false end) = false ->
  span_digits (ds +:+ rest) = (ds, rest).
Proof.
  intros Hds Hrest. induction ds as [|c ds IH]; simpl in *.
  - destruct rest as [|c rest]; [reflexivity|]. simpl. by rewrite Hrest.
  - apply andb_prop in Hds as [Hc Hds]. rewrite Hc, (IH Hds). reflexivity.
Qed.

(** A quote that follows [s] ends the digits that [s] may end with. *)
Lemma span_digits_before_quote (s tail : string) :
  span_digits (s +:+ String dquote tail) =
  (fst (span_digits s), snd (span_digits s) +:+ String dquote tail).
Proof.
  induction s as [|c s IH]; simpl.
  - reflexivity.
  - destruct (is_digit c); [|reflexivity].
    rewrite IH. by destruct (span_digits s).
Qed.

Lemma span_digits_fst_digits (s : string) : all_digits (fst (span_digits s)) = true.
Proof.
  induction s as [|c s IH]; simpl; [reflexivity|].
  destruct (is_digit c) eqn:Hc; [|reflexivity].
  destruct (span_digits s). simpl in *. by rewrite Hc, IH.
Qed.

(** What the pattern captures is a run of digits that is not empty. *)
Lemma match_version_digits (s digits : string) :
  match_version s = Some digits -> digits <> "" /\ all_digits digits = true.
Proof.
  induction s as [|c s IH]; simpl; [discriminate|].
  destruct (Ascii.eqb c dquote); [|exact IH].
  pose proof (span_digits_fst_digits s) as Hd.
  destruct (span_digits s) as [[|d ds] rest]; [exact IH|].
  destruct rest as [|r rest]; [exact IH|].
  destruct (Ascii.eqb_spec r "."%char) as [->|Hr].
  - intros [= <-]. split; [discriminate|exact Hd].
  - revert IH. clear -Hr. intros IH Hm. apply IH.
    revert Hm. destruct r as [[] [] [] [] [] [] [] []]; try exact id; congruence.
Qed.

(** The leftmost token wins: nothing matches before the quote, and the
    quote is followed by digits and a dot. *)
Lemma match_version_first (before digits after : string) :
  match_version before = None ->
  digits <> "" -> all_digits digits = true ->
  match_version (before +:+ String dquote (digits +:+ String "." after))
  = Some digits.
Proof.
  intros Hnone Hne Hds. induction before as [|c before IH]; simpl in *.
  - rewrite (span_digits_all digits (String "." after) Hds eq_refl).
    destruct digits; [done|reflexivity].
  - destruct (Ascii.eqb c dquote); [|by apply IH].
    rewrite span_digits_before_quote.
    destruct (span_digits before) as [[|d ds] rest]; simpl in *; [by apply IH|].
    destruct rest as [|r rest]; simpl; [by apply IH|].
    destruct r as [[] [] [] [] [] [] [] []]; try (by apply IH); discriminate.
Qed.

Lemma append_empty (s : string) : s +:+ "" = s.
Proof.
  induction s as [|c s IH]; [reflexivity|].
  change (String c (s +:+ "") = String c s). by rewrite IH.
Qed.

(** On a run of digits [parseInt] is the double nearest to its value. *)
Lemma parseInt_digits (digits : string) :
  digits <> "" -> all_digits digits = true ->
  parseInt digits = to_double (decimal_value 0 digits).
Proof.
  intros Hne Hds. unfold parseInt.
  rewrite <- (append_empty digits) at 1.
  rewrite (span_digits_all digits "" Hds eq_refl). simpl.
  destruct digits; [done|reflexivity].
Qed.

(** Below 2^53 every natural number is a double and prints as it is. *)
Lemma to_double_small (v : N) : (v < 2 ^ 53)%N -> to_double v = Finite v.
Proof. intros Hv. unfold to_double. apply N.ltb_lt in Hv. by rewrite Hv. Qed.

Lemma number_to_string_small (n : N) :
  (n < 2 ^ 53)%N -> number_to_string (Finite n) = decimal n.
Proof. intros Hn. unfold number_to_string. apply N.ltb_lt in Hn. by rewrite Hn. Qed.

(** From 2^53 on, rounding stays at or above 2^53. *)
Lemma to_double_large (v : N) :
  (2 ^ 53 <= v)%N ->
  to_double v = Infinity \/ exists d, to_double v = Finite d /\ (2 ^ 53 <= d)%N.
Proof.
  intros Hv. unfold to_double.
  destruct (N.ltb_spec v (2 ^ 53)) as [Hlt|_]; [lia|].
  set (e := (N.log2 v - 52)%N).
  set (q := N.shiftr v e).
  set (q' := if _ : bool then (q + 1)%N else q).
  destruct (overflow <=? N.shiftl q' e)%N; [by left|right].
  eexists. split; [reflexivity|].
  assert (53 <= N.log2 v)%N as Hlog.
  { change 53%N with (N.log2 (2 ^ 53)). by apply N.log2_le_mono. }
  assert (2 ^ N.log2 v <= v)%N as Hpow by (apply N.log2_spec; lia).
  assert (N.log2 v = 52 + e)%N as Hsplit by (subst e; lia).
  rewrite Hsplit, N.pow_add_r in Hpow.
  assert (2 ^ 1 <= 2 ^ e)%N as He by (apply N.pow_le_mono_r; subst e; lia).
  assert (2 ^ 52 <= q)%N as Hq.
  { subst q. rewrite N.shiftr_div_pow2.
    apply N.div_le_lower_bound; [lia|]. by rewrite N.mul_comm. }
  assert (q <= q')%N as Hq' by (subst q'; destruct (_ : bool); lia).
  rewrite N.shiftl_mul_pow2.
  change (2 ^ 53)%N with (2 ^ 52 * 2 ^ 1)%N.
  apply N.mul_le_mono; lia.
Qed.

(** The comparisons of [validateJavaPath] on the double are those on the
    number that the digits denote. *)
Lemma number_ge_to_double (v n : N) :
  (n < 2 ^ 53)%N -> number_ge (to_double v) n = (n <=? v)%N.
Proof.
  intros Hn. destruct (N.lt_ge_cases v (2 ^ 53)) as [Hv|Hv].
  - by rewrite (to_double_small v Hv).
  - destruct (to_double_large v Hv) as [->|(d & -> & Hd)]; simpl;
      destruct (N.leb_spec n v); try destruct (N.leb_spec n d); (reflexivity || lia).
Qed.

Lemma number_le_to_double (v n : N) :
  (n < 2 ^ 53)%N -> number_le (to_double v) n = (v <=? n)%N.
Proof.
  intros Hn. destruct (N.lt_ge_cases v (2 ^ 53)) as [Hv|Hv].
  - by rewrite (to_double_small v Hv).
  - destruct (to_double_large v Hv) as [->|(d & -> & Hd)]; simpl;
      destruct (N.leb_spec v n); try destruct (N.leb_spec d n); (reflexivity || lia).
Qed.

(** A run of digits is never [NaN]. *)
Lemma parseInt_not_NaN (digits : string) :
  digits <> "" -> all_digits digits = true -> parseInt digits <> NaN.
Proof.
  intros Hne Hds. rewrite (parseInt_digits digits Hne Hds).
  destruct (N.lt_ge_cases (decimal_value 0 digits) (2 ^ 53)) as [Hv|Hv].
  - by rewrite (to_double_small _ Hv).
  - by destruct (to_double_large _ Hv) as [->|(d & -> & _)].
Qed.

End JsFacts.

(** ** Facts about the host and the monad *)

Lemma log_all_nil (h : Host) : log_all [] h = h.
Proof. destruct h. unfold log_all, with_trace. simpl. by rewrite app_nil_r. Qed.

Lemma log_all_app (evs1 evs2 : list Event) (h : Host) :
  log_all evs2 (log_all evs1 h) = log_all (evs1 ++ evs2) h.
Proof. unfold log_all, with_trace. simpl. by rewrite app_assoc. Qed.

Lemma log_all_log (e : Event) (evs : list Event) (h : Host) :
  log_all evs (log e h) = log_all (e :: evs) h.
Proof. apply log_all_app. Qed.

Lemma trace_log (e : Event) (h : Host) : trace (log e h) = trace h ++ [e].
Proof. reflexivity. Qed.

(** Writing the module variable or the file system and recording events
    do not depend on the order. *)
Lemma with_client_log_all (c : option Client) (evs : list Event) (h : Host) :
  with_client c (log_all evs h) = log_all evs (with_client c h).
Proof. reflexivity. Qed.

Lemma with_fs_log_all (f : gset string) (evs : list Event) (h : Host) :
  with_fs f (log_all evs h) = log_all evs (with_fs f h).
Proof. reflexivity. Qed.

Lemma same_files_log_all (evs : list Event) (h h' : Host) :
  same_files h h' -> same_files (log_all evs h) (log_all evs h').
Proof. intros H. exact H. Qed.

Lemma same_inputs_log_all (evs : list Event) (h h' : Host) :
  same_inputs h h' -> same_inputs (log_all evs h) (log_all evs h').
Proof. intros H. exact H. Qed.

Lemma same_files_refl (h : Host) : same_files h h.
Proof. by repeat split. Qed.

Lemma same_inputs_refl (h : Host) : same_inputs h h.
Proof. by repeat split. Qed.

Lemma events_of_run {A : Type} (m : M A) (h : Host) r evs :
  m h = (r, log_all evs h) -> result_of m h = r /\ events_of m h = evs.
Proof.
  intros Hrun. unfold result_of, events_of. rewrite Hrun. simpl.
  split; [reflexivity|]. by rewrite drop_app_length.
Qed.

(** *** Steps that only ask questions *)

Section Queries.

Variable R : Host -> Host -> Prop.
Hypothesis R_refl : forall h, R h h.
Hypothesis R_log_all : forall evs h h', R h h' -> R (log_all evs h) (log_all evs h').

Lemma Queries_run {A : Type} (m : M A) (h : Host) :
  Queries R m ->
  forallb is_query (events_of m h) = true /\
  forall h', R h h' -> m h' = (result_of m h, log_all (events_of m h) h').
Proof.
  intros Hm. destruct (Hm h) as (r & evs & Hq & Hrun).
  destruct (events_of_run m h r evs (Hrun h (R_refl h))) as [-> ->].
  by split.
Qed.

Lemma Queries_ret {A : Type} (a : A) : Queries R (mret a : M A).
Proof.
  intros h. exists (Return a), []. split; [reflexivity|].
  intros h' _. by rewrite log_all_nil.
Qed.

Lemma Queries_throw {A : Type} (e : Thrown) : Queries R (throw e : M A).
Proof.
  intros h. exists (Throw e), []. split; [reflexivity|].
  intros h' _. unfold throw. by rewrite log_all_nil.
Qed.

Lemma Queries_bind {A B : Type} (m : M A) (f : A -> M B) :
  Queries R m -> (forall a, Queries R (f a)) -> Queries R (m ≫= f).
Proof.
  intros Hm Hf h. destruct (Hm h) as (r & evs & Hq & Hrun).
  destruct r as [a|e].
  - destruct (Hf a (log_all evs h)) as (r2 & evs2 & Hq2 & Hrun2).
    exists r2, (evs ++ evs2). split.
    + by rewrite forallb_app, Hq, Hq2.
    + intros h' Hh'. unfold mbind, M_bind. rewrite (Hrun h' Hh').
      rewrite (Hrun2 (log_all evs h')) by by apply R_log_all.
      by rewrite log_all_app.
  - exists (Throw e), evs. split; [exact Hq|].
    intros h' Hh'. unfold mbind, M_bind. by rewrite (Hrun h' Hh').
Qed.

Lemma Queries_try_catch {A : Type} (body : M A) (handler : Thrown -> M A) :
  Queries R body -> (forall e, Queries R (handler e)) ->
  Queries R (try_catch body handler).
Proof.
  intros Hm Hf h. destruct (Hm h) as (r & evs & Hq & Hrun).
  destruct r as [a|e].
  - exists (Return a), evs. split; [exact Hq|].
    intros h' Hh'. unfold try_catch. by rewrite (Hrun h' Hh').
  - destruct (Hf e (log_all evs h)) as (r2 & evs2 & Hq2 & Hrun2).
    exists r2, (evs ++ evs2). split.
    + by rewrite forallb_app, Hq, Hq2.
    + intros h' Hh'. unfold try_catch. rewrite (Hrun h' Hh').
      rewrite (Hrun2 (log_all evs h')) by by apply R_log_all.
      by rewrite log_all_app.
Qed.

End Queries.

Lemma Queries_weaken (R R' : Host -> Host -> Prop) {A : Type} (m : M A) :
  (forall h h', R' h h' -> R h h') -> Queries R m -> Queries R' m.
Proof.
  intros Hsub Hm h. destruct (Hm h) as (r & evs & Hq & Hrun).
  exists r, evs. split; [exact Hq|]. intros h' Hh'. apply Hrun, Hsub, Hh'.
Qed.

Lemma Queries_existsSync (p : string) : Queries same_files (existsSync p).
Proof.
  intros h. exists (Return (bool_decide (p ∈ fs h))), [ExistsSync p].
  split; [reflexivity|]. intros h' (Hfs & _ & _). unfold existsSync. by rewrite Hfs.
Qed.

Lemma Queries_cp_exec (cmd : string) : Queries same_files (cp_exec cmd).
Proof.
  intros h. exists (Return (exec_answer h cmd)), [Exec cmd].
  split; [reflexivity|]. intros h' (_ & _ & Hexec). unfold cp_exec. by rewrite Hexec.
Qed.

Lemma Queries_process_env (name : string) : Queries same_files (process_env name).
Proof.
  intros h. exists (Return (env h !! name)), [ProcessEnv name].
  split; [reflexivity|]. intros h' (_ & Henv & _). unfold process_env. by rewrite Henv.
Qed.

Lemma Queries_getConfiguration (section key : string) :
  Queries same_inputs (getConfiguration section key).
Proof.
  intros h. exists (Return (settings h !! (section +:+ "." +:+ key))),
    [GetConfiguration section key].
  split; [reflexivity|]. intros h' [_ Hs]. unfold getConfiguration. by rewrite Hs.
Qed.

(** ** Validation of one candidate root *)

(** Bring nested [log]s into one [log_all]. *)
Ltac merge_logs := unfold log; rewrite ?log_all_app; simpl.

Section ValidationFacts.

Context `{NodePath}.

Lemma supported_range_text : supported_range = "17-99".
Proof. vm_compute. reflexivity. Qed.

(** The source function computes what the five checks, run in order,
    compute, and makes their host calls and no other. *)
Lemma validateJavaPath_run (root : string) (h : Host) :
  validateJavaPath root h =
  (Return (fst (run_checks h root check_order)),
   log_all (snd (run_checks h root check_order)) h).
Proof.
  unfold validateJavaPath, check_order, run_checks, passes, failure_reason,
    host_calls, reported_major.
  fold (java_exe root). fold (javac_exe root).
  unfold mbind, M_bind, existsSync, mret, M_ret. simpl.
  case_bool_decide; simpl; [|reflexivity].
  case_bool_decide; simpl; [|by merge_logs].
  case_bool_decide; simpl; [|by merge_logs].
  unfold try_catch, execPromise, mbind, M_bind, cp_exec. simpl.
  destruct (exec_answer h (version_command (java_exe root)))
    as [error|stdout stderr]; simpl.
  { by merge_logs. }
  destruct (Js.match_version stderr) as [digits|] eqn:Hmatch; simpl.
  2:{ by merge_logs. }
  destruct (JsFacts.match_version_digits _ _ Hmatch) as [Hne Hds].
  destruct digits as [|d digits]; [done|]. simpl.
  rewrite supported_range_text.
  destruct (_ && _); simpl; by merge_logs.
Qed.

Lemma run_checks_same_files (h h' : Host) (root : string) (cs : list Check) :
  same_files h h' -> run_checks h root cs = run_checks h' root cs.
Proof.
  intros (Hfs & _ & Hexec). induction cs as [|c cs IH]; simpl; [reflexivity|].
  rewrite IH.
  replace (passes h' root c) with (passes h root c)
    by (unfold passes, reported_major; by rewrite Hfs, Hexec).
  replace (failure_reason h' root c) with (failure_reason h root c)
    by (unfold failure_reason, reported_major; by rewrite Hexec).
  reflexivity.
Qed.

Lemma host_calls_queries (root : string) (c : Check) :
  forallb is_query (host_calls root c) = true.
Proof. by destruct c. Qed.

Lemma run_checks_queries (h : Host) (root : string) (cs : list Check) :
  forallb is_query (snd (run_checks h root cs)) = true.
Proof.
  induction cs as [|c cs IH]; simpl; [reflexivity|].
  destruct (passes h root c); simpl; [|apply host_calls_queries].
  destruct (run_checks h root cs). simpl in *.
  by rewrite forallb_app, host_calls_queries, IH.
Qed.

(** The version query starts with a quote: it is not the search of the
    search path, and no check reads the environment. *)
Lemma run_checks_stay_local (h : Host) (root : string) (cs : list Check) :
  forallb (fun e => negb (consults_environment e) && negb (consults_search_path e))
          (snd (run_checks h root cs)) = true.
Proof.
  induction cs as [|c cs IH]; simpl; [reflexivity|].
  assert (forallb (fun e => negb (consults_environment e)
                            && negb (consults_search_path e))
                  (host_calls root c) = true) as Hc by by destruct c.
  destruct (passes h root c); simpl; [|exact Hc].
  destruct (run_checks h root cs). simpl in *.
  by rewrite forallb_app, Hc, IH.
Qed.

Lemma Queries_validateJavaPath (root : string) :
  Queries same_files (validateJavaPath root).
Proof.
  intros h. exists (Return (fst (run_checks h root check_order))),
    (snd (run_checks h root check_order)).
  split; [apply run_checks_queries|].
  intros h' Hh'. rewrite validateJavaPath_run.
  by rewrite (run_checks_same_files h h' root check_order Hh').
Qed.

Lemma validateJavaPath_result (root : string) (h : Host) :
  result_of (validateJavaPath root) h = Return (fst (run_checks h root check_order)).
Proof. unfold result_of. by rewrite validateJavaPath_run. Qed.

Lemma validateJavaPath_events (root : string) (h : Host) :
  events_of (validateJavaPath root) h = snd (run_checks h root check_order).
Proof. by destruct (events_of_run _ _ _ _ (validateJavaPath_run root h)). Qed.

(** Validation on a host that answers like [h] is validation on [h]. *)
Lemma validateJavaPath_at (root : string) (h h' : Host) :
  same_files h h' ->
  validateJavaPath root h' =
  (result_of (validateJavaPath root) h,
   log_all (events_of (validateJavaPath root) h) h').
Proof.
  intros Hh'. rewrite validateJavaPath_result, validateJavaPath_events.
  rewrite validateJavaPath_run.
  by rewrite (run_checks_same_files h h' root check_order Hh').
Qed.

(** What validation answers once the three files are there and the
    version query has printed [stderr]. *)
Lemma validateJavaPath_queried (root : string) (h : Host) (stdout stderr : string) :
  root ∈ fs h -> java_exe root ∈ fs h -> javac_exe root ∈ fs h ->
  exec_answer h (version_command (java_exe root)) = ExecDone stdout stderr ->
  result_of (validateJavaPath root) h =
  Return
    match Js.match_version stderr with
    | Some digits =>
        let v := Js.decimal_value 0 digits in
        if (MIN_JAVA_VERSION <=? v)%N && (v <=? MAX_JAVA_VERSION)%N
        then Valid (java_exe root)
        else Invalid ("Version " +:+ Js.number_to_string (Js.parseInt digits)
                      +:+ " is outside supported range (17-99).")
    | None => Invalid "Could not determine Java version."
    end.
Proof.
  intros Hroot Hjava Hjavac Hexec. rewrite validateJavaPath_result.
  unfold check_order, run_checks, passes, failure_reason, reported_major.
  rewrite !bool_decide_eq_true_2 by assumption. rewrite Hexec.
  destruct (Js.match_version stderr) as [digits|] eqn:Hmatch; [|reflexivity].
  destruct (JsFacts.match_version_digits _ _ Hmatch) as [Hne Hds].
  cbn [default from_option id].
  rewrite (JsFacts.parseInt_digits digits Hne Hds) at 1 2.
  rewrite JsFacts.number_ge_to_double, JsFacts.number_le_to_double by done.
  cbv zeta. by destruct (_ && _).
Qed.

End ValidationFacts.

(** ** Discovery *)

Lemma bind_return {A B : Type} (m : M A) (f : A -> M B) (h h' : Host) (a : A) :
  m h = (Return a, h') -> (m ≫= f) h = f a h'.
Proof. intros Hm. unfold mbind, M_bind. by rewrite Hm. Qed.

Lemma bind_throw {A B : Type} (m : M A) (f : A -> M B) (h h' : Host) (e : Thrown) :
  m h = (Throw e, h') -> (m ≫= f) h = (Throw e, h').
Proof. intros Hm. unfold mbind, M_bind. by rewrite Hm. Qed.

Section DiscoveryFacts.

Context `{NodePath}.

Lemma Queries_execPromise (cmd : string) : Queries same_files (execPromise cmd).
Proof.
  apply (Queries_bind _ same_files_log_all); [apply Queries_cp_exec|].
  intros [error|stdout stderr]; [apply Queries_throw | apply Queries_ret].
Qed.

Lemma Queries_probe_search_path (javaPaths : list string) :
  Queries same_files (probe_search_path javaPaths).
Proof.
  induction javaPaths as [|javaPath others IH]; simpl; [apply Queries_ret|].
  apply (Queries_bind _ same_files_log_all); [apply Queries_validateJavaPath|].
  intros [path|reason]; [apply Queries_ret | exact IH].
Qed.

Lemma Queries_search_path : Queries same_files search_path.
Proof.
  unfold search_path. apply (Queries_bind _ same_files_log_all).
  - apply (Queries_try_catch _ same_files_log_all).
    + apply (Queries_bind _ same_files_log_all); [apply Queries_execPromise|].
      intros [stdout stderr]. apply Queries_probe_search_path.
    + intros e. apply Queries_ret.
  - intros [path|]; [apply Queries_ret | apply Queries_throw].
Qed.

Lemma Queries_search_environment : Queries same_files search_environment.
Proof.
  unfold search_environment.
  apply (Queries_bind _ same_files_log_all); [apply Queries_process_env|].
  intros [[|c home]|]; try apply Queries_search_path.
  apply (Queries_bind _ same_files_log_all); [apply Queries_validateJavaPath|].
  intros [path|reason]; [apply Queries_ret | apply Queries_search_path].
Qed.

Lemma Queries_findValidJavaRuntime (context : ExtensionContext) :
  Queries same_inputs (findValidJavaRuntime context).
Proof.
  assert (forall h h', same_inputs h h' -> same_files h h') as Hsub by by intros ?? [].
  unfold findValidJavaRuntime.
  apply (Queries_bind _ same_inputs_log_all); [apply Queries_getConfiguration|].
  intros [[|c userPath]|];
    try (apply (Queries_weaken same_files); [exact Hsub|];
         apply Queries_search_environment).
  apply (Queries_weaken same_files); [exact Hsub|].
  apply (Queries_bind _ same_files_log_all); [apply Queries_validateJavaPath|].
  intros [path|reason]; [apply Queries_ret | apply Queries_throw].
Qed.

(** Discovery on a host that answers like [h] is discovery on [h]. *)
Lemma findValidJavaRuntime_at (context : ExtensionContext) (h h' : Host) :
  same_inputs h h' ->
  findValidJavaRuntime context h' =
  (result_of (findValidJavaRuntime context) h,
   log_all (events_of (findValidJavaRuntime context) h) h').
Proof.
  intros Hh'.
  by apply (Queries_run same_inputs same_inputs_refl _ h
              (Queries_findValidJavaRuntime context)).
Qed.

Lemma findValidJavaRuntime_queries (context : ExtensionContext) (h : Host) :
  forallb is_query (events_of (findValidJavaRuntime context) h) = true.
Proof.
  by apply (Queries_run same_inputs same_inputs_refl _ h
              (Queries_findValidJavaRuntime context)).
Qed.

Lemma probe_search_path_returns (javaPaths : list string) (h : Host) :
  exists found evs, probe_search_path javaPaths h = (Return found, log_all evs h).
Proof.
  revert h. induction javaPaths as [|javaPath others IH]; intros h; simpl.
  - exists None, []. unfold mret, M_ret. by rewrite log_all_nil.
  - unfold mbind, M_bind. rewrite validateJavaPath_run.
    destruct (fst (run_checks h _ check_order)) as [path|reason].
    + eexists _, _. reflexivity.
    + destruct (IH (log_all (snd (run_checks h (dirname (dirname javaPath))
                                    check_order)) h)) as (found & evs & ->).
      eexists _, _. by rewrite log_all_app.
Qed.

(** The loop stops at the first path whose root validates: the roots
    before it are validated and rejected in order, the paths after it are
    not looked at. *)
Lemma probe_search_path_first (h h' : Host) (skipped rest : list string)
    (javaPath path : string) :
  same_files h h' ->
  Forall (fun p => exists reason,
            result_of (validateJavaPath (dirname (dirname p))) h
            = Return (Invalid reason)) skipped ->
  result_of (validateJavaPath (dirname (dirname javaPath))) h = Return (Valid path) ->
  probe_search_path (skipped ++ javaPath :: rest) h' =
  (Return (Some path),
   log_all (concat (map (fun p => events_of (validateJavaPath (dirname (dirname p))) h)
                        (skipped ++ [javaPath]))) h').
Proof.
  intros Hh' Hskipped Hvalid. revert h' Hh'.
  induction Hskipped as [|p skipped [reason Hp] _ IH]; intros h' Hh'; simpl.
  - rewrite (bind_return _ _ _ _ _ (eq_trans (validateJavaPath_at _ h h' Hh')
                                       (f_equal (fun r => (r, _)) Hvalid))).
    by rewrite app_nil_r.
  - rewrite (bind_return _ _ _ _ _ (eq_trans (validateJavaPath_at _ h h' Hh')
                                       (f_equal (fun r => (r, _)) Hp))).
    rewrite IH by exact Hh'. by rewrite log_all_app.
Qed.

(** Steps 3 and 4 end in a path or in the consolidated failure. *)
Lemma search_path_outcome (h : Host) :
  exists evs,
    (exists path, search_path h = (Return path, log_all evs h))
    \/ search_path h = (Throw (new_Error no_runtime_message), log_all evs h).
Proof.
  unfold search_path, try_catch, execPromise, cp_exec, mbind, M_bind. simpl.
  destruct (exec_answer h "where java") as [error|stdout stderr]; simpl.
  - exists [Exec "where java"]. right. reflexivity.
  - destruct (probe_search_path_returns
                (Js.split Js.CRLF (Js.trim stdout)) (log (Exec "where java") h))
      as (found & evs & ->).
    exists (Exec "where java" :: evs). rewrite log_all_log.
    destruct found as [path|]; [left; by exists path | right; reflexivity].
Qed.

(** Step 2 reads the environment variable and looks at what it holds. *)
Lemma search_environment_step (h : Host) :
  search_environment h =
  match env h !! "JAVA_HOME" with
  | Some (String _ _ as home) =>
      result ← validateJavaPath home;
      match result with
      | Valid path => mret path
      | Invalid _ => search_path
      end
  | _ => search_path
  end (log_all [ProcessEnv "JAVA_HOME"] h).
Proof. reflexivity. Qed.

(** Steps 2 to 4 read the environment variable first and end in a path or
    in the consolidated failure. *)
Lemma search_environment_outcome (h : Host) :
  exists evs,
    (exists path, search_environment h
                  = (Return path, log_all (ProcessEnv "JAVA_HOME" :: evs) h))
    \/ search_environment h
       = (Throw (new_Error no_runtime_message),
          log_all (ProcessEnv "JAVA_HOME" :: evs) h).
Proof.
  assert (forall evs0, exists evs,
    (exists path, search_path (log_all (ProcessEnv "JAVA_HOME" :: evs0) h)
                  = (Return path, log_all (ProcessEnv "JAVA_HOME" :: evs) h))
    \/ search_path (log_all (ProcessEnv "JAVA_HOME" :: evs0) h)
       = (Throw (new_Error no_runtime_message),
          log_all (ProcessEnv "JAVA_HOME" :: evs) h)) as Hrest.
  { intros evs0.
    destruct (search_path_outcome (log_all (ProcessEnv "JAVA_HOME" :: evs0) h))
      as [evs Hevs].
    rewrite log_all_app in Hevs. by eexists. }
  rewrite search_environment_step.
  destruct (env h !! "JAVA_HOME") as [[|c home]|]; try apply (Hrest []).
  unfold mbind, M_bind. rewrite validateJavaPath_run, log_all_app.
  destruct (fst (run_checks _ _ _)) as [path|reason]; [|apply Hrest].
  eexists. left. by exists path.
Qed.

End DiscoveryFacts.

(** ** Launch and restart *)

(** Membership in a trace that is written out. *)
Ltac trace_member H :=
  repeat (apply elem_of_cons in H as [H|H]; [try discriminate H|]);
  try (by apply elem_of_nil in H).

Ltac in_trace := rewrite ?elem_of_cons; auto 10.

Section SupervisorFacts.

Context `{NodePath}.

(** What the two [catch] blocks do with the value they caught. *)
Lemma report_start_failure_run (error : Thrown) (h : Host) :
  report_start_failure error h =
  match error with
  | Raised e =>
      (Throw (new_Error (start_failure_message e)),
       log (ShowErrorMessage (start_failure_message e)) h)
  | Null => (Throw (TypeError_no_properties "null" "message"), h)
  | Undefined => (Throw (TypeError_no_properties "undefined" "message"), h)
  end.
Proof. by destruct error. Qed.

Lemma report_restart_failure_run (error : Thrown) (h : Host) :
  report_restart_failure error h =
  match error with
  | Raised e =>
      (Return tt,
       log (ShowErrorMessage ("❌ Failed to restart Java Language Server: "
                              +:+ message_text e)) h)
  | Null => (Throw (TypeError_no_properties "null" "message"), h)
  | Undefined => (Throw (TypeError_no_properties "undefined" "message"), h)
  end.
Proof. by destruct error. Qed.

(** A launch, step by step: the data directory is looked for and created
    if it is not there, which can fail; then the packaged server is looked
    for, the client is constructed and stored, and it is started. *)
Lemma launchLanguageServer_run (context : ExtensionContext) (path : string) (h : Host) :
  let data := server_data_path context in
  let jar := server_jar_path context in
  let c := language_client context path in
  let asked := log (ExistsSync data) h in
  let continue (h1 : Host) : Outcome unit * Host :=
    let h2 := with_client (Some c)
                (log (NewLanguageClient c) (log (ExistsSync jar) h1)) in
    if bool_decide (jar ∈ fs h1)
    then match start_answer h c with
         | Return _ => (Return tt, log (SetTimeout 1500) (log (ClientStart c) h2))
         | Throw error => report_start_failure error (log (ClientStart c) h2)
         end
    else (Throw (new_Error (jar_missing_message jar)), log (ExistsSync jar) h1) in
  launchLanguageServer context path h =
  if bool_decide (data ∈ fs h)
  then continue asked
  else match mkdir_answer h data with
       | None => continue (log (MkdirSync data) (with_fs ({[data]} ∪ fs h) asked))
       | Some error => (Throw error, log (MkdirSync data) asked)
       end.
Proof.
  intros data jar c asked continue. subst continue asked.
  unfold launchLanguageServer, new_LanguageClient, try_catch, client_start,
    existsSync, mkdirSync, emit, set_client, setTimeout,
    mbind, M_bind, mret, M_ret.
  fold data jar c. simpl.
  case_bool_decide; simpl.
  - case_bool_decide; simpl; [|reflexivity].
    by destruct (start_answer h c) as [[]|error].
  - destruct (mkdir_answer h data) as [error|]; simpl; [reflexivity|].
    case_bool_decide; simpl; [|reflexivity].
    by destruct (start_answer h c) as [[]|error].
Qed.

(** The launch when the data directory is there or can be created. *)
Lemma launchLanguageServer_ready (context : ExtensionContext) (path : string) (h : Host) :
  data_directory_ready context h ->
  let data := server_data_path context in
  let jar := server_jar_path context in
  let c := language_client context path in
  let h1 := if bool_decide (data ∈ fs h)
            then log (ExistsSync data) h
            else log (MkdirSync data)
                   (with_fs ({[data]} ∪ fs h) (log (ExistsSync data) h)) in
  let h2 := with_client (Some c) (log (NewLanguageClient c) (log (ExistsSync jar) h1)) in
  launchLanguageServer context path h =
  if bool_decide (jar ∈ fs h1)
  then match start_answer h c with
       | Return _ => (Return tt, log (SetTimeout 1500) (log (ClientStart c) h2))
       | Throw error => report_start_failure error (log (ClientStart c) h2)
       end
  else (Throw (new_Error (jar_missing_message jar)), log (ExistsSync jar) h1).
Proof.
  intros Hready data jar c h1 h2. subst h2 h1.
  rewrite launchLanguageServer_run. cbv zeta. fold data jar c.
  case_bool_decide as Hdata; [reflexivity|].
  destruct Hready as [Hin|Hmkdir]; [done|]. fold data in Hmkdir.
  by rewrite Hmkdir.
Qed.

(** The launch when the data directory cannot be created: the error of
    the file system is thrown and nothing else is done. *)
Lemma launchLanguageServer_read_only (context : ExtensionContext) (path : string)
    (h : Host) (error : JsError) :
  server_data_path context ∉ fs h ->
  mkdir_answer h (server_data_path context) = Some error ->
  launchLanguageServer context path h =
  (Throw error,
   log_all [ExistsSync (server_data_path context);
            MkdirSync (server_data_path context)] h).
Proof.
  intros Hdata Hmkdir. rewrite launchLanguageServer_run. cbv zeta.
  rewrite (bool_decide_eq_false_2 _ Hdata), Hmkdir.
  unfold log. by rewrite log_all_app.
Qed.

(** Either the data directory is ready or its creation fails. *)
Lemma data_directory_cases (context : ExtensionContext) (h : Host) :
  data_directory_ready context h \/
  ((server_data_path context ∉ fs h) /\
   exists error, mkdir_answer h (server_data_path context) = Some error).
Proof.
  unfold data_directory_ready.
  destruct (decide (server_data_path context ∈ fs h)) as [Hin|Hin]; [by auto|].
  destruct (mkdir_answer h (server_data_path context)) as [error|]; [|by auto].
  right. split; [exact Hin | by exists error].
Qed.

(** What a launch adds to the trace: at most one client is constructed,
    with the executable it was given, and it is constructed whenever the
    packaged server is on disk and the data directory is ready. *)
Lemma launchLanguageServer_trace (context : ExtensionContext) (path : string) (h : Host) :
  exists evs,
    trace (snd (launchLanguageServer context path h)) = trace h ++ evs /\
    (forall c, NewLanguageClient c ∈ evs -> c = language_client context path) /\
    (server_jar_path context ∈ fs h -> data_directory_ready context h ->
     NewLanguageClient (language_client context path) ∈ evs /\
     client (snd (launchLanguageServer context path h))
     = Some (language_client context path)).
Proof.
  destruct (data_directory_cases context h) as [Hready|(Hdata & error & Hmkdir)].
  2:{ rewrite (launchLanguageServer_read_only context path h error Hdata Hmkdir).
      eexists. split; [reflexivity|].
      split; [intros c' Hc'; trace_member Hc'|].
      intros _ [Hin|Hnone]; [done | congruence]. }
  rewrite (launchLanguageServer_ready context path h Hready). cbv zeta.
  set (data := server_data_path context). set (jar := server_jar_path context).
  set (c := language_client context path).
  destruct (decide (data ∈ fs h)) as [Hdata|Hdata];
    [rewrite (bool_decide_eq_true_2 _ Hdata)
    |rewrite (bool_decide_eq_false_2 _ Hdata)]; simpl.
  - case_bool_decide as Hjar; simpl.
    + destruct (start_answer h c) as [[]|error];
        rewrite ?report_start_failure_run; try destruct error; simpl;
        eexists; (split; [rewrite <- ?app_assoc; reflexivity|]); simpl;
        (split; [intros c' Hc'; trace_member Hc'; congruence
               | intros _ _; split; [in_trace|reflexivity]]).
    + eexists. split; [rewrite <- ?app_assoc; reflexivity|]. simpl.
      split; [intros c' Hc'; trace_member Hc' | intros Hin; done].
  - case_bool_decide as Hjar; simpl.
    + destruct (start_answer h c) as [[]|error];
        rewrite ?report_start_failure_run; try destruct error; simpl;
        eexists; (split; [rewrite <- ?app_assoc; reflexivity|]); simpl;
        (split; [intros c' Hc'; trace_member Hc'; congruence
               | intros _ _; split; [in_trace|reflexivity]]).
    + eexists. split; [rewrite <- ?app_assoc; reflexivity|]. simpl.
      split; [intros c' Hc'; trace_member Hc' | intros Hin _].
      exfalso. apply Hjar, elem_of_union. by right.
Qed.

(** A launch only throws values that have properties. *)
Lemma launchLanguageServer_raises (context : ExtensionContext) (path : string)
    (h : Host) (error : Thrown) :
  fst (launchLanguageServer context path h) = Throw error ->
  exists e : JsError, error = e.
Proof.
  rewrite launchLanguageServer_run. cbv zeta.
  assert (forall (thrown : Thrown) (h' : Host),
            fst (report_start_failure thrown h') = Throw error ->
            exists e : JsError, error = e) as Hreport.
  { intros thrown h'. rewrite report_start_failure_run.
    destruct thrown; intros [= <-]; by eexists. }
  case_bool_decide; [|destruct (mkdir_answer h _) as [e|]];
    try (intros [= <-]; by eexists);
    (case_bool_decide; [|intros [= <-]; by eexists]);
    (destruct (start_answer h _) as [[]|thrown]; [discriminate | apply Hreport]).
Qed.

(** The host after [restartLanguageServer] has stopped the client that was
    there. *)
Lemma restartLanguageServer_run (context : ExtensionContext) (h : Host) :
  (forall c, client h = Some c -> stop_answer h c = Return tt) ->
  let h1 := match client h with
            | Some c => with_client None (log (ClientStop c) h)
            | None => h
            end in
  let h2 := log_all (events_of (findValidJavaRuntime context) h) h1 in
  restartLanguageServer context h =
  match result_of (findValidJavaRuntime context) h with
  | Return path =>
      match launchLanguageServer context path h2 with
      | (Return _, h3) =>
          (Return tt,
           log (ShowInformationMessage
                  "✅ Java Language Server restarted successfully!") h3)
      | (Throw error, h3) => report_restart_failure error h3
      end
  | Throw error => report_restart_failure error h2
  end.
Proof.
  intros Hstop h1 h2.
  assert (same_inputs h h1) as Hh1.
  { subst h1. destruct (client h); by repeat split. }
  pose proof (findValidJavaRuntime_at context h h1 Hh1) as Hfind.
  fold h2 in Hfind.
  assert (restartLanguageServer context h =
          try_catch
            (javaCmdPath ← findValidJavaRuntime context;
             launchLanguageServer context javaCmdPath ;;
             showInformationMessage
               "✅ Java Language Server restarted successfully!")
            report_restart_failure h1) as ->.
  { subst h1. unfold restartLanguageServer, try_catch, get_client.
    unfold mbind at 1, M_bind at 1. unfold mbind at 1, M_bind at 1.
    destruct (client h) as [c|] eqn:Hc.
    - unfold mbind at 1, M_bind at 1, client_stop. rewrite (Hstop c eq_refl).
      reflexivity.
    - reflexivity. }
  unfold try_catch, mbind, M_bind. rewrite Hfind.
  destruct (result_of (findValidJavaRuntime context) h) as [path|e]; [|reflexivity].
  by destruct (launchLanguageServer context path h2) as [[[]|e] h3].
Qed.

(** When the stop of the live client fails, the restart is given up:
    neither discovery nor launch is run, and the [catch] gets the value
    that the stop was rejected with. *)
Lemma restartLanguageServer_stop_fails (context : ExtensionContext) (h : Host)
    (c : Client) (error : Thrown) :
  client h = Some c -> stop_answer h c = Throw error ->
  restartLanguageServer context h =
  report_restart_failure error (log (ClientStop c) h).
Proof.
  intros Hc Hstop.
  unfold restartLanguageServer, try_catch, get_client.
  unfold mbind at 1, M_bind at 1. unfold mbind at 1, M_bind at 1.
  rewrite Hc. unfold mbind at 1, M_bind at 1, client_stop.
  by rewrite Hstop.
Qed.

End SupervisorFacts.

(** ** Discovery with and without the configured path *)

Section DiscoverySteps.

Context `{NodePath}.

(** With a configured path that is not empty, discovery is the validation
    of that path and nothing else. *)
Lemma findValidJavaRuntime_configured (context : ExtensionContext) (h : Host)
    (userPath : string) :
  settings h !! "kope-java.javaHome" = Some userPath -> userPath <> "" ->
  result_of (findValidJavaRuntime context) h =
    match result_of (validateJavaPath userPath) h with
    | Return (Valid path) => Return path
    | Return (Invalid reason) =>
        Throw (new_Error (invalid_setting_message userPath reason))
    | Throw e => Throw e
    end /\
  events_of (findValidJavaRuntime context) h =
    GetConfiguration "kope-java" "javaHome"
    :: events_of (validateJavaPath userPath) h.
Proof.
  intros Hset Hne. apply events_of_run.
  unfold findValidJavaRuntime, mbind at 1, M_bind at 1, getConfiguration.
  change ("kope-java" +:+ "." +:+ "javaHome") with "kope-java.javaHome".
  rewrite Hset. destruct userPath as [|c userPath]; [done|].
  unfold mbind, M_bind.
  rewrite (validateJavaPath_at _ h (log _ h)) by by repeat split.
  rewrite validateJavaPath_result, log_all_log.
  by destruct (fst (run_checks _ _ _)).
Qed.

(** Without one, or with the empty string, discovery is the search of the
    environment and of the search path. *)
Lemma findValidJavaRuntime_unconfigured (context : ExtensionContext) (h : Host) :
  truthy (settings h !! "kope-java.javaHome") = false ->
  findValidJavaRuntime context h =
  search_environment (log (GetConfiguration "kope-java" "javaHome") h).
Proof.
  intros Hset.
  unfold findValidJavaRuntime, mbind at 1, M_bind at 1, getConfiguration.
  change ("kope-java" +:+ "." +:+ "javaHome") with "kope-java.javaHome".
  by destruct (settings h !! "kope-java.javaHome") as [[|c userPath]|].
Qed.

(** Discovery only throws errors that it made itself. *)
Lemma findValidJavaRuntime_raises (context : ExtensionContext) (h : Host)
    (error : Thrown) :
  result_of (findValidJavaRuntime context) h = Throw error ->
  exists e : JsError, error = e.
Proof.
  assert (truthy (settings h !! "kope-java.javaHome") = false ->
          result_of (findValidJavaRuntime context) h = Throw error ->
          exists e : JsError, error = e) as Hsearch.
  { intros Hset. unfold result_of.
    rewrite (findValidJavaRuntime_unconfigured context h Hset).
    destruct (search_environment_outcome
                (log (GetConfiguration "kope-java" "javaHome") h))
      as [calls [[path ->]| ->]]; [discriminate|]. intros [= <-]. by eexists. }
  destruct (settings h !! "kope-java.javaHome") as [userPath|] eqn:Hset.
  - destruct (decide (userPath = "")) as [->|Hne]; [by apply Hsearch|].
    destruct (findValidJavaRuntime_configured context h userPath Hset Hne)
      as [Hresult _].
    rewrite Hresult. rewrite validateJavaPath_result.
    destruct (fst (run_checks h userPath check_order)) as [path|reason];
      [discriminate|].
    intros [= <-]. by eexists.
  - by apply Hsearch.
Qed.

End DiscoverySteps.

(** * The properties of the specification *)

(** Decide a closed fact about a host that is written out, such as the
    membership of a path in its file system. *)
Ltac on_disk := apply (bool_decide_unpack _); vm_compute; exact I.

(** ** Validation of a candidate root *)

Section ValidationProperties.

Context `{NodePath}.

(** C1 (as amended).  For a candidate root that passes the three
    existence checks and whose version query runs to its end, validation
    reads the version banner from the standard error of the query only.
    The major version is the integer before the first dot of the first
    quoted dotted-version token of standard error, as [parseInt] reads it:
    that integer itself below 2^53 and the double nearest to it above; and
    validation succeeds exactly when the integer lies within 17 to 99.
    Whatever standard output holds, a standard error without such a token
    gives the result that the version could not be determined. *)
Theorem version_banner_on_stderr (root : string) (h : Host) (stdout stderr : string) :
  root ∈ fs h -> java_exe root ∈ fs h -> javac_exe root ∈ fs h ->
  exec_answer h (version_command (java_exe root)) = ExecDone stdout stderr ->
  (forall before digits after,
      stderr = before +:+ String Js.dquote (digits +:+ String "." after) ->
      Js.match_version before = None ->
      digits <> "" -> Js.all_digits digits = true ->
      Js.parseInt digits = Js.to_double (Js.decimal_value 0 digits) /\
      ((Js.decimal_value 0 digits < 2 ^ 53)%N ->
       Js.parseInt digits = Js.Finite (Js.decimal_value 0 digits)) /\
      result_of (validateJavaPath root) h =
      Return (if (17 <=? Js.decimal_value 0 digits)%N
                 && (Js.decimal_value 0 digits <=? 99)%N
              then Valid (java_exe root)
              else Invalid ("Version "
                            +:+ Js.number_to_string (Js.parseInt digits)
                            +:+ " is outside supported range (17-99)."))) /\
  (Js.match_version stderr = None ->
   result_of (validateJavaPath root) h
   = Return (Invalid "Could not determine Java version.")).
Proof.
  intros Hroot Hjava Hjavac Hexec.
  pose proof (validateJavaPath_queried root h stdout stderr
                Hroot Hjava Hjavac Hexec) as Hresult.
  split.
  - intros before digits after -> Hbefore Hne Hds.
    split; [by apply JsFacts.parseInt_digits|].
    split.
    { intros Hsmall. rewrite (JsFacts.parseInt_digits digits Hne Hds).
      by apply JsFacts.to_double_small. }
    by rewrite (JsFacts.match_version_first before digits after Hbefore Hne Hds)
      in Hresult.
  - intros Hnone. by rewrite Hnone in Hresult.
Qed.

(** C3.  For a candidate root whose interpreter reports a parseable major
    version, that is, a root on which validation reaches the version query
    (the root and both executables exist) and finds the version token in
    what the query printed, the detected version is the number that
    [parseInt] makes of the digits of the token: the double nearest to
    their value, which is that value below 2^53, and never [NaN].  When
    the detected version [v] is within 17 to 99 inclusive validation
    returns valid with the path of the interpreter executable; when it is
    below 17 or above 99 it returns invalid with a reason that cites [v],
    as JavaScript prints the number, and the supported range.  A run of
    digits too long for a double is detected as [Infinity] and is
    invalid with a reason of the same form. *)
Theorem version_range_decides (root : string) (h : Host)
    (stdout stderr digits : string) :
  root ∈ fs h -> java_exe root ∈ fs h -> javac_exe root ∈ fs h ->
  exec_answer h (version_command (java_exe root)) = ExecDone stdout stderr ->
  Js.match_version stderr = Some digits ->
  MIN_JAVA_VERSION = 17%N /\ MAX_JAVA_VERSION = 99%N /\
  Js.parseInt digits = Js.to_double (Js.decimal_value 0 digits) /\
  Js.parseInt digits <> Js.NaN /\
  (forall v, Js.parseInt digits = Js.Finite v ->
     ((MIN_JAVA_VERSION <= v <= MAX_JAVA_VERSION)%N ->
      result_of (validateJavaPath root) h = Return (Valid (java_exe root))) /\
     ((v < MIN_JAVA_VERSION \/ MAX_JAVA_VERSION < v)%N ->
      result_of (validateJavaPath root) h =
      Return (Invalid ("Version " +:+ Js.number_to_string (Js.Finite v)
                       +:+ " is outside supported range (17-99)."))) /\
     ((v < 2 ^ 53)%N ->
      v = Js.decimal_value 0 digits /\
      Js.number_to_string (Js.Finite v) = Js.decimal v)) /\
  (Js.parseInt digits = Js.Infinity ->
   result_of (validateJavaPath root) h =
   Return (Invalid "Version Infinity is outside supported range (17-99).")).
Proof.
  intros Hroot Hjava Hjavac Hexec Hmatch.
  pose proof (validateJavaPath_queried root h stdout stderr
                Hroot Hjava Hjavac Hexec) as Hresult.
  rewrite Hmatch in Hresult. cbv zeta in Hresult.
  destruct (JsFacts.match_version_digits _ _ Hmatch) as [Hne Hds].
  pose proof (JsFacts.parseInt_digits digits Hne Hds) as Hparse.
  pose proof (JsFacts.number_ge_to_double (Js.decimal_value 0 digits) 17 eq_refl) as Hge.
  pose proof (JsFacts.number_le_to_double (Js.decimal_value 0 digits) 99 eq_refl) as Hle.
  rewrite <- Hparse in Hge, Hle.
  change MIN_JAVA_VERSION with 17%N in *. change MAX_JAVA_VERSION with 99%N in *.
  rewrite <- Hge, <- Hle in Hresult.
  split; [reflexivity|]. split; [reflexivity|]. split; [exact Hparse|].
  split; [by apply JsFacts.parseInt_not_NaN|]. split.
  - intros v Hv. rewrite Hv in Hresult. simpl in Hresult. split; [|split].
    + intros [Hmin Hmax]. rewrite Hresult.
      apply N.leb_le in Hmin, Hmax. by rewrite Hmin, Hmax.
    + intros Hout. rewrite Hresult.
      destruct Hout as [Hlow|Hhigh].
      * apply N.leb_gt in Hlow. by rewrite Hlow.
      * apply N.leb_gt in Hhigh. by rewrite Hhigh, andb_false_r.
    + intros Hsmall. split; [|by apply JsFacts.number_to_string_small].
      rewrite Hparse in Hv.
      destruct (N.lt_ge_cases (Js.decimal_value 0 digits) (2 ^ 53)) as [Hdv|Hdv].
      * rewrite (JsFacts.to_double_small _ Hdv) in Hv. by injection Hv.
      * destruct (JsFacts.to_double_large _ Hdv) as [Hinf|(d & Hd & Hbig)];
          rewrite Hv in *; [discriminate|]. injection Hd as ->. lia.
  - intros Hinf. rewrite Hinf in Hresult. exact Hresult.
Qed.

(** C4.  Validation of a candidate root performs its checks in the order
    root exists, interpreter exists, compiler exists, version query,
    version range, and stops at the first check that fails: its verdict
    and its host calls are those of [run_checks] on [check_order].  In
    particular a root without interpreter executable is invalid with a
    reason that names the missing file, whatever else is on disk and
    whatever the version query would answer; the compiler is then not
    looked for and the version query is not run. *)
Theorem validation_checks_in_order (root : string) (h : Host) :
  validateJavaPath root h =
  (Return (fst (run_checks h root check_order)),
   log_all (snd (run_checks h root check_order)) h) /\
  (root ∈ fs h -> java_exe root ∉ fs h ->
   validateJavaPath root h =
   (Return (Invalid ("The file '" +:+ java_exe root +:+ "' does not exist.")),
    log_all [ExistsSync root; ExistsSync (java_exe root)] h)).
Proof.
  split; [apply validateJavaPath_run|].
  intros Hroot Hjava. rewrite validateJavaPath_run.
  unfold check_order, run_checks, passes.
  rewrite (bool_decide_eq_true_2 _ Hroot), (bool_decide_eq_false_2 _ Hjava).
  reflexivity.
Qed.

(** C6.  Validation never throws: on every path and every host it returns
    a result, valid with a path or invalid with a reason.  In particular
    when the version query cannot be run, the failure is caught and the
    result is invalid. *)
Theorem validation_never_throws (root : string) (h : Host) :
  (exists verdict : ValidationResult,
      result_of (validateJavaPath root) h = Return verdict /\
      ((exists path, verdict = Valid path) \/ (exists reason, verdict = Invalid reason))) /\
  (forall error,
      root ∈ fs h -> java_exe root ∈ fs h -> javac_exe root ∈ fs h ->
      exec_answer h (version_command (java_exe root)) = ExecFailed error ->
      validateJavaPath root h =
      (Return (Invalid "Could not execute 'java -version' successfully."),
       log_all [ExistsSync root; ExistsSync (java_exe root);
                ExistsSync (javac_exe root);
                Exec (version_command (java_exe root))] h)).
Proof.
  split.
  - exists (fst (run_checks h root check_order)).
    split; [apply validateJavaPath_result|].
    destruct (fst (run_checks h root check_order)) as [path|reason]; eauto.
  - intros error Hroot Hjava Hjavac Hexec. rewrite validateJavaPath_run.
    unfold check_order, run_checks, passes, failure_reason, reported_major.
    rewrite !bool_decide_eq_true_2 by assumption. by rewrite Hexec.
Qed.

End ValidationProperties.

(** ** Discovery of a runtime *)

Section DiscoveryProperties.

Context `{NodePath}.

(** C2.  When the configured [javaHome] is provided and fails validation,
    discovery ends in an error that names the path and the reason of the
    validation; its only host calls are the read of the setting and those
    of that one validation, so neither the environment variable nor the
    search path is consulted. *)
Theorem invalid_override_is_fatal (context : ExtensionContext) (h : Host)
    (userPath reason : string) :
  settings h !! "kope-java.javaHome" = Some userPath -> userPath <> "" ->
  result_of (validateJavaPath userPath) h = Return (Invalid reason) ->
  result_of (findValidJavaRuntime context) h =
    Throw (new_Error ("Invalid Java installation at '" +:+ userPath +:+ "'. "
                      +:+ reason)) /\
  events_of (findValidJavaRuntime context) h =
    GetConfiguration "kope-java" "javaHome"
    :: events_of (validateJavaPath userPath) h /\
  forallb (fun e => negb (consults_environment e) && negb (consults_search_path e))
          (events_of (findValidJavaRuntime context) h) = true.
Proof.
  intros Hset Hne Hinvalid.
  destruct (findValidJavaRuntime_configured context h userPath Hset Hne)
    as [Hresult Hevents].
  rewrite Hinvalid in Hresult. rewrite Hresult, Hevents.
  repeat split. rewrite validateJavaPath_events. cbn -[run_checks].
  apply run_checks_stay_local.
Qed.

(** C5.  With no configured override and no, or an invalid, [JAVA_HOME],
    discovery probes the candidates of the search path one at a time in
    the order [where java] printed them, and returns the executable of
    the first one that validates: every candidate before it is validated
    and skipped, no candidate after it is looked at. *)
Theorem search_path_first_valid (context : ExtensionContext) (h : Host)
    (stdout stderr : string) (skipped rest : list string) (javaPath path : string) :
  truthy (settings h !! "kope-java.javaHome") = false ->
  (forall home, env h !! "JAVA_HOME" = Some home ->
                home = "" \/
                exists reason,
                  result_of (validateJavaPath home) h = Return (Invalid reason)) ->
  exec_answer h "where java" = ExecDone stdout stderr ->
  Js.split Js.CRLF (Js.trim stdout) = skipped ++ javaPath :: rest ->
  Forall (fun p => exists reason,
            result_of (validateJavaPath (dirname (dirname p))) h
            = Return (Invalid reason)) skipped ->
  result_of (validateJavaPath (dirname (dirname javaPath))) h = Return (Valid path) ->
  result_of (findValidJavaRuntime context) h = Return path /\
  events_of (findValidJavaRuntime context) h =
    [GetConfiguration "kope-java" "javaHome"; ProcessEnv "JAVA_HOME"]
    ++ match env h !! "JAVA_HOME" with
       | Some (String _ _ as home) => events_of (validateJavaPath home) h
       | _ => []
       end
    ++ [Exec "where java"]
    ++ concat (map (fun p => events_of (validateJavaPath (dirname (dirname p))) h)
                   (skipped ++ [javaPath])).
Proof.
  intros Hset Henv Hwhere Hsplit Hskipped Hvalid. apply events_of_run.
  rewrite (findValidJavaRuntime_unconfigured context h Hset).
  assert (forall evs0,
    search_path (log_all evs0 h) =
    (Return path,
     log_all (evs0 ++ [Exec "where java"]
              ++ concat (map (fun p => events_of
                                         (validateJavaPath (dirname (dirname p))) h)
                             (skipped ++ [javaPath]))) h)) as Hpath.
  { intros evs0.
    unfold search_path, try_catch, execPromise, cp_exec, mbind, M_bind. simpl.
    rewrite Hwhere. simpl. rewrite Hsplit.
    rewrite (probe_search_path_first h _ skipped rest javaPath path)
      by (by repeat split || assumption).
    merge_logs. reflexivity. }
  rewrite search_environment_step. unfold log. rewrite log_all_app.
  change (env (log_all [GetConfiguration "kope-java" "javaHome"] h)) with (env h).
  cbn [app].
  destruct (env h !! "JAVA_HOME") as [[|c home]|] eqn:Hhome;
    try (rewrite Hpath; reflexivity).
  destruct (Henv _ eq_refl) as [|[reason Hreason]]; [done|].
  unfold mbind, M_bind.
  rewrite (validateJavaPath_at _ h (log_all _ h)) by by repeat split.
  rewrite Hreason, log_all_app, Hpath. by rewrite <- !app_assoc.
Qed.


End DiscoveryProperties.

(** ** Supervision of the language server *)

Section SupervisorProperties.

Context `{NodePath}.

(** C7 (as amended).  A restart first stops the live client, if there is
    one.  When that stop completes, or when there was no client, the
    restart runs discovery anew: its host calls are the stop followed by
    those of a discovery on the host as it is now; every client that the
    restart constructs runs the executable that this discovery returns;
    and with a valid override in the settings at the time of the restart,
    the packaged server on disk and a data directory that is there or can
    be created, the new client runs the interpreter of that override.
    What discovery returns never depends on the client that was there
    before.  When the stop is rejected, the restart is given up: after the
    stop it makes no other call than to show the failure, so discovery is
    not run and no client is constructed, and the module variable keeps
    the client that did not stop. *)
Theorem restart_rediscovers (context : ExtensionContext) (h : Host) :
  ((forall c, client h = Some c -> stop_answer h c = Return tt) ->
   (exists later,
       events_of (restartLanguageServer context) h =
       match client h with Some c => [ClientStop c] | None => [] end
       ++ events_of (findValidJavaRuntime context) h ++ later) /\
   (forall c, NewLanguageClient c ∈ events_of (restartLanguageServer context) h ->
              result_of (findValidJavaRuntime context) h = Return (command c)) /\
   (forall userPath path,
       settings h !! "kope-java.javaHome" = Some userPath -> userPath <> "" ->
       result_of (validateJavaPath userPath) h = Return (Valid path) ->
       server_jar_path context ∈ fs h ->
       data_directory_ready context h ->
       NewLanguageClient (language_client context path)
         ∈ events_of (restartLanguageServer context) h /\
       client (snd (restartLanguageServer context h))
       = Some (language_client context path))) /\
  (forall previous,
      result_of (findValidJavaRuntime context) (with_client previous h)
      = result_of (findValidJavaRuntime context) h) /\
  (forall c error,
      client h = Some c -> stop_answer h c = Throw error ->
      events_of (restartLanguageServer context) h =
        ClientStop c
        :: match error with
           | Raised e =>
               [ShowErrorMessage ("❌ Failed to restart Java Language Server: "
                                  +:+ message_text e)]
           | _ => []
           end /\
      client (snd (restartLanguageServer context h)) = Some c).
Proof.
  split; [|split].
  2:{ intros previous. unfold result_of at 1.
      by rewrite (findValidJavaRuntime_at context h (with_client previous h))
        by by repeat split. }
  2:{ intros c error Hc Hs. unfold events_of.
      rewrite (restartLanguageServer_stop_fails context h c error Hc Hs),
        report_restart_failure_run.
      destruct error; simpl; rewrite <- ?app_assoc, drop_app_length; by split. }
  intros Hstop.
  pose proof (restartLanguageServer_run context h Hstop) as Hrun.
  cbv zeta in Hrun.
  set (stop := match client h with Some c => [ClientStop c] | None => [] end).
  set (found := events_of (findValidJavaRuntime context) h) in *.
  set (h1 := match client h with
             | Some c => with_client None (log (ClientStop c) h)
             | None => h
             end) in *.
  assert (trace (log_all found h1) = trace h ++ stop ++ found) as Htrace.
  { subst h1 stop. destruct (client h); simpl; by rewrite <- ?app_assoc. }
  assert (fs (log_all found h1) = fs h) as Hfs.
  { subst h1. by destruct (client h). }
  assert (data_directory_ready context h ->
          data_directory_ready context (log_all found h1)) as Hready.
  { unfold data_directory_ready. rewrite Hfs.
    replace (mkdir_answer (log_all found h1)) with (mkdir_answer h); [done|].
    subst h1. by destruct (client h). }
  assert (forall c, NewLanguageClient c ∉ stop ++ found) as Hnone.
  { intros c [Hc|Hc]%elem_of_app.
    - subst stop. destruct (client h); trace_member Hc.
    - pose proof (findValidJavaRuntime_queries context h) as Hq.
      fold found in Hq. rewrite forallb_forall in Hq.
      apply list_elem_of_In, Hq in Hc. discriminate Hc. }
  assert (exists later,
    events_of (restartLanguageServer context) h = stop ++ found ++ later /\
    (forall c, NewLanguageClient c ∈ later ->
               result_of (findValidJavaRuntime context) h = Return (command c)) /\
    (forall path,
        result_of (findValidJavaRuntime context) h = Return path ->
        server_jar_path context ∈ fs h ->
        data_directory_ready context h ->
        NewLanguageClient (language_client context path) ∈ later /\
        client (snd (restartLanguageServer context h))
        = Some (language_client context path))) as (later & Hevents & Hnew & Hlaunch).
  { unfold events_of. rewrite Hrun.
    destruct (result_of (findValidJavaRuntime context) h) as [path|error] eqn:Hfound.
    - destruct (launchLanguageServer_trace context path (log_all found h1))
        as (evs & Hevs & Honly & Hjar).
      rewrite Hfs in Hjar.
      destruct (launchLanguageServer context path (log_all found h1))
        as [[[]|error] h3] eqn:Hstarted.
      + cbn [snd] in *. rewrite trace_log, Hevs, Htrace.
        eexists. split; [rewrite <- !app_assoc; by rewrite drop_app_length|].
        split; [intros c [Hc|Hc]%elem_of_app;
                [by rewrite (Honly c Hc) | trace_member Hc]|].
        intros path' [= <-] Hin Hdata.
        destruct (Hjar Hin (Hready Hdata)) as [Hc Hclient].
        split; [apply elem_of_app; by left | exact Hclient].
      + destruct (launchLanguageServer_raises context path (log_all found h1) error)
          as [e ->]; [by rewrite Hstarted|].
        rewrite report_restart_failure_run.
        cbn [snd] in *. rewrite trace_log, Hevs, Htrace.
        eexists. split; [rewrite <- !app_assoc; by rewrite drop_app_length|].
        split; [intros c [Hc|Hc]%elem_of_app;
                [by rewrite (Honly c Hc) | trace_member Hc]|].
        intros path' [= <-] Hin Hdata.
        destruct (Hjar Hin (Hready Hdata)) as [Hc Hclient].
        split; [apply elem_of_app; by left | exact Hclient].
    - destruct (findValidJavaRuntime_raises context h error Hfound) as [e ->].
      rewrite report_restart_failure_run.
      cbn [snd]. rewrite trace_log, Htrace. eexists.
      split; [rewrite <- !app_assoc; by rewrite drop_app_length|].
      split; [intros c Hc; trace_member Hc | intros path' [=]]. }
  split; [by exists later|]. split.
  - intros c Hc. rewrite Hevents, app_assoc in Hc.
    apply elem_of_app in Hc as [Hc|Hc]; [by apply Hnone in Hc | by apply Hnew].
  - intros userPath path Hset Hne Hvalid Hjar Hdata.
    destruct (findValidJavaRuntime_configured context h userPath Hset Hne)
      as [Hresult _].
    rewrite Hvalid in Hresult.
    destruct (Hlaunch path Hresult Hjar Hdata) as [Hc Hclient].
    split; [|exact Hclient].
    rewrite Hevents, app_assoc. apply elem_of_app. by right.
Qed.

(** C8 (as amended).  A launch first looks for the data directory and
    creates it when it is absent.  When it is there or its creation
    succeeds, which is then no failure, a launch that does not find the
    packaged server fails with the error that asks for a reinstallation,
    before a client is constructed and before a process is started; and
    with the packaged server on disk and a client that starts, the launch
    succeeds.  When the creation of the data directory fails, the launch
    fails with the error of the file system: the packaged server is not
    looked for, no client is constructed and nothing is created.  The two
    paths are different files. *)
Theorem missing_jar_fails_before_client (context : ExtensionContext)
    (javaCmdPath : string) (h : Host) :
  server_data_path context <> server_jar_path context ->
  (server_jar_path context ∉ fs h -> data_directory_ready context h ->
   result_of (launchLanguageServer context javaCmdPath) h =
     Throw (new_Error ("Java Language Server jar not found at: "
                       +:+ server_jar_path context +:+ "." +:+ Js.LF
                       +:+ "Please reinstall the KopeCode Java extension.")) /\
   events_of (launchLanguageServer context javaCmdPath) h =
     ExistsSync (server_data_path context)
     :: (if bool_decide (server_data_path context ∈ fs h)
         then [] else [MkdirSync (server_data_path context)])
     ++ [ExistsSync (server_jar_path context)] /\
   forallb (fun e => negb (constructs_or_spawns e))
           (events_of (launchLanguageServer context javaCmdPath) h) = true /\
   client (snd (launchLanguageServer context javaCmdPath h)) = client h) /\
  (data_directory_ready context h ->
   server_data_path context ∈ fs (snd (launchLanguageServer context javaCmdPath h))) /\
  (server_data_path context ∉ fs h ->
   mkdir_answer h (server_data_path context) = None ->
   server_jar_path context ∈ fs h ->
   start_answer h (language_client context javaCmdPath) = Return tt ->
   result_of (launchLanguageServer context javaCmdPath) h = Return tt /\
   MkdirSync (server_data_path context)
     ∈ events_of (launchLanguageServer context javaCmdPath) h) /\
  (forall error : JsError,
      server_data_path context ∉ fs h ->
      mkdir_answer h (server_data_path context) = Some error ->
      result_of (launchLanguageServer context javaCmdPath) h = Throw error /\
      events_of (launchLanguageServer context javaCmdPath) h =
        [ExistsSync (server_data_path context);
         MkdirSync (server_data_path context)] /\
      client (snd (launchLanguageServer context javaCmdPath h)) = client h /\
      fs (snd (launchLanguageServer context javaCmdPath h)) = fs h).
Proof.
  intros Hdiff.
  assert (forall error : JsError,
             server_data_path context ∉ fs h ->
             mkdir_answer h (server_data_path context) = Some error ->
             result_of (launchLanguageServer context javaCmdPath) h = Throw error /\
             events_of (launchLanguageServer context javaCmdPath) h =
               [ExistsSync (server_data_path context);
                MkdirSync (server_data_path context)] /\
             client (snd (launchLanguageServer context javaCmdPath h)) = client h /\
             fs (snd (launchLanguageServer context javaCmdPath h)) = fs h) as Hfails.
  { intros error Hdata Hmkdir.
    pose proof (launchLanguageServer_read_only context javaCmdPath h error
                  Hdata Hmkdir) as Hrun.
    destruct (events_of_run _ _ _ _ Hrun) as [-> ->]. by rewrite Hrun. }
  assert (data_directory_ready context h ->
          (server_jar_path context ∉ fs h ->
           result_of (launchLanguageServer context javaCmdPath) h =
             Throw (new_Error (jar_missing_message (server_jar_path context))) /\
           events_of (launchLanguageServer context javaCmdPath) h =
             ExistsSync (server_data_path context)
             :: (if bool_decide (server_data_path context ∈ fs h)
                 then [] else [MkdirSync (server_data_path context)])
             ++ [ExistsSync (server_jar_path context)] /\
           forallb (fun e => negb (constructs_or_spawns e))
                   (events_of (launchLanguageServer context javaCmdPath) h) = true /\
           client (snd (launchLanguageServer context javaCmdPath h)) = client h) /\
          server_data_path context
            ∈ fs (snd (launchLanguageServer context javaCmdPath h)) /\
          (server_data_path context ∉ fs h ->
           server_jar_path context ∈ fs h ->
           start_answer h (language_client context javaCmdPath) = Return tt ->
           result_of (launchLanguageServer context javaCmdPath) h = Return tt /\
           MkdirSync (server_data_path context)
             ∈ events_of (launchLanguageServer context javaCmdPath) h)) as Hok.
  { intros Hready. unfold result_of, events_of.
    rewrite (launchLanguageServer_ready context javaCmdPath h Hready). cbv zeta.
    set (data := server_data_path context) in *.
    set (jar := server_jar_path context) in *.
    set (c := language_client context javaCmdPath).
    destruct (decide (data ∈ fs h)) as [Hdata|Hdata];
      [rewrite (bool_decide_eq_true_2 _ Hdata)
      |rewrite (bool_decide_eq_false_2 _ Hdata)]; simpl.
    - split; [|split].
      + intros Hjar. rewrite (bool_decide_eq_false_2 _ Hjar). simpl.
        rewrite <- !app_assoc, drop_app_length. by repeat split.
      + case_bool_decide; [destruct (start_answer h c) as [[]|error]|];
          rewrite ?report_start_failure_run; try destruct error; exact Hdata.
      + done.
    - assert (forall p, p ∈ ({[data]} ∪ fs h : gset string) <-> p = data \/ p ∈ fs h)
        as Hunion.
      { intros p. rewrite elem_of_union, elem_of_singleton. tauto. }
      split; [|split].
      + intros Hjar.
        rewrite bool_decide_eq_false_2 by (rewrite Hunion; intros [?|?]; by subst).
        simpl. rewrite <- !app_assoc, drop_app_length. by repeat split.
      + case_bool_decide; [destruct (start_answer h c) as [[]|error]|];
          rewrite ?report_start_failure_run; try destruct error; simpl;
          apply Hunion; by left.
      + intros _ Hjar Hstart.
        rewrite bool_decide_eq_true_2 by (apply Hunion; by right).
        rewrite Hstart. simpl. split; [reflexivity|].
        rewrite <- !app_assoc, drop_app_length. simpl. in_trace. }
  split; [|split; [|split]].
  - intros Hjar Hready. by apply Hok.
  - intros Hready. by apply Hok.
  - intros Hdata Hmkdir Hjar Hstart. apply Hok; try done. by right.
  - exact Hfails.
Qed.

(** C9 (as amended).  [deactivate] looks at the module variable and at
    nothing else.  When no client is stored, as before the first launch
    and after a restart that stopped the client and then failed to find a
    runtime, it does nothing: it returns [undefined], reports no error
    and leaves the host, trace included, as it was.  When a client is
    stored it calls [stop] on that client and hands back the promise of
    the call, and it leaves the client stored: this is so for a live
    client, and also for one that an earlier [deactivate] has stopped and
    for one that was constructed by a launch and did not start. *)
Theorem deactivate_stops_stored_client (context : ExtensionContext) (h : Host) :
  (client h = None -> deactivate h = (Return None, h)) /\
  (forall c, client h = Some c ->
     deactivate h = (Return (Some (stop_answer h c)), log (ClientStop c) h) /\
     events_of deactivate (snd (deactivate h)) = [ClientStop c]) /\
  client (snd (deactivate h)) = client h /\
  (forall path,
      server_jar_path context ∈ fs h -> data_directory_ready context h ->
      events_of deactivate (snd (launchLanguageServer context path h))
      = [ClientStop (language_client context path)]) /\
  (forall error,
      (forall c, client h = Some c -> stop_answer h c = Return tt) ->
      result_of (findValidJavaRuntime context) h = Throw error ->
      events_of deactivate (snd (restartLanguageServer context h)) = []).
Proof.
  assert (forall h', events_of deactivate h'
                     = match client h' with Some c => [ClientStop c] | None => [] end)
    as Hdeactivate.
  { intros h'. unfold events_of, deactivate, get_client, client_stop,
      mbind, M_bind, mret, M_ret.
    destruct (client h'); simpl; [|by rewrite drop_all].
    by rewrite drop_app_length. }
  split; [|split; [|split; [|split]]].
  - unfold deactivate, get_client, client_stop, mbind, M_bind, mret, M_ret.
    by intros ->.
  - intros c Hc. rewrite Hdeactivate.
    unfold deactivate, get_client, client_stop, mbind, M_bind, mret, M_ret.
    rewrite Hc. simpl. by rewrite Hc.
  - unfold deactivate, get_client, client_stop, mbind, M_bind, mret, M_ret.
    destruct (client h) as [c|] eqn:Hc; simpl; by rewrite Hc.
  - intros path Hjar Hready. rewrite Hdeactivate.
    destruct (launchLanguageServer_trace context path h) as (evs & _ & _ & Hstored).
    destruct (Hstored Hjar Hready) as [_ ->]. reflexivity.
  - intros error Hstop Hfound. rewrite Hdeactivate.
    pose proof (restartLanguageServer_run context h Hstop) as Hrun. cbv zeta in Hrun.
    destruct (findValidJavaRuntime_raises context h error Hfound) as [e ->].
    rewrite Hfound, report_restart_failure_run in Hrun. rewrite Hrun. cbn [snd].
    destruct (client h) as [c|] eqn:Hc; simpl; by rewrite ?Hc.
Qed.

End SupervisorProperties.

(** * Further properties of the code *)

(** ** The version pattern *)

Section VersionPattern.

Import Js.

Lemma span_digits_split (s : string) :
  s = fst (span_digits s) +:+ snd (span_digits s).
Proof.
  induction s as [|c s IH]; [reflexivity|]. simpl.
  destruct (is_digit c); [|reflexivity].
  destruct (span_digits s) as [ds rest]. simpl in *.
  change (String c s = String c (ds +:+ rest)). by rewrite IH at 1.
Qed.

(** One step of the pattern at the head of a string. *)
Lemma match_version_cons (c : ascii) (s : string) :
  match_version (String c s) =
  if Ascii.eqb c dquote
  then match span_digits s with
       | (String d ds, String r rest) =>
           if Ascii.eqb r "."%char then Some (String d ds) else match_version s
       | _ => match_version s
       end
  else match_version s.
Proof.
  simpl. destruct (Ascii.eqb c dquote); [|reflexivity].
  destruct (span_digits s) as [[|d ds] [|r rest]]; try reflexivity.
  by destruct r as [[] [] [] [] [] [] [] []].
Qed.

(** A token somewhere in the string makes the pattern match. *)
Lemma match_version_finds (before digits after : string) :
  digits <> "" -> all_digits digits = true ->
  match_version (before +:+ String dquote (digits +:+ String "." after)) <> None.
Proof.
  intros Hne Hds. induction before as [|c before IH].
  - change ("" +:+ ?s) with s. rewrite match_version_cons.
    rewrite Ascii.eqb_refl.
    rewrite (JsFacts.span_digits_all digits (String "." after) Hds eq_refl).
    destruct digits; [done|]. by rewrite Ascii.eqb_refl.
  - change (String c before +:+ ?s) with (String c (before +:+ s)).
    rewrite match_version_cons.
    destruct (Ascii.eqb c dquote); [|exact IH].
    destruct (span_digits _) as [[|d ds] [|r rest]]; try exact IH.
    by destruct (Ascii.eqb r "."%char).
Qed.

(** What the pattern returns is the token of the leftmost quote that starts
    one. *)
Lemma match_version_leftmost (s digits : string) :
  match_version s = Some digits ->
  exists before after,
    s = before +:+ String dquote (digits +:+ String "." after)
    /\ match_version before = None.
Proof.
  revert digits. induction s as [|c s IH]; intros digits; [discriminate|].
  rewrite match_version_cons.
  destruct (Ascii.eqb_spec c dquote) as [->|Hc].
  - pose proof (span_digits_split s) as Hsplit.
    pose proof (JsFacts.span_digits_before_quote) as Hquote.
    destruct (span_digits s) as [[|d ds] [|r rest]] eqn:Hspan; simpl in Hsplit.
    1-3: intros Hm; destruct (IH _ Hm) as (before & after & -> & Hnone);
         exists (String dquote before), after; split; [reflexivity|];
         rewrite match_version_cons, Ascii.eqb_refl;
         specialize (Hquote before (digits +:+ String "." after));
         rewrite Hspan in Hquote;
         destruct (span_digits before) as [[|d' ds'] [|r' rest']];
         simpl in Hquote; try exact Hnone; try discriminate Hquote.
    destruct (Ascii.eqb_spec r "."%char) as [->|Hr].
    + intros [= <-]. exists "", rest. split; [|reflexivity].
      change ("" +:+ ?x) with x. by rewrite Hsplit at 1.
    + intros Hm. destruct (IH _ Hm) as (before & after & -> & Hnone).
      exists (String dquote before), after. split; [reflexivity|].
      rewrite match_version_cons, Ascii.eqb_refl.
      specialize (Hquote before (digits +:+ String "." after)).
      rewrite Hspan in Hquote.
      destruct (span_digits before) as [[|d' ds'] [|r' rest']];
        simpl in Hquote; try exact Hnone; try discriminate Hquote.
      injection Hquote as _ _ Hr' _. subst r'.
      by destruct (Ascii.eqb_spec r "."%char).
  - intros Hm. destruct (IH _ Hm) as (before & after & -> & Hnone).
    exists (String c before), after. split; [reflexivity|].
    rewrite match_version_cons. by destruct (Ascii.eqb_spec c dquote).
Qed.

(** X1.  The pattern of [validateJavaPath] is modelled as the regular
    expression reads: it matches exactly the strings that hold a double
    quote followed by one or more digits and a dot, and it captures the
    digits of the leftmost such quote. *)
Theorem match_version_spec (s : string) :
  (match_version s = None <-> ~ has_token s) /\
  (forall digits,
      match_version s = Some digits <->
      exists before after,
        s = before +:+ String dquote (digits +:+ String "." after)
        /\ digits <> "" /\ all_digits digits = true
        /\ ~ has_token before).
Proof.
  assert (forall t, match_version t = None <-> ~ has_token t) as Hnone.
  { intros t. split.
    - intros Hm (before & digits & after & -> & Hne & Hds).
      by apply (match_version_finds before digits after Hne Hds).
    - intros Hno. destruct (match_version t) as [digits|] eqn:Hm; [|reflexivity].
      destruct (match_version_leftmost _ _ Hm) as (before & after & -> & _).
      destruct (JsFacts.match_version_digits _ _ Hm) as [Hne Hds].
      exfalso. apply Hno. by exists before, digits, after. }
  split; [apply Hnone|]. intros digits. split.
  - intros Hm. destruct (match_version_leftmost _ _ Hm) as (before & after & -> & Hb).
    destruct (JsFacts.match_version_digits _ _ Hm) as [Hne Hds].
    exists before, after. repeat split; try done. by apply Hnone.
  - intros (before & after & -> & Hne & Hds & Hb).
    apply JsFacts.match_version_first; try done. by apply Hnone.
Qed.

End VersionPattern.

(** ** Validation *)

Section ValidationExtras.

Context `{NodePath}.

(** X2.  Validation answers valid exactly when all five checks pass: the
    root, [bin/java.exe] and [bin/javac.exe] exist, the version query runs
    to its end, its standard error holds a version token, and the major
    version lies within 17 to 99.  The path it then returns is that of
    [bin/java.exe] under the root. *)
Theorem valid_iff_all_checks_pass (root : string) (h : Host) (path : string) :
  result_of (validateJavaPath root) h = Return (Valid path) <->
  path = java_exe root /\
  root ∈ fs h /\ java_exe root ∈ fs h /\ javac_exe root ∈ fs h /\
  exists stdout stderr digits v,
    exec_answer h (version_command (java_exe root)) = ExecDone stdout stderr /\
    Js.match_version stderr = Some digits /\
    Js.parseInt digits = Js.Finite v /\
    (17 <= v <= 99)%N.
Proof.
  split.
  - rewrite validateJavaPath_result.
    unfold check_order, run_checks, passes, failure_reason, reported_major.
    case_bool_decide as Hroot; [|discriminate].
    case_bool_decide as Hjava; [|discriminate].
    case_bool_decide as Hjavac; [|discriminate].
    destruct (exec_answer h (version_command (java_exe root)))
      as [error|stdout stderr] eqn:Hexec; [discriminate|].
    destruct (Js.match_version stderr) as [digits|] eqn:Hmatch; [|discriminate].
    destruct (Js.parseInt digits) as [|v|] eqn:Hparse; simpl; try discriminate.
    destruct ((MIN_JAVA_VERSION <=? v)%N && (v <=? MAX_JAVA_VERSION)%N) eqn:Hrange;
      [|discriminate].
    intros [= <-]. apply andb_prop in Hrange as [Hmin Hmax].
    apply N.leb_le in Hmin, Hmax.
    split; [reflexivity|]. do 3 (split; [assumption|]).
    exists stdout, stderr, digits, v. by repeat split.
  - intros (-> & Hroot & Hjava & Hjavac & stdout & stderr & digits & v
            & Hexec & Hmatch & Hparse & Hmin & Hmax).
    rewrite (validateJavaPath_queried root h stdout stderr Hroot Hjava Hjavac Hexec).
    rewrite Hmatch.
    destruct (JsFacts.match_version_digits _ _ Hmatch) as [Hne Hds].
    cbv zeta.
    rewrite <- (JsFacts.number_ge_to_double (Js.decimal_value 0 digits)
                  MIN_JAVA_VERSION) by done.
    rewrite <- (JsFacts.number_le_to_double (Js.decimal_value 0 digits)
                  MAX_JAVA_VERSION) by done.
    rewrite <- (JsFacts.parseInt_digits digits Hne Hds), Hparse. simpl.
    apply N.leb_le in Hmin, Hmax.
    change MIN_JAVA_VERSION with 17%N. change MAX_JAVA_VERSION with 99%N.
    by rewrite Hmin, Hmax.
Qed.

(** X3.  Validation only asks questions: it leaves the file system, the
    client and every other part of the host as they were and adds to the
    trace at most three [existsSync] calls followed by at most one
    subprocess; the subprocess is run exactly when the root and both
    executables exist. *)
Theorem validation_is_read_only (root : string) (h : Host) :
  exists calls,
    validateJavaPath root h = (result_of (validateJavaPath root) h, log_all calls h) /\
    forallb is_query calls = true /\
    length calls <= 4 /\
    length (filter (fun e => runs_subprocess e = true) calls) =
      (if bool_decide (root ∈ fs h /\ java_exe root ∈ fs h /\ javac_exe root ∈ fs h)
       then 1 else 0).
Proof.
  exists (snd (run_checks h root check_order)).
  split; [by rewrite validateJavaPath_result, validateJavaPath_run|].
  split; [apply run_checks_queries|].
  unfold check_order, run_checks, passes.
  destruct (decide (root ∈ fs h)) as [Hroot|Hroot];
    [rewrite (bool_decide_eq_true_2 _ Hroot) | rewrite (bool_decide_eq_false_2 _ Hroot)].
  2:{ rewrite bool_decide_eq_false_2 by tauto. simpl. split; [lia|reflexivity]. }
  destruct (decide (java_exe root ∈ fs h)) as [Hjava|Hjava];
    [rewrite (bool_decide_eq_true_2 _ Hjava) | rewrite (bool_decide_eq_false_2 _ Hjava)].
  2:{ rewrite bool_decide_eq_false_2 by tauto. simpl. split; [lia|reflexivity]. }
  destruct (decide (javac_exe root ∈ fs h)) as [Hjavac|Hjavac];
    [rewrite (bool_decide_eq_true_2 _ Hjavac) | rewrite (bool_decide_eq_false_2 _ Hjavac)].
  2:{ rewrite bool_decide_eq_false_2 by tauto. simpl. split; [lia|reflexivity]. }
  rewrite bool_decide_eq_true_2 by tauto.
  destruct (reported_major h root) as [v|]; simpl.
  - destruct (_ && _); simpl; split; (lia || reflexivity).
  - split; [lia|reflexivity].
Qed.

(** X4.  A version printed without a dot is not recognised: when the first
    quoted thing on standard error is a run of digits closed by the quote,
    as in [openjdk version "17"], and no token follows, validation of a
    complete kit answers that the version could not be determined. *)
Theorem dotless_version_not_recognised (root : string) (h : Host)
    (stdout before digits after : string) :
  root ∈ fs h -> java_exe root ∈ fs h -> javac_exe root ∈ fs h ->
  exec_answer h (version_command (java_exe root))
    = ExecDone stdout (before +:+ String Js.dquote (digits +:+ String Js.dquote after)) ->
  Js.match_version before = None ->
  Js.all_digits digits = true ->
  Js.match_version (String Js.dquote after) = None ->
  result_of (validateJavaPath root) h
  = Return (Invalid "Could not determine Java version.").
Proof.
  intros Hroot Hjava Hjavac Hexec Hbefore Hds Hafter.
  rewrite (validateJavaPath_queried root h _ _ Hroot Hjava Hjavac Hexec).
  assert (Js.match_version (digits +:+ String Js.dquote after) = None) as Hdigits.
  { clear -Hds Hafter. induction digits as [|d digits IH]; [exact Hafter|].
    simpl in Hds. apply andb_prop in Hds as [Hd Hds].
    change (String d digits +:+ ?s) with (String d (digits +:+ s)).
    rewrite match_version_cons.
    destruct (Ascii.eqb_spec d Js.dquote) as [->|_]; [discriminate Hd|].
    by apply IH. }
  assert (Js.match_version (String Js.dquote (digits +:+ String Js.dquote after)) = None)
    as Htoken.
  { rewrite match_version_cons, Ascii.eqb_refl.
    rewrite (JsFacts.span_digits_all digits (String Js.dquote after) Hds eq_refl).
    destruct digits as [|d digits]; [exact Hdigits|].
    change (Ascii.eqb Js.dquote ".") with false. exact Hdigits. }
  assert (Js.match_version
            (before +:+ String Js.dquote (digits +:+ String Js.dquote after)) = None) as ->;
    [|reflexivity].
  clear -Hbefore Htoken. induction before as [|c before IH]; [exact Htoken|].
  change (String c before +:+ ?s) with (String c (before +:+ s)).
  rewrite match_version_cons. rewrite match_version_cons in Hbefore.
  destruct (Ascii.eqb c Js.dquote); [|by apply IH].
  rewrite JsFacts.span_digits_before_quote.
  destruct (Js.span_digits before) as [[|d ds] [|r rest]]; simpl in *;
    try (by apply IH).
  destruct (Ascii.eqb r "."); [discriminate Hbefore | by apply IH].
Qed.

(** X5.  A runtime without compiler is rejected before its interpreter is
    asked: whatever version the interpreter would report, the result is the
    reason about the missing [javac.exe] and no subprocess is run. *)
Theorem runtime_without_compiler_rejected (root : string) (h : Host) :
  root ∈ fs h -> java_exe root ∈ fs h -> javac_exe root ∉ fs h ->
  validateJavaPath root h =
  (Return (Invalid "It is not a JDK (missing 'javac.exe')."),
   log_all [ExistsSync root; ExistsSync (java_exe root); ExistsSync (javac_exe root)] h).
Proof.
  intros Hroot Hjava Hjavac. rewrite validateJavaPath_run.
  unfold check_order, run_checks, passes.
  rewrite (bool_decide_eq_true_2 _ Hroot), (bool_decide_eq_true_2 _ Hjava),
    (bool_decide_eq_false_2 _ Hjavac).
  reflexivity.
Qed.

End ValidationExtras.

(** ** Discovery *)

Section DiscoveryExtras.

Context `{NodePath}.

Lemma search_path_run (h h' : Host) :
  same_files h h' ->
  search_path h' = (result_of search_path h, log_all (events_of search_path h) h').
Proof.
  intros Hh'.
  by apply (Queries_run same_files same_files_refl _ h Queries_search_path).
Qed.

(** When no line of [where java] validates, the loop falls out. *)
Lemma probe_search_path_none (h h' : Host) (javaPaths : list string) :
  same_files h h' ->
  Forall (fun p => exists reason,
            result_of (validateJavaPath (dirname (dirname p))) h
            = Return (Invalid reason)) javaPaths ->
  exists calls, probe_search_path javaPaths h' = (Return None, log_all calls h').
Proof.
  intros Hh' Hall. revert h' Hh'.
  induction Hall as [|p javaPaths [reason Hp] _ IH]; intros h' Hh'; simpl.
  - exists []. unfold mret, M_ret. by rewrite log_all_nil.
  - rewrite (bind_return _ _ _ _ _ (eq_trans (validateJavaPath_at _ h h' Hh')
                                       (f_equal (fun r => (r, _)) Hp))).
    destruct (IH (log_all (events_of (validateJavaPath (dirname (dirname p))) h) h'))
      as [calls ->]; [exact Hh'|].
    eexists. by rewrite log_all_app.
Qed.

(** A path that the loop returns was validated for one of the lines. *)
Lemma probe_search_path_sound (h h' : Host) (javaPaths : list string) (path : string) :
  same_files h h' ->
  result_of (probe_search_path javaPaths) h' = Return (Some path) ->
  exists javaPath,
    javaPath ∈ javaPaths /\
    result_of (validateJavaPath (dirname (dirname javaPath))) h = Return (Valid path).
Proof.
  revert h'. induction javaPaths as [|p javaPaths IH]; intros h' Hh'; [discriminate|].
  unfold result_of. simpl. unfold mbind, M_bind.
  rewrite (validateJavaPath_at _ h h' Hh').
  destruct (result_of (validateJavaPath (dirname (dirname p))) h)
    as [[found|reason]|e] eqn:Hp.
  - intros [= <-]. exists p. split; [apply elem_of_cons; by left | exact Hp].
  - intros Hrest.
    destruct (IH (log_all (events_of (validateJavaPath (dirname (dirname p))) h) h')
                Hh' Hrest) as (javaPath & Hin & Hvalid).
    exists javaPath. split; [apply elem_of_cons; by right | exact Hvalid].
  - discriminate.
Qed.

(** X6.  A configured path that validates wins: discovery returns its
    interpreter and makes no other host call than the read of the setting
    and that validation, so the environment variable and the search path
    are not looked at, whatever they hold. *)
Theorem valid_override_wins (context : ExtensionContext) (h : Host)
    (userPath path : string) :
  settings h !! "kope-java.javaHome" = Some userPath -> userPath <> "" ->
  result_of (validateJavaPath userPath) h = Return (Valid path) ->
  result_of (findValidJavaRuntime context) h = Return path /\
  events_of (findValidJavaRuntime context) h =
    GetConfiguration "kope-java" "javaHome"
    :: events_of (validateJavaPath userPath) h /\
  forallb (fun e => negb (consults_environment e) && negb (consults_search_path e))
          (events_of (findValidJavaRuntime context) h) = true.
Proof.
  intros Hset Hne Hvalid.
  destruct (findValidJavaRuntime_configured context h userPath Hset Hne)
    as [Hresult Hevents].
  rewrite Hvalid in Hresult. rewrite Hresult, Hevents.
  repeat split. rewrite validateJavaPath_events. cbn -[run_checks].
  apply run_checks_stay_local.
Qed.

(** X7.  Without a configured path, a [JAVA_HOME] that validates is
    returned and the search path is not searched: [where java] is not
    run. *)
Theorem valid_java_home_is_used (context : ExtensionContext) (h : Host)
    (home path : string) :
  truthy (settings h !! "kope-java.javaHome") = false ->
  env h !! "JAVA_HOME" = Some home -> home <> "" ->
  result_of (validateJavaPath home) h = Return (Valid path) ->
  result_of (findValidJavaRuntime context) h = Return path /\
  events_of (findValidJavaRuntime context) h =
    [GetConfiguration "kope-java" "javaHome"; ProcessEnv "JAVA_HOME"]
    ++ events_of (validateJavaPath home) h /\
  forallb (fun e => negb (consults_search_path e))
          (events_of (findValidJavaRuntime context) h) = true.
Proof.
  intros Hset Henv Hne Hvalid.
  assert (findValidJavaRuntime context h =
          (Return path,
           log_all ([GetConfiguration "kope-java" "javaHome"; ProcessEnv "JAVA_HOME"]
                    ++ events_of (validateJavaPath home) h) h)) as Hrun.
  { rewrite (findValidJavaRuntime_unconfigured context h Hset).
    rewrite search_environment_step. unfold log. rewrite log_all_app.
    change (env (log_all [GetConfiguration "kope-java" "javaHome"] h)) with (env h).
    rewrite Henv. destruct home as [|c home]; [done|].
    unfold mbind, M_bind.
    rewrite (validateJavaPath_at _ h (log_all _ h)) by by repeat split.
    rewrite Hvalid. unfold mret, M_ret. by rewrite log_all_app. }
  destruct (events_of_run _ _ _ _ Hrun) as [-> ->].
  repeat split. rewrite validateJavaPath_events. cbn -[run_checks].
  generalize (run_checks_stay_local h home check_order).
  generalize (snd (run_checks h home check_order)). intros calls.
  induction calls as [|e calls IH]; [done|]. simpl.
  intros [[_ ->]%andb_prop Hrest]%andb_prop. by apply IH.
Qed.

(** X8.  When nothing is configured, [JAVA_HOME] is unset, empty or
    invalid, and [where java] fails or prints no line whose root validates,
    discovery ends in the one consolidated error; a failure of [where java]
    itself is swallowed.  The message names the three remedies. *)
Theorem discovery_exhausted (context : ExtensionContext) (h : Host) :
  truthy (settings h !! "kope-java.javaHome") = false ->
  (forall home, env h !! "JAVA_HOME" = Some home ->
                home = "" \/
                exists reason,
                  result_of (validateJavaPath home) h = Return (Invalid reason)) ->
  (forall stdout stderr,
      exec_answer h "where java" = ExecDone stdout stderr ->
      Forall (fun p => exists reason,
                result_of (validateJavaPath (dirname (dirname p))) h
                = Return (Invalid reason))
             (Js.split Js.CRLF (Js.trim stdout))) ->
  result_of (findValidJavaRuntime context) h = Throw (new_Error no_runtime_message) /\
  Js.includes "Install a compatible JDK" no_runtime_message = true /\
  Js.includes "Set the JAVA_HOME environment variable" no_runtime_message = true /\
  Js.includes "Configure the 'kope-java.javaHome' setting" no_runtime_message = true.
Proof.
  intros Hset Henv Hwhere. split; [|by vm_compute].
  unfold result_of. rewrite (findValidJavaRuntime_unconfigured context h Hset).
  assert (forall h', same_files h h' ->
                     fst (search_path h') = Throw (new_Error no_runtime_message)) as Hpath.
  { intros h' Hh'. pose proof Hh' as (_ & _ & Hexec).
    unfold search_path, try_catch, execPromise, cp_exec, mbind, M_bind. simpl.
    rewrite <- Hexec.
    destruct (exec_answer h "where java") as [error|stdout stderr] eqn:Hanswer;
      simpl; [reflexivity|].
    destruct (probe_search_path_none h (log (Exec "where java") h') _
                Hh' (Hwhere _ _ eq_refl)) as [calls ->].
    reflexivity. }
  rewrite search_environment_step.
  change (env (log _ h)) with (env h).
  destruct (env h !! "JAVA_HOME") as [[|c home]|] eqn:Hhome;
    try (apply Hpath; by repeat split).
  destruct (Henv _ eq_refl) as [|[reason Hreason]]; [done|].
  unfold mbind, M_bind.
  rewrite (validateJavaPath_at _ h (log_all _ _)) by by repeat split.
  rewrite Hreason. apply Hpath. by repeat split.
Qed.

(** X9.  Discovery only returns what it validated: a returned path is the
    valid result of [validateJavaPath] on the configured path, on
    [JAVA_HOME], or on the root two levels above a line that [where java]
    printed. *)
Theorem discovery_returns_validated (context : ExtensionContext) (h : Host)
    (path : string) :
  result_of (findValidJavaRuntime context) h = Return path ->
  exists root,
    result_of (validateJavaPath root) h = Return (Valid path) /\
    (settings h !! "kope-java.javaHome" = Some root
     \/ env h !! "JAVA_HOME" = Some root
     \/ exists stdout stderr javaPath,
          exec_answer h "where java" = ExecDone stdout stderr /\
          javaPath ∈ Js.split Js.CRLF (Js.trim stdout) /\
          root = dirname (dirname javaPath)).
Proof.
  assert (forall h', same_files h h' ->
            fst (search_path h') = Return path ->
            exists root,
              result_of (validateJavaPath root) h = Return (Valid path) /\
              exists stdout stderr javaPath,
                exec_answer h "where java" = ExecDone stdout stderr /\
                javaPath ∈ Js.split Js.CRLF (Js.trim stdout) /\
                root = dirname (dirname javaPath)) as Hpath.
  { intros h' Hh'. pose proof Hh' as (_ & _ & Hexec).
    unfold search_path, try_catch, execPromise, cp_exec, mbind, M_bind. simpl.
    rewrite <- Hexec.
    destruct (exec_answer h "where java") as [error|stdout stderr] eqn:Hanswer;
      simpl; [discriminate|].
    destruct (probe_search_path (Js.split Js.CRLF (Js.trim stdout))
                (log (Exec "where java") h')) as [[[found|]|e] h''] eqn:Hprobe;
      simpl; try discriminate.
    intros [= ->].
    destruct (probe_search_path_sound h (log (Exec "where java") h')
                (Js.split Js.CRLF (Js.trim stdout)) path Hh')
      as (javaPath & Hin & Hvalid).
    { unfold result_of. by rewrite Hprobe. }
    exists (dirname (dirname javaPath)). split; [exact Hvalid|].
    by exists stdout, stderr, javaPath. }
  unfold result_of.
  destruct (settings h !! "kope-java.javaHome") as [userPath|] eqn:Hset.
  - destruct (decide (userPath = "")) as [->|Hne].
    + rewrite findValidJavaRuntime_unconfigured by by rewrite Hset.
      rewrite search_environment_step. change (env (log _ h)) with (env h).
      destruct (env h !! "JAVA_HOME") as [[|c home]|] eqn:Hhome.
      1,3: intros Hfound; apply Hpath in Hfound as (root & Hvalid & Hwhere);
             [exists root; by auto | by repeat split].
      unfold mbind, M_bind.
      rewrite (validateJavaPath_at _ h (log_all _ _)) by by repeat split.
      destruct (result_of (validateJavaPath (String c home)) h)
        as [[found|reason]|e] eqn:Hhomev; cbv iota beta; try discriminate.
      * intros [= <-]. exists (String c home). by auto.
      * intros Hfound. apply Hpath in Hfound as (root & Hvalid & Hwhere);
          [exists root; by auto | by repeat split].
    + destruct (findValidJavaRuntime_configured context h userPath Hset Hne)
        as [Hresult _].
      unfold result_of in Hresult. rewrite Hresult.
      destruct (validateJavaPath userPath h).1
        as [[found|reason]|e] eqn:Huser; cbv iota beta; try discriminate.
      intros [= <-]. exists userPath. by auto.
  - rewrite findValidJavaRuntime_unconfigured by by rewrite Hset.
    rewrite search_environment_step. change (env (log _ h)) with (env h).
    destruct (env h !! "JAVA_HOME") as [[|c home]|] eqn:Hhome.
    1,3: intros Hfound; apply Hpath in Hfound as (root & Hvalid & Hwhere);
           [exists root; by auto | by repeat split].
    unfold mbind, M_bind.
    rewrite (validateJavaPath_at _ h (log_all _ _)) by by repeat split.
    destruct (result_of (validateJavaPath (String c home)) h)
      as [[found|reason]|e] eqn:Hhomev; cbv iota beta; try discriminate.
    + intros [= <-]. exists (String c home). by auto.
    + intros Hfound. apply Hpath in Hfound as (root & Hvalid & Hwhere);
        [exists root; by auto | by repeat split].
Qed.

(** X10.  Discovery only asks questions: it constructs, starts and stops
    nothing and writes nothing; the host after it is the host before it
    with the questions added to the trace, and the first of them is always
    the read of the setting. *)
Theorem discovery_is_read_only (context : ExtensionContext) (h : Host) :
  exists calls,
    findValidJavaRuntime context h =
    (result_of (findValidJavaRuntime context) h,
     log_all (GetConfiguration "kope-java" "javaHome" :: calls) h) /\
    forallb is_query calls = true.
Proof.
  pose proof (findValidJavaRuntime_at context h h (same_inputs_refl h)) as Hrun.
  pose proof (findValidJavaRuntime_queries context h) as Hq.
  assert (exists calls, events_of (findValidJavaRuntime context) h
                        = GetConfiguration "kope-java" "javaHome" :: calls)
    as [calls Hcalls].
  { destruct (settings h !! "kope-java.javaHome") as [userPath|] eqn:Hset.
    - destruct (decide (userPath = "")) as [->|Hne].
      + destruct (Queries_search_environment
                    (log (GetConfiguration "kope-java" "javaHome") h))
          as (r & calls & _ & Hsearch).
        exists calls. eapply events_of_run.
        rewrite findValidJavaRuntime_unconfigured by by rewrite Hset.
        rewrite (Hsearch _ (same_files_refl _)). by rewrite log_all_log.
      + destruct (findValidJavaRuntime_configured context h userPath Hset Hne)
          as [_ Hevents]. by eexists.
    - destruct (Queries_search_environment
                  (log (GetConfiguration "kope-java" "javaHome") h))
        as (r & calls & _ & Hsearch).
      exists calls. eapply events_of_run.
      rewrite findValidJavaRuntime_unconfigured by by rewrite Hset.
      rewrite (Hsearch _ (same_files_refl _)). by rewrite log_all_log. }
  exists calls. rewrite Hcalls in Hrun, Hq. split; [exact Hrun|].
  simpl in Hq. exact Hq.
Qed.

(** X11.  Discovery fails in two ways only: with the error about the
    configured path when that path is set, not empty and invalid, and with
    the consolidated error when no path is configured. *)
Theorem discovery_errors (context : ExtensionContext) (h : Host) (e : Thrown) :
  result_of (findValidJavaRuntime context) h = Throw e ->
  (exists userPath reason,
      settings h !! "kope-java.javaHome" = Some userPath /\ userPath <> "" /\
      result_of (validateJavaPath userPath) h = Return (Invalid reason) /\
      e = new_Error (invalid_setting_message userPath reason))
  \/ (truthy (settings h !! "kope-java.javaHome") = false /\
      e = new_Error no_runtime_message).
Proof.
  assert (truthy (settings h !! "kope-java.javaHome") = false ->
          result_of (findValidJavaRuntime context) h = Throw e ->
          e = new_Error no_runtime_message) as Hsearch.
  { intros Hset. unfold result_of.
    rewrite (findValidJavaRuntime_unconfigured context h Hset).
    destruct (search_environment_outcome
                (log (GetConfiguration "kope-java" "javaHome") h))
      as [calls [[path ->]| ->]]; [discriminate|]. by intros [= <-]. }
  destruct (settings h !! "kope-java.javaHome") as [userPath|] eqn:Hset.
  - destruct (decide (userPath = "")) as [->|Hne].
    + intros Hthrow. right. split; [reflexivity|]. by apply Hsearch.
    + destruct (findValidJavaRuntime_configured context h userPath Hset Hne)
        as [Hresult _].
      rewrite Hresult. rewrite validateJavaPath_result.
      destruct (fst (run_checks h userPath check_order)) as [path|reason] eqn:Hchecks;
        [discriminate|].
      intros [= <-]. left. exists userPath, reason.
      repeat split; try done. by rewrite validateJavaPath_result, Hchecks.
  - intros Hthrow. right. split; [reflexivity|]. by apply Hsearch.
Qed.

End DiscoveryExtras.

(** ** Launch, restart and stop *)

Section SupervisorExtras.

Context `{NodePath}.

(** The calls of a launch, in order. *)
Lemma launchLanguageServer_events (context : ExtensionContext)
    (javaCmdPath : string) (h : Host) :
  let data := server_data_path context in
  let jar := server_jar_path context in
  let c := language_client context javaCmdPath in
  let started :=
    [NewLanguageClient c; ClientStart c]
    ++ match start_answer h c with
       | Return _ => [SetTimeout 1500]
       | Throw (Raised e) => [ShowErrorMessage (start_failure_message e)]
       | Throw _ => []
       end in
  let looked (files : gset string) :=
    ExistsSync jar :: (if bool_decide (jar ∈ files) then started else []) in
  events_of (launchLanguageServer context javaCmdPath) h =
  ExistsSync data
  :: (if bool_decide (data ∈ fs h)
      then looked (fs h)
      else MkdirSync data
           :: match mkdir_answer h data with
              | None => looked ({[data]} ∪ fs h)
              | Some _ => []
              end).
Proof.
  unfold events_of. rewrite launchLanguageServer_run. cbv zeta.
  destruct (bool_decide (server_data_path context ∈ fs h));
    [|destruct (mkdir_answer h (server_data_path context)) as [failure|]];
    cbn [fs log log_all with_trace with_fs];
    try destruct (bool_decide (server_jar_path context ∈ _));
    try (destruct (start_answer h _) as [[]|error];
         rewrite ?report_start_failure_run; try destruct error);
    simpl; by rewrite <- !app_assoc, drop_app_length.
Qed.

(** A launch that returns has stored the client it started. *)
Lemma launchLanguageServer_returns (context : ExtensionContext)
    (javaCmdPath : string) (h h' : Host) :
  launchLanguageServer context javaCmdPath h = (Return tt, h') ->
  client h' = Some (language_client context javaCmdPath).
Proof.
  rewrite launchLanguageServer_run. cbv zeta.
  destruct (bool_decide (server_data_path context ∈ fs h));
    [|destruct (mkdir_answer h (server_data_path context)) as [failure|]];
    cbn [fs log log_all with_trace with_fs];
    try destruct (bool_decide (server_jar_path context ∈ _));
    try (destruct (start_answer h _) as [[]|error];
         rewrite ?report_start_failure_run; try destruct error);
    try discriminate; by intros [= <-].
Qed.

(** X12.  When the data directory is there or can be created, the
    packaged server is on disk and [client.start()] is rejected, the
    launch makes these calls and no other: the look for the data
    directory and its creation if it was absent, the look for the
    packaged server, the construction of the client, its start, and one
    error message.  So no timer is set.  The launch throws a new error
    with the text of the message it showed, and the module variable keeps
    the client that did not start.  A failure whose message holds
    [ENOENT] is reported as a missing executable, also when it holds
    [spawn] as well.  When [client.start()] is rejected with [null] or
    [undefined], the [catch] fails where it reads the message: nothing is
    shown and the launch throws that [TypeError]. *)
Theorem failed_start_is_reported (context : ExtensionContext)
    (javaCmdPath : string) (h : Host) :
  data_directory_ready context h ->
  server_jar_path context ∈ fs h ->
  let c := language_client context javaCmdPath in
  let calls :=
    ExistsSync (server_data_path context)
    :: (if bool_decide (server_data_path context ∈ fs h)
        then [] else [MkdirSync (server_data_path context)])
    ++ [ExistsSync (server_jar_path context); NewLanguageClient c; ClientStart c] in
  (forall e : JsError,
      start_answer h c = Throw e ->
      result_of (launchLanguageServer context javaCmdPath) h
        = Throw (new_Error (start_failure_message e)) /\
      events_of (launchLanguageServer context javaCmdPath) h
        = calls ++ [ShowErrorMessage (start_failure_message e)]) /\
  (start_answer h c = Throw Null ->
   result_of (launchLanguageServer context javaCmdPath) h
     = Throw (TypeError_no_properties "null" "message") /\
   events_of (launchLanguageServer context javaCmdPath) h = calls) /\
  (start_answer h c = Throw Undefined ->
   result_of (launchLanguageServer context javaCmdPath) h
     = Throw (TypeError_no_properties "undefined" "message") /\
   events_of (launchLanguageServer context javaCmdPath) h = calls) /\
  (forall error,
      start_answer h c = Throw error ->
      client (snd (launchLanguageServer context javaCmdPath h)) = Some c /\
      forall ms, SetTimeout ms ∉ events_of (launchLanguageServer context javaCmdPath) h) /\
  (forall (e : JsError) text,
      message e = Some text -> Js.includes "ENOENT" text = true ->
      start_failure_message e =
      "Failed to start Java Language Server. Java executable not found. Please verify the configured path.").
Proof.
  intros Hready Hjar c calls. subst calls.
  assert (forall error,
            start_answer h c = Throw error ->
            launchLanguageServer context javaCmdPath h =
            (Throw match error with
                   | Raised e => new_Error (start_failure_message e)
                   | Null => TypeError_no_properties "null" "message"
                   | Undefined => TypeError_no_properties "undefined" "message"
                   end,
             with_client (Some c)
               (log_all
                  (ExistsSync (server_data_path context)
                   :: (if bool_decide (server_data_path context ∈ fs h)
                       then [] else [MkdirSync (server_data_path context)])
                   ++ [ExistsSync (server_jar_path context);
                       NewLanguageClient c; ClientStart c]
                   ++ match error with
                      | Raised e => [ShowErrorMessage (start_failure_message e)]
                      | _ => []
                      end)
                  (if bool_decide (server_data_path context ∈ fs h)
                   then h
                   else with_fs ({[server_data_path context]} ∪ fs h) h)))) as Hrun.
  { intros error Hstart.
    rewrite (launchLanguageServer_ready context javaCmdPath h Hready). cbv zeta.
    fold c. rewrite Hstart, report_start_failure_run.
    destruct (bool_decide (server_data_path context ∈ fs h));
      cbn [fs log log_all with_trace with_fs];
      (rewrite bool_decide_eq_true_2;
       [|try exact Hjar; apply elem_of_union; by right]);
      destruct error; unfold log;
      repeat (rewrite with_client_log_all || rewrite with_fs_log_all
              || rewrite log_all_app);
      reflexivity. }
  assert (forall error evs h',
            launchLanguageServer context javaCmdPath h
            = (Throw error, with_client (Some c) (log_all evs h')) ->
            trace h' = trace h ->
            result_of (launchLanguageServer context javaCmdPath) h = Throw error /\
            events_of (launchLanguageServer context javaCmdPath) h = evs /\
            client (snd (launchLanguageServer context javaCmdPath h)) = Some c)
    as Hobserve.
  { intros error evs h' Heq Htrace. unfold result_of, events_of. rewrite Heq.
    simpl. rewrite Htrace. by rewrite drop_app_length. }
  assert (forall error,
            start_answer h c = Throw error ->
            trace (if bool_decide (server_data_path context ∈ fs h)
                   then h
                   else with_fs ({[server_data_path context]} ∪ fs h) h) = trace h)
    as Hsame by (intros; by destruct (bool_decide _)).
  split; [|split; [|split; [|split]]].
  - intros e Hstart.
    destruct (Hobserve _ _ _ (Hrun _ Hstart) (Hsame _ Hstart)) as (-> & -> & _).
    split; [reflexivity|]. simpl. by rewrite <- !app_assoc.
  - intros Hstart.
    destruct (Hobserve _ _ _ (Hrun _ Hstart) (Hsame _ Hstart)) as (-> & -> & _).
    split; [reflexivity|]. by rewrite app_nil_r.
  - intros Hstart.
    destruct (Hobserve _ _ _ (Hrun _ Hstart) (Hsame _ Hstart)) as (-> & -> & _).
    split; [reflexivity|]. by rewrite app_nil_r.
  - intros error Hstart.
    destruct (Hobserve _ _ _ (Hrun _ Hstart) (Hsame _ Hstart)) as (_ & -> & ->).
    split; [reflexivity|]. intros ms Hin.
    destruct (bool_decide (server_data_path context ∈ fs h)); destruct error;
      simpl in Hin; trace_member Hin.
  - intros e text Htext Henoent. unfold start_failure_message.
    by rewrite Htext, Henoent.
Qed.

(** X13.  A launch never stops a client and constructs at most one: when
    the packaged server is on disk and the data directory is there or can
    be created, it overwrites the module variable with the new client,
    whatever client was stored there before; and whenever it returns, the
    variable holds the client it started. *)
Theorem launch_never_stops (context : ExtensionContext)
    (javaCmdPath : string) (h : Host) :
  forallb (fun e => negb (stops_client e))
          (events_of (launchLanguageServer context javaCmdPath) h) = true /\
  length (filter (fun e => constructs_client e = true)
            (events_of (launchLanguageServer context javaCmdPath) h)) <= 1 /\
  (server_jar_path context ∈ fs h -> data_directory_ready context h ->
   client (snd (launchLanguageServer context javaCmdPath h))
   = Some (language_client context javaCmdPath)) /\
  (result_of (launchLanguageServer context javaCmdPath) h = Return tt ->
   client (snd (launchLanguageServer context javaCmdPath h))
   = Some (language_client context javaCmdPath)).
Proof.
  rewrite launchLanguageServer_events. cbv zeta.
  split; [|split; [|split]].
  - destruct (bool_decide (server_data_path context ∈ fs h));
      [|destruct (mkdir_answer h (server_data_path context)) as [failure|]];
      try destruct (bool_decide (server_jar_path context ∈ _));
      try (destruct (start_answer h _) as [[]|error]; try destruct error);
      reflexivity.
  - destruct (bool_decide (server_data_path context ∈ fs h));
      [|destruct (mkdir_answer h (server_data_path context)) as [failure|]];
      try destruct (bool_decide (server_jar_path context ∈ _));
      try (destruct (start_answer h _) as [[]|error]; try destruct error);
      simpl; lia.
  - intros Hjar Hready.
    by destruct (launchLanguageServer_trace context javaCmdPath h)
      as (evs & _ & _ & Hclient); apply Hclient.
  - unfold result_of. intros Hreturn.
    apply (launchLanguageServer_returns context javaCmdPath h).
    destruct (launchLanguageServer context javaCmdPath h) as [r h'].
    simpl in *. by rewrite Hreturn.
Qed.

(** A restart returns unless the stop of the live client is rejected with
    a value without properties. *)
Lemma restartLanguageServer_returns (context : ExtensionContext) (h : Host) :
  (forall c, client h = Some c ->
             stop_answer h c <> Throw Null /\ stop_answer h c <> Throw Undefined) ->
  exists shown,
    restartLanguageServer context h = (Return tt, shown) /\
    ((forall c, client h = Some c -> stop_answer h c = Return tt)
     \/ exists c e, client h = Some c /\ stop_answer h c = Throw (Raised e)).
Proof.
  intros Hvalue.
  assert ((exists c e, client h = Some c /\ stop_answer h c = Throw (Raised e))
          \/ (forall c, client h = Some c -> stop_answer h c = Return tt)) as [Hfail|Hstop].
  { destruct (client h) as [c|] eqn:Hc; [|right; by intros c [=]].
    destruct (Hvalue c eq_refl) as [Hnull Hundefined].
    destruct (stop_answer h c) as [[]|[| |e]] eqn:Hs; try done.
    - right. by intros c' [= <-].
    - left. by exists c, e. }
  - destruct Hfail as (c & e & Hc & Hs).
    rewrite (restartLanguageServer_stop_fails context h c e Hc Hs),
      report_restart_failure_run.
    eexists. split; [reflexivity|]. right. by exists c, e.
  - rewrite (restartLanguageServer_run context h Hstop). cbv zeta.
    set (h2 := log_all (events_of (findValidJavaRuntime context) h) _).
    destruct (result_of (findValidJavaRuntime context) h) as [path|error] eqn:Hfound.
    + destruct (launchLanguageServer context path h2) as [[[]|error] h3] eqn:Hstarted.
      * eexists. split; [reflexivity|]. by left.
      * destruct (launchLanguageServer_raises context path h2 error) as [e ->];
          [by rewrite Hstarted|].
        rewrite report_restart_failure_run. eexists. split; [reflexivity|]. by left.
    + destruct (findValidJavaRuntime_raises context h error Hfound) as [e ->].
      rewrite report_restart_failure_run. eexists. split; [reflexivity|]. by left.
Qed.


(** X15.  A restart whose discovery fails leaves the server stopped: the
    client that was live has been stopped, the module variable is empty,
    nothing is launched, and the error of discovery, with the reason of an
    invalid configured path, is shown in the failure message. *)
Theorem restart_with_failed_discovery (context : ExtensionContext) (h : Host)
    (e : JsError) :
  (forall c, client h = Some c -> stop_answer h c = Return tt) ->
  result_of (findValidJavaRuntime context) h = Throw e ->
  client (snd (restartLanguageServer context h)) = None /\
  events_of (restartLanguageServer context) h =
    match client h with Some c => [ClientStop c] | None => [] end
    ++ events_of (findValidJavaRuntime context) h
    ++ [ShowErrorMessage ("❌ Failed to restart Java Language Server: "
                          +:+ message_text e)].
Proof.
  intros Hstop Hfound.
  pose proof (restartLanguageServer_run context h Hstop) as Hrun. cbv zeta in Hrun.
  rewrite Hfound, report_restart_failure_run in Hrun.
  unfold events_of. rewrite Hrun. cbn [snd].
  destruct (client h) as [c|] eqn:Hc; simpl.
  - split; [reflexivity|]. by rewrite <- !app_assoc, drop_app_length.
  - split; [exact Hc|]. by rewrite <- !app_assoc, drop_app_length.
Qed.

(** X16.  When the stop of the live client is rejected, the restart is
    given up: discovery is not run and nothing is launched, and the
    module variable still holds the client that did not stop.  When the
    stop was rejected with an error, or with another value that has
    properties, the restart shows the failure with its message and
    returns.  When it was rejected with [null] or [undefined], the
    [catch] fails where it reads the message: nothing is shown and the
    restart throws that [TypeError]. *)
Theorem restart_gives_up_when_stop_fails (context : ExtensionContext) (h : Host)
    (c : Client) :
  client h = Some c ->
  (forall e : JsError,
      stop_answer h c = Throw e ->
      result_of (restartLanguageServer context) h = Return tt /\
      events_of (restartLanguageServer context) h =
        [ClientStop c;
         ShowErrorMessage ("❌ Failed to restart Java Language Server: "
                           +:+ message_text e)] /\
      client (snd (restartLanguageServer context h)) = Some c) /\
  (stop_answer h c = Throw Null ->
   result_of (restartLanguageServer context) h
     = Throw (TypeError_no_properties "null" "message") /\
   events_of (restartLanguageServer context) h = [ClientStop c] /\
   client (snd (restartLanguageServer context h)) = Some c) /\
  (stop_answer h c = Throw Undefined ->
   result_of (restartLanguageServer context) h
     = Throw (TypeError_no_properties "undefined" "message") /\
   events_of (restartLanguageServer context) h = [ClientStop c] /\
   client (snd (restartLanguageServer context h)) = Some c).
Proof.
  intros Hc.
  split; [|split]; [intros e Hs|intros Hs|intros Hs];
    unfold result_of, events_of;
    rewrite (restartLanguageServer_stop_fails context h c _ Hc Hs),
      report_restart_failure_run;
    (split; [reflexivity|]); (split; [|exact Hc]);
    simpl; by rewrite <- ?app_assoc, drop_app_length.
Qed.

(** X17.  [deactivate] does not clear the module variable: after it the
    client is still stored, and a second [deactivate] calls [stop] on the
    same client again. *)
Theorem deactivate_keeps_the_client (h : Host) (c : Client) :
  client h = Some c ->
  client (snd (deactivate h)) = Some c /\
  (deactivate ;; deactivate) h =
    (Return (Some (stop_answer h c)), log_all [ClientStop c; ClientStop c] h).
Proof.
  intros Hc.
  unfold deactivate, get_client, client_stop, mbind, M_bind, mret, M_ret.
  rewrite Hc. simpl. rewrite Hc. split; [reflexivity|].
  unfold log. by rewrite log_all_app.
Qed.

End SupervisorExtras.

(** ** Handlers, listener and activation *)

(** X18.  The handlers of the client never ask for more: an error always
    ends in [Shutdown] and a closed connection in [DoNotRestart].  An
    error shows its message, or [Unknown error] when it has none, only
    when its [count] is a number and at most 3; a closed connection always
    shows one message.  Neither touches anything else on the host. *)
Theorem handlers_give_up (error : JsError) (count : option N) (h : Host) :
  (exists shown,
      errorHandler_error error count h = (Return Shutdown, log_all shown h) /\
      (forall n, count = Some n -> (n <= 3)%N ->
         shown = [ShowErrorMessage
                    ("KopeCode Java Language Server error: "
                     +:+ match message error with
                         | Some "" | None => "Unknown error"
                         | Some text => text
                         end)]) /\
      (count = None \/ (exists n, count = Some n /\ (3 < n)%N) -> shown = [])) /\
  errorHandler_closed h =
    (Return DoNotRestart,
     log_all [ShowErrorMessage
                "Java Language Server connection closed unexpectedly. Please check your Java setup."]
       h).
Proof.
  split; [|reflexivity].
  unfold errorHandler_error, showErrorMessage, emit, mbind, M_bind, mret, M_ret.
  destruct count as [n|].
  - destruct (N.leb_spec n 3) as [Hn|Hn].
    + eexists. split; [reflexivity|]. split.
      * intros n' [= <-] _. unfold message_or.
        by destruct (message error) as [[|c text]|].
      * intros [[=]|(n' & [= <-] & Hlt)]. lia.
    + exists []. split; [by rewrite log_all_nil|]. split; [|done].
      intros n' [= <-] Hle. lia.
  - exists []. split; [by rewrite log_all_nil|]. by split.
Qed.

Section ActivationExtras.

Context `{NodePath}.

(** X19.  A change of the configuration that does not affect
    [kope-java.javaHome] makes no call at all and leaves the host as it
    is; a change that affects it is a restart.  The listener returns
    unless the restart throws, and that it only does when there is a
    client whose [stop] is rejected with [null] or [undefined]. *)
Theorem configuration_change (context : ExtensionContext)
    (event : ConfigurationChangeEvent) (h : Host) :
  (affectsConfiguration event "kope-java.javaHome" = false ->
   configuration_listener context event h = (Return tt, h)) /\
  (affectsConfiguration event "kope-java.javaHome" = true ->
   configuration_listener context event h = restartLanguageServer context h) /\
  ((forall c, client h = Some c ->
              stop_answer h c <> Throw Null /\ stop_answer h c <> Throw Undefined) ->
   result_of (configuration_listener context event) h = Return tt) /\
  (forall error,
      result_of (configuration_listener context event) h = Throw error ->
      affectsConfiguration event "kope-java.javaHome" = true /\
      exists c, client h = Some c /\
                (stop_answer h c = Throw Null \/ stop_answer h c = Throw Undefined)).
Proof.
  assert ((forall c, client h = Some c ->
                     stop_answer h c <> Throw Null /\ stop_answer h c <> Throw Undefined) ->
          result_of (configuration_listener context event) h = Return tt) as Hreturns.
  { intros Hvalue. unfold configuration_listener, result_of.
    destruct (affectsConfiguration event "kope-java.javaHome"); [|reflexivity].
    by destruct (restartLanguageServer_returns context h Hvalue) as (shown & -> & _). }
  split; [|split; [|split]].
  - unfold configuration_listener. by intros ->.
  - unfold configuration_listener. by intros ->.
  - exact Hreturns.
  - intros error Hthrows. split.
    + unfold configuration_listener, result_of in Hthrows.
      by destruct (affectsConfiguration event "kope-java.javaHome").
    + destruct (client h) as [c|] eqn:Hc.
      * exists c. split; [reflexivity|].
        destruct (stop_answer h c) as [[]|[| |e]] eqn:Hs; try by auto.
        -- rewrite Hreturns in Hthrows; [discriminate|].
           intros c' [= <-]. rewrite Hs. by split.
        -- rewrite Hreturns in Hthrows; [discriminate|].
           intros c' [= <-]. rewrite Hs. by split.
      * rewrite Hreturns in Hthrows; [discriminate | by intros c [=]].
Qed.

(** What [activate] tries: discovery, then the launch with its result. *)
Lemma activate_run (context : ExtensionContext) (w : Window) :
  let attempt := findValidJavaRuntime context ≫= launchLanguageServer context in
  let h' := snd (attempt (host w)) in
  let at_end := pair (length (trace h')) in
  activate context w =
  (Return tt,
   {| host := h';
      dialog_answer := dialog_answer w;
      window_calls :=
        window_calls w
        ++ map at_end
             (match result_of attempt (host w) with
              | Return _ => []
              | Throw _ =>
                  ShowErrorDialog activation_failure_text
                    ["Download JDK"; "Open Settings"; "Dismiss"]
                  :: match dialog_answer w with
                     | Some choice =>
                         if String.eqb choice "Download JDK"
                         then [OpenExternal
                                 "https://adoptium.net/en-GB/temurin/releases/"]
                         else if String.eqb choice "Open Settings"
                         then [ExecuteCommand "workbench.action.openSettings"
                                 "kope-java.javaHome"]
                         else []
                     | None => []
                     end
              end
              ++ [OnDidChangeConfiguration; SubscriptionsPush]) |}).
Proof.
  cbv zeta. unfold result_of.
  assert ((findValidJavaRuntime context ≫= launchLanguageServer context) (host w) =
          match findValidJavaRuntime context (host w) with
          | (Return path, h1) => launchLanguageServer context path h1
          | (Throw e, h1) => (Throw e, h1)
          end) as -> by reflexivity.
  unfold activate, try_catch_W, on_host.
  unfold mbind at 1, W_bind at 1. unfold mbind at 1, W_bind at 1.
  unfold mbind at 1, W_bind at 1.
  destruct (findValidJavaRuntime context (host w)) as [[path|error] h1] eqn:Hfound;
    cbn [host].
  - destruct (launchLanguageServer context path h1) as [[[]|error] h2] eqn:Hstarted;
      cbn [host fst snd].
    + unfold window_call, mbind, W_bind. simpl. by rewrite <- ?app_assoc.
    + destruct (launchLanguageServer_raises context path h1 error) as [e ->];
        [by rewrite Hstarted|].
      unfold showErrorDialog, window_call, mbind, W_bind. cbn.
      destruct (dialog_answer w) as [choice|]; [|simpl; by rewrite <- ?app_assoc].
      destruct (String.eqb choice "Download JDK");
        [simpl; by rewrite <- ?app_assoc|].
      destruct (String.eqb choice "Open Settings"); simpl; by rewrite <- ?app_assoc.
  - destruct (findValidJavaRuntime_raises context (host w) error) as [e ->];
      [unfold result_of; by rewrite Hfound|].
    unfold showErrorDialog, window_call, mbind, W_bind. cbn.
    destruct (dialog_answer w) as [choice|]; [|simpl; by rewrite <- ?app_assoc].
    destruct (String.eqb choice "Download JDK");
      [simpl; by rewrite <- ?app_assoc|].
    destruct (String.eqb choice "Open Settings"); simpl; by rewrite <- ?app_assoc.
Qed.

Lemma launchLanguageServer_succeeds (context : ExtensionContext)
    (javaCmdPath : string) (h : Host) :
  server_jar_path context ∈ fs h ->
  data_directory_ready context h ->
  start_answer h (language_client context javaCmdPath) = Return tt ->
  exists h', launchLanguageServer context javaCmdPath h = (Return tt, h') /\
             client h' = Some (language_client context javaCmdPath).
Proof.
  intros Hjar Hready Hstart.
  rewrite (launchLanguageServer_ready context javaCmdPath h Hready).
  cbv zeta. rewrite Hstart.
  destruct (bool_decide (server_data_path context ∈ fs h));
    cbn [fs log log_all with_trace with_fs];
    (rewrite bool_decide_eq_true_2;
     [by eexists | try exact Hjar; apply elem_of_union; by right]).
Qed.

(** X20.  Activation never throws, whatever discovery and launch do, and it
    always ends by registering the configuration listener and pushing it
    on the subscriptions, once each, also after a failure; what it does on
    the host is discovery followed, when discovery returns, by the launch
    with the path it returned. *)
Theorem activation_never_throws (context : ExtensionContext) (w : Window) :
  fst (activate context w) = Return tt /\
  host (snd (activate context w))
    = snd ((findValidJavaRuntime context ≫= launchLanguageServer context) (host w)) /\
  exists earlier,
    window_calls (snd (activate context w)) =
      window_calls w ++ earlier
      ++ [(length (trace (host (snd (activate context w)))), OnDidChangeConfiguration);
          (length (trace (host (snd (activate context w)))), SubscriptionsPush)] /\
    forall n, ((n, OnDidChangeConfiguration) ∉ earlier)
              /\ ((n, SubscriptionsPush) ∉ earlier).
Proof.
  rewrite activate_run. cbv zeta. cbn [fst snd host window_calls].
  split; [reflexivity|]. split; [reflexivity|].
  set (h' := snd _).
  destruct (result_of _ (host w)) as [[]|e].
  - exists []. split; [reflexivity|]. intros n. split; apply not_elem_of_nil.
  - eexists. split; [rewrite map_app; reflexivity|].
    intros n. destruct (dialog_answer w) as [choice|].
    + destruct (String.eqb choice "Download JDK");
        [|destruct (String.eqb choice "Open Settings")];
        split; intros Hin; simpl in Hin; trace_member Hin.
    + split; intros Hin; simpl in Hin; trace_member Hin.
Qed.

(** X21.  When discovery or the launch fails, activation shows one dialog
    with the three buttons.  The text of the dialog is fixed: it names the
    supported versions and the setting, and it is the same whatever the
    failure was.  [Download JDK] opens the download page, [Open Settings]
    opens the setting, and any other answer or a dismissed dialog does
    nothing more. *)
Theorem activation_failure_dialog (context : ExtensionContext) (w : Window)
    (e : Thrown) :
  result_of (findValidJavaRuntime context ≫= launchLanguageServer context) (host w)
    = Throw e ->
  exists n action,
    window_calls (snd (activate context w)) =
      window_calls w
      ++ (n, ShowErrorDialog activation_failure_text
               ["Download JDK"; "Open Settings"; "Dismiss"])
         :: map (pair n) action
      ++ [(n, OnDidChangeConfiguration); (n, SubscriptionsPush)] /\
    (dialog_answer w = Some "Download JDK" ->
     action = [OpenExternal "https://adoptium.net/en-GB/temurin/releases/"]) /\
    (dialog_answer w = Some "Open Settings" ->
     action = [ExecuteCommand "workbench.action.openSettings" "kope-java.javaHome"]) /\
    (dialog_answer w = Some "Dismiss" \/ dialog_answer w = None -> action = []).
Proof.
  intros Hfail. rewrite activate_run. cbv zeta. cbn [snd window_calls].
  rewrite Hfail.
  exists (length (trace (snd ((findValidJavaRuntime context
                               ≫= launchLanguageServer context) (host w))))),
    (match dialog_answer w with
     | Some choice =>
         if String.eqb choice "Download JDK"
         then [OpenExternal "https://adoptium.net/en-GB/temurin/releases/"]
         else if String.eqb choice "Open Settings"
         then [ExecuteCommand "workbench.action.openSettings" "kope-java.javaHome"]
         else []
     | None => []
     end).
  split.
  - rewrite map_app. reflexivity.
  - split; [by intros ->|]. split; [by intros ->|]. by intros [->| ->].
Qed.

(** X22.  When discovery returns a path, the packaged server is on disk,
    the data directory is there or can be created, and the client starts,
    activation stores the client that runs that path and shows no dialog:
    its only window calls are the two of the registration. *)
Theorem activation_succeeds (context : ExtensionContext) (w : Window)
    (path : string) :
  result_of (findValidJavaRuntime context) (host w) = Return path ->
  server_jar_path context ∈ fs (host w) ->
  data_directory_ready context (host w) ->
  start_answer (host w) (language_client context path) = Return tt ->
  client (host (snd (activate context w))) = Some (language_client context path) /\
  exists n,
    window_calls (snd (activate context w)) =
      window_calls w ++ [(n, OnDidChangeConfiguration); (n, SubscriptionsPush)].
Proof.
  intros Hfound Hjar Hready Hstart. rewrite activate_run. cbv zeta.
  cbn [snd host window_calls].
  pose proof (findValidJavaRuntime_at context (host w) (host w)
                (same_inputs_refl _)) as Hrun.
  rewrite Hfound in Hrun.
  destruct (launchLanguageServer_succeeds context path
              (log_all (events_of (findValidJavaRuntime context) (host w)) (host w))
              Hjar Hready Hstart) as (h' & Hlaunch & Hclient).
  assert ((findValidJavaRuntime context ≫= launchLanguageServer context) (host w)
          = (Return tt, h')) as Hattempt.
  { unfold mbind, M_bind. by rewrite Hrun. }
  unfold result_of. rewrite Hattempt. cbn [fst snd].
  split; [exact Hclient|]. by eexists.
Qed.

End ActivationExtras.

(** ** The lines of [where java] *)

Section SplitLines.

Import Js.

Lemma append_assoc (a b c : string) : (a +:+ b) +:+ c = a +:+ (b +:+ c).
Proof.
  induction a as [|x a IH]; [reflexivity|].
  change (String x ((a +:+ b) +:+ c) = String x (a +:+ (b +:+ c))). by rewrite IH.
Qed.

Lemma prefix_drop (sep s : string) :
  String.prefix sep s = true -> s = sep +:+ drop (String.length sep) s.
Proof.
  revert s. induction sep as [|x sep IH]; intros s; [reflexivity|].
  destruct s as [|y s]; [discriminate|]. simpl.
  destruct (Ascii.ascii_dec x y) as [->|]; [|discriminate].
  intros Hp. change (String y s = String y (sep +:+ drop (String.length sep) s)).
  by rewrite <- (IH s Hp).
Qed.

Lemma split_from_cons (sep : string) (k : nat) (cur : string) (c : ascii) (s : string) :
  split_from sep k cur (String c s) =
  match k with
  | S k' => split_from sep k' cur s
  | O =>
      if String.prefix sep (String c s)
      then cur :: split_from sep (String.length sep - 1) "" s
      else split_from sep 0 (cur +:+ String c "") s
  end.
Proof. reflexivity. Qed.

(** Passing over [k] bytes first is dropping them. *)
Lemma split_from_skip (sep : string) (k : nat) (cur s : string) :
  split_from sep k cur s = split_from sep 0 cur (drop k s).
Proof.
  revert k. induction s as [|c s IH]; intros k.
  - by destruct k.
  - destruct k as [|k]; [reflexivity|]. rewrite split_from_cons. apply IH.
Qed.

Lemma split_from_not_empty (sep : string) (k : nat) (cur s : string) :
  split_from sep k cur s <> [].
Proof.
  revert k cur. induction s as [|c s IH]; intros k cur; [done|].
  rewrite split_from_cons. destruct k as [|k]; [|apply IH].
  destruct (String.prefix sep (String c s)); [done | apply IH].
Qed.

Lemma concat_cons (sep x : string) (rest : list string) :
  rest <> [] -> String.concat sep (x :: rest) = x +:+ sep +:+ String.concat sep rest.
Proof. by destruct rest. Qed.

Lemma length_drop (k : nat) (s : string) :
  String.length (drop k s) <= String.length s.
Proof.
  revert s. induction k as [|k IH]; intros s; [done|].
  destruct s as [|c s]; simpl; [done|]. specialize (IH s). lia.
Qed.

Lemma concat_split_from (sep : string) (n : nat) :
  sep <> "" ->
  forall cur s, String.length s <= n ->
    String.concat sep (split_from sep 0 cur s) = cur +:+ s.
Proof.
  intros Hsep. induction n as [|n IH]; intros cur s Hlen.
  - destruct s; [|simpl in Hlen; lia]. simpl. by rewrite JsFacts.append_empty.
  - destruct s as [|c s]; [simpl; by rewrite JsFacts.append_empty|].
    simpl in Hlen.
    rewrite split_from_cons.
    destruct (String.prefix sep (String c s)) eqn:Hp.
    + rewrite concat_cons by apply split_from_not_empty.
      rewrite split_from_skip, IH by (pose proof (length_drop (String.length sep - 1) s); lia).
      change ("" +:+ ?x) with x.
      pose proof (prefix_drop _ _ Hp) as Heq.
      destruct sep as [|x sep]; [done|].
      simpl in Heq. rewrite Heq. simpl String.length.
      by replace (S (String.length sep) - 1) with (String.length sep) by lia.
    + rewrite IH by lia. by rewrite append_assoc.
Qed.

(** A separator at the head of a string is still there when the string
    goes on. *)
Lemma prefix_append (sep b s : string) :
  String.prefix sep b = true -> String.prefix sep (b +:+ s) = true.
Proof.
  revert b. induction sep as [|x sep IH]; intros b; [by destruct (b +:+ s)|].
  destruct b as [|y b]; [discriminate|].
  change (String y b +:+ s) with (String y (b +:+ s)). simpl.
  destruct (Ascii.ascii_dec x y); [apply IH | discriminate].
Qed.

(** A string holds no separator when none starts at any of its bytes. *)
Lemma includes_nowhere (sep cur : string) :
  sep <> "" ->
  (forall a b, cur = a +:+ b -> b <> "" -> String.prefix sep b = false) ->
  includes sep cur = false.
Proof.
  intros Hsep. induction cur as [|c cur IH]; intros Hnone.
  - destruct sep; [done|reflexivity].
  - change (includes sep (String c cur))
      with (String.prefix sep (String c cur) || includes sep cur).
    rewrite (Hnone "" (String c cur)) by done.
    apply IH. intros a b -> Hb. by apply (Hnone (String c a) b).
Qed.

(** The ends of a string that has grown by one byte are the ends of the
    string before, grown by that byte. *)
Lemma suffix_grown (cur : string) (c : ascii) (a b : string) :
  cur +:+ String c "" = a +:+ b -> b <> "" ->
  exists b0, b = b0 +:+ String c "" /\ cur = a +:+ b0.
Proof.
  revert cur. induction a as [|x a IH]; intros cur Heq Hb.
  - exists cur. by split.
  - destruct cur as [|y cur].
    + change (String c "" = String x (a +:+ b)) in Heq.
      injection Heq as _ Heq. by destruct a, b.
    + change (String y (cur +:+ String c "") = String x (a +:+ b)) in Heq.
      injection Heq as -> Heq.
      destruct (IH cur Heq Hb) as (b0 & -> & ->). by exists b0.
Qed.

(** While [split_from] collects a piece, no separator starts inside the
    piece, not even one that would run on into the rest of the string; so
    no piece that it returns holds the separator. *)
Lemma split_from_pieces (sep : string) (n : nat) :
  sep <> "" ->
  forall cur s, String.length s <= n ->
    (forall a b, cur = a +:+ b -> b <> "" -> String.prefix sep (b +:+ s) = false) ->
    Forall (fun piece => includes sep piece = false) (split_from sep 0 cur s).
Proof.
  intros Hsep. induction n as [|n IH]; intros cur s Hlen Hclean.
  - destruct s; [|simpl in Hlen; lia]. constructor; [|constructor].
    apply includes_nowhere; [exact Hsep|].
    intros a b Hcur Hb. specialize (Hclean a b Hcur Hb).
    by rewrite JsFacts.append_empty in Hclean.
  - destruct s as [|c s].
    { constructor; [|constructor]. apply includes_nowhere; [exact Hsep|].
      intros a b Hcur Hb. specialize (Hclean a b Hcur Hb).
      by rewrite JsFacts.append_empty in Hclean. }
    simpl in Hlen. rewrite split_from_cons.
    destruct (String.prefix sep (String c s)) eqn:Hp.
    + constructor.
      * apply includes_nowhere; [exact Hsep|].
        intros a b Hcur Hb. specialize (Hclean a b Hcur Hb).
        destruct (String.prefix sep b) eqn:Hpb; [|reflexivity].
        by rewrite (prefix_append sep b (String c s) Hpb) in Hclean.
      * rewrite split_from_skip. apply IH.
        -- pose proof (length_drop (String.length sep - 1) s). lia.
        -- intros a b Hempty Hb. by destruct a, b.
    + apply IH; [lia|].
      intros a b Hcur Hb.
      destruct (suffix_grown cur c a b Hcur Hb) as (b0 & -> & ->).
      rewrite append_assoc. change (String c "" +:+ s) with (String c s).
      destruct b0 as [|y b0]; [exact Hp|]. by apply (Hclean a (String y b0)).
Qed.

(** X23.  The lines that [findValidJavaRuntime] takes from the output of
    [where java] (line 193) are what is between the line ends, in the
    order in which they were printed: for a separator that is not empty,
    [split] returns at least one piece, no piece holds the separator, and
    the pieces joined by the separator are the string that was split. *)
Theorem split_then_join (sep s : string) :
  sep <> "" ->
  split sep s <> [] /\
  Forall (fun piece => includes sep piece = false) (split sep s) /\
  String.concat sep (split sep s) = s.
Proof.
  intros Hsep. split; [apply split_from_not_empty|]. split.
  - unfold split. apply (split_from_pieces sep (String.length s) Hsep); [done|].
    intros a b Hempty Hb. by destruct a, b.
  - unfold split. by rewrite (concat_split_from sep (String.length s) Hsep).
Qed.

End SplitLines.

(** ** The properties on the example machines *)

Import Win32.
Import Scenarios.

Lemma version_banner_on_stderr_witness :
  result_of (validateJavaPath "C:\jdk17") machine
  = Return (Valid "C:\jdk17\bin\java.exe").
Proof.
  refine (proj2 (proj2 (proj1 (version_banner_on_stderr "C:\jdk17" machine ""
                                 (banner "17.0.10") _ _ _ _)
                          "openjdk version " "17"
                          ("0.10" +:+ String Js.dquote " 2024-01-16") _ _ _ _))).
  - on_disk.
  - on_disk.
  - on_disk.
  - vm_compute. reflexivity.
  - vm_compute. reflexivity.
  - vm_compute. reflexivity.
  - discriminate.
  - vm_compute. reflexivity.
Defined.

(** C1 as stated fails: the three files are there, the version query runs
    to its end and prints the banner of a Java 17 on standard output, and
    validation answers that the version could not be determined. *)
Lemma banner_on_stdout_not_seen :
  "C:\jdk17" ∈ fs machine_banner_on_stdout /\
  java_exe "C:\jdk17" ∈ fs machine_banner_on_stdout /\
  javac_exe "C:\jdk17" ∈ fs machine_banner_on_stdout /\
  exec_answer machine_banner_on_stdout (version_command (java_exe "C:\jdk17"))
    = ExecDone (banner "17.0.10") "" /\
  Js.match_version (banner "17.0.10") = Some "17" /\
  Js.parseInt "17" = Js.Finite 17 /\
  result_of (validateJavaPath "C:\jdk17") machine_banner_on_stdout
    = Return (Invalid "Could not determine Java version.") /\
  result_of (validateJavaPath "C:\jdk17") machine_banner_on_stdout
    <> Return (Valid (java_exe "C:\jdk17")).
Proof.
  repeat split; try on_disk; try (vm_compute; reflexivity).
  vm_compute. discriminate.
Qed.

Lemma invalid_override_is_fatal_witness :
  result_of (findValidJavaRuntime installation) (with_override "C:\jdk11" machine)
  = Throw (new_Error ("Invalid Java installation at 'C:\jdk11'. "
                      +:+ "Version 11 is outside supported range (17-99).")).
Proof.
  refine (proj1 (invalid_override_is_fatal installation
                   (with_override "C:\jdk11" machine) "C:\jdk11"
                   "Version 11 is outside supported range (17-99)." _ _ _)).
  - vm_compute. reflexivity.
  - discriminate.
  - vm_compute. reflexivity.
Defined.

Lemma version_range_decides_witness :
  result_of (validateJavaPath "C:\jdk21") machine
  = Return (Valid (java_exe "C:\jdk21")).
Proof.
  refine (proj1 (proj1 (proj2 (proj2 (proj2 (proj2
            (version_range_decides "C:\jdk21" machine ""
               (banner "21.0.2") "21" _ _ _ _ _)))))
            21%N _) _).
  - on_disk.
  - on_disk.
  - on_disk.
  - vm_compute. reflexivity.
  - vm_compute. reflexivity.
  - vm_compute. reflexivity.
  - vm_compute. split; discriminate.
Defined.

Lemma validation_checks_in_order_witness :
  validateJavaPath "C:\broken" machine =
  (Return (Invalid ("The file '" +:+ java_exe "C:\broken" +:+ "' does not exist.")),
   log_all [ExistsSync "C:\broken"; ExistsSync (java_exe "C:\broken")] machine).
Proof.
  refine (proj2 (validation_checks_in_order "C:\broken" machine) _ _).
  - on_disk.
  - on_disk.
Defined.

Lemma search_path_first_valid_witness :
  result_of (findValidJavaRuntime installation) machine
  = Return "C:\jdk17\bin\java.exe".
Proof.
  refine (proj1 (search_path_first_valid installation machine
                   ("C:\jdk11\bin\java.exe" +:+ Js.CRLF
                    +:+ "C:\jdk17\bin\java.exe" +:+ Js.CRLF) ""
                   ["C:\jdk11\bin\java.exe"] [] "C:\jdk17\bin\java.exe"
                   "C:\jdk17\bin\java.exe" _ _ _ _ _ _)).
  - vm_compute. reflexivity.
  - intros home Hhome. vm_compute in Hhome. discriminate Hhome.
  - vm_compute. reflexivity.
  - vm_compute. reflexivity.
  - constructor; [|constructor].
    exists "Version 11 is outside supported range (17-99).".
    vm_compute. reflexivity.
  - vm_compute. reflexivity.
Defined.

Lemma validation_never_throws_witness :
  validateJavaPath "C:\locked" machine =
  (Return (Invalid "Could not execute 'java -version' successfully."),
   log_all [ExistsSync "C:\locked"; ExistsSync (java_exe "C:\locked");
            ExistsSync (javac_exe "C:\locked");
            Exec (version_command (java_exe "C:\locked"))] machine).
Proof.
  refine (proj2 (validation_never_throws "C:\locked" machine)
            (new_Error "Command failed") _ _ _ _).
  - on_disk.
  - on_disk.
  - on_disk.
  - vm_compute. reflexivity.
Defined.

Lemma restart_rediscovers_witness :
  client before_second_restart
  = Some (language_client installation "C:\jdk17\bin\java.exe") /\
  client (snd (restartLanguageServer installation before_second_restart))
  = Some (language_client installation "C:\jdk21\bin\java.exe").
Proof.
  split; [vm_compute; reflexivity|].
  refine (proj2 (proj2 (proj2 (proj1 (restart_rediscovers installation
                                        before_second_restart) _))
                   "C:\jdk21" "C:\jdk21\bin\java.exe" _ _ _ _ _)).
  - intros c _. vm_compute. reflexivity.
  - vm_compute. reflexivity.
  - discriminate.
  - vm_compute. reflexivity.
  - on_disk.
  - left. on_disk.
Defined.

Lemma missing_jar_fails_before_client_witness :
  result_of (launchLanguageServer installation "C:\jdk17\bin\java.exe")
    machine_without_jar
  = Throw (new_Error ("Java Language Server jar not found at: "
                      +:+ "E:\ext\server\jdt-language-server.jar" +:+ "." +:+ Js.LF
                      +:+ "Please reinstall the KopeCode Java extension.")).
Proof.
  refine (proj1 (proj1 (missing_jar_fails_before_client installation
                          "C:\jdk17\bin\java.exe" machine_without_jar _) _ _)).
  - on_disk.
  - on_disk.
  - right. reflexivity.
Defined.


(** C7 as stated fails: a client that runs Java 17 is live, the override
    has been changed to the Java 21 kit, which discovery would return, and
    the stop of the client is rejected.  The restart makes two calls, the
    stop and the message of the failure: discovery is not run, and the
    module variable keeps the client that runs Java 17. *)
Lemma restart_without_discovery :
  client machine_stop_fails = Some stuck_client /\
  command stuck_client = "C:\jdk17\bin\java.exe" /\
  settings machine_stop_fails !! "kope-java.javaHome" = Some "C:\jdk21" /\
  result_of (findValidJavaRuntime installation) machine_stop_fails
    = Return "C:\jdk21\bin\java.exe" /\
  events_of (restartLanguageServer installation) machine_stop_fails =
    [ClientStop stuck_client;
     ShowErrorMessage ("❌ Failed to restart Java Language Server: "
                       +:+ "Client is not running and can't be stopped.")] /\
  ~ (exists later,
        events_of (restartLanguageServer installation) machine_stop_fails =
        [ClientStop stuck_client]
        ++ events_of (findValidJavaRuntime installation) machine_stop_fails
        ++ later) /\
  client (snd (restartLanguageServer installation machine_stop_fails))
    = Some stuck_client.
Proof.
  repeat split; try (vm_compute; reflexivity).
  intros [later Hevents]. vm_compute in Hevents. discriminate Hevents.
Qed.

(** C8 as stated fails: the packaged server and the data directory are
    both absent and the installation directory cannot be written to.  The
    launch fails with the error of [mkdirSync], not with the error that
    asks for a reinstallation; the packaged server is not looked for and
    the data directory is not there afterwards. *)
Lemma read_only_installation :
  (server_jar_path installation ∉ fs machine_read_only) /\
  (server_data_path installation ∉ fs machine_read_only) /\
  result_of (launchLanguageServer installation "C:\jdk17\bin\java.exe")
    machine_read_only
    = Throw (new_Error
               "EPERM: operation not permitted, mkdir 'E:\ext\server-data'") /\
  result_of (launchLanguageServer installation "C:\jdk17\bin\java.exe")
    machine_read_only
    <> Throw (new_Error (jar_missing_message (server_jar_path installation))) /\
  events_of (launchLanguageServer installation "C:\jdk17\bin\java.exe")
    machine_read_only
    = [ExistsSync "E:\ext\server-data"; MkdirSync "E:\ext\server-data"] /\
  server_data_path installation
    ∉ fs (snd (launchLanguageServer installation "C:\jdk17\bin\java.exe"
                 machine_read_only)).
Proof.
  repeat split; try on_disk; try (vm_compute; reflexivity).
  vm_compute. discriminate.
Qed.

(** C9 as stated fails: on a machine on which nothing has run, a launch
    constructs a client whose start is rejected, so that no client is
    live.  [deactivate] on the host that the launch leaves is no no-op: it
    calls [stop] on the client that never started. *)
Lemma deactivate_after_failed_start :
  client machine_start_fails = None /\
  trace machine_start_fails = [] /\
  start_answer machine_start_fails
    (language_client installation "C:\jdk17\bin\java.exe")
    = Throw (new_Error "spawn C:\jdk17\bin\java.exe ENOENT") /\
  trace after_failed_start =
    [ExistsSync "E:\ext\server-data"; MkdirSync "E:\ext\server-data";
     ExistsSync "E:\ext\server\jdt-language-server.jar";
     NewLanguageClient (language_client installation "C:\jdk17\bin\java.exe");
     ClientStart (language_client installation "C:\jdk17\bin\java.exe");
     ShowErrorMessage "Failed to start Java Language Server. Java executable not found. Please verify the configured path."] /\
  events_of deactivate after_failed_start
    = [ClientStop (language_client installation "C:\jdk17\bin\java.exe")] /\
  deactivate after_failed_start <> (Return None, after_failed_start).
Proof.
  repeat split; try (vm_compute; reflexivity).
  intros Hnothing. apply (f_equal fst) in Hnothing.
  vm_compute in Hnothing. discriminate Hnothing.
Qed.

Lemma deactivate_stops_stored_client_witness :
  events_of deactivate after_failed_start
  = [ClientStop (language_client installation "C:\jdk17\bin\java.exe")].
Proof.
  refine (proj1 (proj2 (proj2 (proj2 (deactivate_stops_stored_client installation
                                        machine_start_fails))))
            "C:\jdk17\bin\java.exe" _ _).
  - on_disk.
  - right. reflexivity.
Defined.

(** ** The further properties on the example machines *)

Lemma match_version_spec_witness :
  Js.match_version (banner "17.0.10") = Some "17".
Proof.
  apply (proj2 (proj2 (match_version_spec (banner "17.0.10")) "17")).
  exists "openjdk version ", ("0.10" +:+ String Js.dquote " 2024-01-16").
  split; [vm_compute; reflexivity|]. split; [discriminate|].
  split; [vm_compute; reflexivity|].
  apply (proj1 (proj1 (match_version_spec "openjdk version "))).
  vm_compute. reflexivity.
Defined.

Lemma valid_iff_all_checks_pass_witness :
  result_of (validateJavaPath "C:\jdk17") machine
  = Return (Valid "C:\jdk17\bin\java.exe").
Proof.
  apply (proj2 (valid_iff_all_checks_pass "C:\jdk17" machine "C:\jdk17\bin\java.exe")).
  split; [vm_compute; reflexivity|].
  split; [on_disk|]. split; [on_disk|]. split; [on_disk|].
  exists "", (banner "17.0.10"), "17", 17%N.
  split; [vm_compute; reflexivity|]. split; [vm_compute; reflexivity|].
  split; [vm_compute; reflexivity|]. vm_compute. split; discriminate.
Defined.

Lemma dotless_version_not_recognised_witness :
  result_of (validateJavaPath "C:\jdk17") machine_dotless_banner
  = Return (Invalid "Could not determine Java version.").
Proof.
  refine (dotless_version_not_recognised "C:\jdk17" machine_dotless_banner ""
            "openjdk version " "17" " 2021-09-14" _ _ _ _ _ _ _).
  - on_disk.
  - on_disk.
  - on_disk.
  - vm_compute. reflexivity.
  - vm_compute. reflexivity.
  - vm_compute. reflexivity.
  - vm_compute. reflexivity.
Defined.

Lemma runtime_without_compiler_rejected_witness :
  result_of (validateJavaPath "C:\jre21") machine
  = Return (Invalid "It is not a JDK (missing 'javac.exe').").
Proof.
  unfold result_of.
  rewrite (runtime_without_compiler_rejected "C:\jre21" machine).
  - reflexivity.
  - on_disk.
  - on_disk.
  - on_disk.
Defined.

Lemma valid_override_wins_witness :
  result_of (findValidJavaRuntime installation) (with_override "C:\jdk21" machine)
  = Return "C:\jdk21\bin\java.exe".
Proof.
  refine (proj1 (valid_override_wins installation (with_override "C:\jdk21" machine)
                   "C:\jdk21" "C:\jdk21\bin\java.exe" _ _ _)).
  - vm_compute. reflexivity.
  - discriminate.
  - vm_compute. reflexivity.
Defined.

Lemma valid_java_home_is_used_witness :
  result_of (findValidJavaRuntime installation) machine_with_java_home
  = Return "C:\jdk21\bin\java.exe".
Proof.
  refine (proj1 (valid_java_home_is_used installation machine_with_java_home
                   "C:\jdk21" "C:\jdk21\bin\java.exe" _ _ _ _)).
  - vm_compute. reflexivity.
  - vm_compute. reflexivity.
  - discriminate.
  - vm_compute. reflexivity.
Defined.

Lemma discovery_exhausted_witness :
  result_of (findValidJavaRuntime installation) machine_without_java
  = Throw (new_Error no_runtime_message).
Proof.
  refine (proj1 (discovery_exhausted installation machine_without_java _ _ _)).
  - vm_compute. reflexivity.
  - intros home Hhome. vm_compute in Hhome. discriminate Hhome.
  - intros stdout stderr Hwhere. vm_compute in Hwhere. discriminate Hwhere.
Defined.

Lemma discovery_returns_validated_witness :
  exists root,
    result_of (validateJavaPath root) machine = Return (Valid "C:\jdk17\bin\java.exe").
Proof.
  destruct (discovery_returns_validated installation machine "C:\jdk17\bin\java.exe")
    as (root & Hvalid & _).
  - vm_compute. reflexivity.
  - by exists root.
Defined.

Lemma discovery_errors_witness :
  exists reason,
    result_of (validateJavaPath "C:\jdk11") (with_override "C:\jdk11" machine)
    = Return (Invalid reason).
Proof.
  destruct (discovery_errors installation (with_override "C:\jdk11" machine)
              (new_Error ("Invalid Java installation at 'C:\jdk11'. "
                          +:+ "Version 11 is outside supported range (17-99).")))
    as [(userPath & reason & Hset & _ & Hinvalid & _)|[Hset _]].
  - vm_compute. reflexivity.
  - vm_compute in Hset. injection Hset as <-. by exists reason.
  - vm_compute in Hset. discriminate Hset.
Defined.

Lemma failed_start_is_reported_witness :
  result_of (launchLanguageServer installation "C:\jdk17\bin\java.exe")
    machine_start_fails
  = Throw (new_Error "Failed to start Java Language Server. Java executable not found. Please verify the configured path.").
Proof.
  refine (proj1 (proj1 (failed_start_is_reported installation "C:\jdk17\bin\java.exe"
                          machine_start_fails _ _)
                   (new_Error "spawn C:\jdk17\bin\java.exe ENOENT") _)).
  - right. reflexivity.
  - on_disk.
  - vm_compute. reflexivity.
Defined.

Lemma launch_never_stops_witness :
  client machine_running = Some stuck_client /\
  client (snd (launchLanguageServer installation "C:\jdk21\bin\java.exe" machine_running))
  = Some (language_client installation "C:\jdk21\bin\java.exe").
Proof.
  split; [reflexivity|].
  refine (proj1 (proj2 (proj2 (launch_never_stops installation "C:\jdk21\bin\java.exe"
                                 machine_running))) _ _).
  - on_disk.
  - right. reflexivity.
Defined.


Lemma restart_with_failed_discovery_witness :
  client (snd (restartLanguageServer installation
                 (with_override "C:\jdk11" machine_running))) = None.
Proof.
  refine (proj1 (restart_with_failed_discovery installation
                   (with_override "C:\jdk11" machine_running)
                   (new_Error ("Invalid Java installation at 'C:\jdk11'. "
                               +:+ "Version 11 is outside supported range (17-99)."))
                   _ _)).
  - intros c _. vm_compute. reflexivity.
  - vm_compute. reflexivity.
Defined.

Lemma restart_gives_up_when_stop_fails_witness :
  result_of (restartLanguageServer installation) machine_stop_rejects_undefined
  = Throw (TypeError_no_properties "undefined" "message").
Proof.
  refine (proj1 (proj2 (proj2 (restart_gives_up_when_stop_fails installation
                                 machine_stop_rejects_undefined stuck_client _)) _)).
  - reflexivity.
  - reflexivity.
Defined.

Lemma deactivate_keeps_the_client_witness :
  client (snd (deactivate machine_running)) = Some stuck_client.
Proof.
  refine (proj1 (deactivate_keeps_the_client machine_running stuck_client _)).
  reflexivity.
Defined.

Lemma handlers_give_up_witness :
  exists shown,
    errorHandler_error (new_Error "Connection lost") (Some 2%N) machine
    = (Return Shutdown, log_all shown machine) /\
    shown = [ShowErrorMessage "KopeCode Java Language Server error: Connection lost"].
Proof.
  destruct (proj1 (handlers_give_up (new_Error "Connection lost") (Some 2%N) machine))
    as (shown & Hrun & Hshown & _).
  exists shown. split; [exact Hrun|].
  apply (Hshown 2%N); [reflexivity|]. vm_compute. discriminate.
Defined.

Lemma configuration_change_witness :
  configuration_listener installation {| affectsConfiguration := fun _ => false |}
    machine_running
  = (Return tt, machine_running).
Proof.
  refine (proj1 (configuration_change installation
                   {| affectsConfiguration := fun _ => false |}
                   machine_running) _).
  reflexivity.
Defined.

Lemma activation_never_throws_witness :
  fst (activate installation (window_on machine_without_java None)) = Return tt.
Proof.
  exact (proj1 (activation_never_throws installation
                  (window_on machine_without_java None))).
Defined.

Lemma activation_failure_dialog_witness :
  exists n,
    window_calls (snd (activate installation
                         (window_on machine_without_java (Some "Download JDK")))) =
    [(n, ShowErrorDialog activation_failure_text
           ["Download JDK"; "Open Settings"; "Dismiss"]);
     (n, OpenExternal "https://adoptium.net/en-GB/temurin/releases/");
     (n, OnDidChangeConfiguration); (n, SubscriptionsPush)].
Proof.
  destruct (activation_failure_dialog installation
              (window_on machine_without_java (Some "Download JDK"))
              (new_Error no_runtime_message))
    as (n & action & Hcalls & Hdownload & _).
  - vm_compute. reflexivity.
  - exists n. rewrite Hcalls, (Hdownload eq_refl). reflexivity.
Defined.

Lemma activation_succeeds_witness :
  client (host (snd (activate installation
                       (window_on (with_override "C:\jdk21" machine) None))))
  = Some (language_client installation "C:\jdk21\bin\java.exe").
Proof.
  refine (proj1 (activation_succeeds installation
                   (window_on (with_override "C:\jdk21" machine) None)
                   "C:\jdk21\bin\java.exe" _ _ _ _)).
  - vm_compute. reflexivity.
  - on_disk.
  - right. reflexivity.
  - vm_compute. reflexivity.
Defined.

Lemma split_then_join_witness :
  String.concat Js.CRLF
    (Js.split Js.CRLF ("C:\jdk11\bin\java.exe" +:+ Js.CRLF +:+ "C:\jdk17\bin\java.exe"))
  = "C:\jdk11\bin\java.exe" +:+ Js.CRLF +:+ "C:\jdk17\bin\java.exe".
Proof.
  refine (proj2 (proj2 (split_then_join Js.CRLF _ _))).
  vm_compute. discriminate.
Defined.
